(** * bottle-swagger: the Swagger plugin for Bottle, embedded and verified

    A shallow embedding of [bottle_swagger/__init__.py] (the package that
    [import bottle_swagger] loads) and the properties its specification
    states about it.

    - Part 1: the path translation of [SwaggerPlugin._swagger_op], that is
      Python's [re.sub] at the one pattern the plugin uses.
    - Part 2: Python values, exceptions, the request/response globals and
      the libraries the plugin calls (bravado-core, urllib, json).
    - Part 3: the plugin object: [__init__], [setup], [apply],
      [_swagger_validate] and the helpers they call.
    - Part 4: a small concrete schema library and application, used to run
      the plugin on explicit requests.
    - Part 5: the theorems. *)

From Stdlib Require Import ZArith Ascii String List Lia.
From stdpp Require Import base option strings pretty gmap.

Open Scope string_scope.

Set Warnings "-register-all".

(* ===================================================================== *)
(** * Part 1. Path translation                                           *)
(* ===================================================================== *)

(** [_swagger_op] rewrites the route rule with

      re.sub(r'/<(.+?)(:.+)?>', r'/{\1}', route.rule)

    The functions below are Python's backtracking matcher specialised to
    that pattern: group 1 is lazy, group 2 is optional and greedy, [.]
    matches any character but a newline, and [re.sub] replaces the
    leftmost non-overlapping matches from left to right. *)

Definition newline : ascii := ascii_of_nat 10.

(** [.] of the pattern. *)
Definition dot (c : ascii) : bool := negb (Ascii.eqb c newline).

(** A greedy run of [.] followed by [>]: the longest run is tried first
    and shortened one character at a time; the result is what follows the
    [>] that closes the match. *)
Fixpoint greedy_dots_then_gt (s : string) : option string :=
  match s with
  | EmptyString => None
  | String c t =>
      if dot c then
        match greedy_dots_then_gt t with
        | Some rest => Some rest
        | None => if Ascii.eqb c ">" then Some t else None
        end
      else None
  end.

(** [(:.+)?>] tried at [s]: first with the group ([:] then at least one
    [.], greedy), and when that fails without it. *)
Definition modifier_then_gt (s : string) : option string :=
  match
    match s with
    | String ":" (String c t) => if dot c then greedy_dots_then_gt t else None
    | _ => None
    end
  with
  | Some rest => Some rest
  | None => match s with String ">" rest => Some rest | _ => None end
  end.

(** [(.+?)] after its first character: [name] is group 1 so far; the rest
    of the pattern is tried before the group takes one more character. *)
Fixpoint lazy_name (name : string) (s : string) : option (string * string) :=
  match modifier_then_gt s with
  | Some rest => Some (name, rest)
  | None =>
      match s with
      | String c t =>
          if dot c then lazy_name (name +:+ String c "") t else None
      | EmptyString => None
      end
  end.

(** The whole pattern tried at the start of [s]: group 1 and what follows
    the match. *)
Definition match_here (s : string) : option (string * string) :=
  match s with
  | String "/" (String "<" (String c t)) =>
      if dot c then lazy_name (String c "") t else None
  | _ => None
  end.

(** [re.sub] with the replacement [/{\1}]. A match is never empty, so the
    text left to scan shrinks at every step and [S (length s)] steps are
    enough ([re_sub_total] below). *)
Fixpoint re_sub_from (fuel : nat) (s : string) : option string :=
  match fuel with
  | O => None
  | S fuel' =>
      match s with
      | EmptyString => Some ""
      | String c t =>
          match match_here s with
          | Some (name, rest) =>
              (fun r => "/{" +:+ name +:+ "}" +:+ r) <$> re_sub_from fuel' rest
          | None => String c <$> re_sub_from fuel' t
          end
      end
  end.

Definition re_sub (s : string) : option string :=
  re_sub_from (S (String.length s)) s.

(** The path [_swagger_op] looks up. *)
Definition swagger_path (rule : string) : string :=
  default rule (re_sub rule).

(** ** Rules as segments

    A rule whose translation is known: a sequence of literal segments,
    placeholders and typed placeholders in bottle's syntax, and the path
    it stands for in Swagger's. *)
Inductive segment :=
| Literal (text : string)
| Placeholder (name : string)
| Typed (name modifier : string).

(** A segment in bottle's syntax, followed by the rest of the rule. *)
Definition bottle_segment (seg : segment) (rest : string) : string :=
  match seg with
  | Literal text => "/" +:+ text +:+ rest
  | Placeholder name => "/<" +:+ name +:+ ">" +:+ rest
  | Typed name modifier => "/<" +:+ name +:+ ":" +:+ modifier +:+ ">" +:+ rest
  end.

(** The same segment in Swagger's syntax. *)
Definition swagger_segment (seg : segment) (rest : string) : string :=
  match seg with
  | Literal text => "/" +:+ text +:+ rest
  | Placeholder name | Typed name _ => "/{" +:+ name +:+ "}" +:+ rest
  end.

Fixpoint bottle_rule (segments : list segment) : string :=
  match segments with
  | [] => ""
  | seg :: rest => bottle_segment seg (bottle_rule rest)
  end.

Fixpoint swagger_rule (segments : list segment) : string :=
  match segments with
  | [] => ""
  | seg :: rest => swagger_segment seg (swagger_rule rest)
  end.

Fixpoint all_chars (p : ascii -> bool) (s : string) : bool :=
  match s with
  | EmptyString => true
  | String c t => p c && all_chars p t
  end.

(** A character of a placeholder's name: no newline, colon or [>]. *)
Definition name_char (c : ascii) : bool :=
  dot c && negb (Ascii.eqb c ":") && negb (Ascii.eqb c ">").

(** A character of a type modifier: no newline and no [>]. *)
Definition modifier_char (c : ascii) : bool :=
  dot c && negb (Ascii.eqb c ">").

Definition is_name (s : string) : bool :=
  negb (String.eqb s "") && all_chars name_char s.

Definition is_modifier (s : string) : bool :=
  negb (String.eqb s "") && all_chars modifier_char s.

(** Literal text opens no placeholder. *)
Definition is_literal (s : string) : bool :=
  all_chars (fun c => negb (Ascii.eqb c "<")) s.

Definition has_no_gt (s : string) : bool :=
  all_chars (fun c => negb (Ascii.eqb c ">")) s.

(** The rules the pattern translates: names, modifiers and literal text
    are what their names say, and no [>] comes after a typed
    placeholder. *)
Fixpoint translatable (segments : list segment) : bool :=
  match segments with
  | [] => true
  | Literal text :: rest => is_literal text && translatable rest
  | Placeholder name :: rest => is_name name && translatable rest
  | Typed name modifier :: rest =>
      is_name name && is_modifier modifier
      && has_no_gt (bottle_rule rest) && translatable rest
  end.

(** What a modifier group can take: any text of the line that is not
    empty, a [>] included. *)
Definition is_greedy_run (s : string) : bool :=
  negb (String.eqb s "") && all_chars dot s.

(* ===================================================================== *)
(** * Part 2. Python values, exceptions and the plugin's collaborators   *)
(* ===================================================================== *)

(** ** Strings *)

(** [s.startswith(prefix)] *)
Definition startswith (s prefix : string) : bool := String.prefix prefix s.

(** [s.lstrip("/")] *)
Fixpoint lstrip_slash (s : string) : string :=
  match s with
  | String "/" t => lstrip_slash t
  | _ => s
  end.

(** [s.rstrip("/")] *)
Fixpoint rstrip_slash (s : string) : string :=
  match s with
  | EmptyString => ""
  | String c t =>
      match rstrip_slash t with
      | EmptyString => if Ascii.eqb c "/" then "" else String c ""
      | t' => String c t'
      end
  end.

(** [s.strip("/")] *)
Definition strip_slash (s : string) : string := lstrip_slash (rstrip_slash s).

(** ** Values *)

(** Addresses of the dict objects that are shared and written in place
    (the schema document and the plugin's copy of it). *)
Abbreviation loc := nat (only parsing).

(** The Python values the plugin handles. A [PDict] or [PList] is a value
    nobody else holds; [PDictRef l] is the dict object at address [l] of
    the store; [PObj] is any other object (a bravado model, a file, ...). *)
Inductive pyval :=
| PNone
| PBool (b : bool)
| PInt (n : Z)
| PStr (s : string)
| PList (items : list pyval)
| PDict (items : list (string * pyval))
| PDictRef (l : loc)
| PObj (repr : string).

(** [isinstance(v, (dict, list))] *)
Definition is_dict_or_list (v : pyval) : bool :=
  match v with
  | PList _ | PDict _ | PDictRef _ => true
  | _ => false
  end.

(** The store of shared dict objects. *)
Abbreviation store := (gmap nat (gmap string pyval)) (only parsing).

(** ** Exceptions *)

(** The exception classes the plugin tells apart, and some it does not.
    [KeyboardInterrupt] and [SystemExit] derive from [BaseException] only;
    every other class derives from [Exception]; bottle's [HTTPResponse]
    does too (through [BottleException]). *)
Inductive exn_class :=
| ValidationError            (* jsonschema *)
| MatchingResponseNotFound   (* bravado_core.exception *)
| HTTPResponse               (* bottle *)
| AttributeError
| TypeError
| ValueError
| RuntimeError
| KeyboardInterrupt
| SystemExit.

#[global] Instance exn_class_eq_dec : EqDecision exn_class.
Proof. solve_decision. Defined.

Record exn := Exn { exn_type : exn_class; exn_str : string }.

#[global] Instance exn_eq_dec : EqDecision exn.
Proof. solve_decision. Defined.

(** [isinstance(e, Exception)] *)
Definition is_Exception (e : exn) : bool :=
  match exn_type e with
  | KeyboardInterrupt | SystemExit => false
  | _ => true
  end.

(** [isinstance(e, cls)] for the classes named in an [except] clause or an
    [isinstance] test of the plugin; none of them has a subclass here. *)
Definition isinstance (e : exn) (cls : exn_class) : bool :=
  bool_decide (exn_type e = cls).

(** A call returns a value or raises. *)
Inductive result (A : Type) :=
| Return (a : A)
| Raise (e : exn).
Arguments Return {A} a.
Arguments Raise {A} e.

(** ** The schema library's objects *)

(** [bravado_core.spec.Spec], as far as the plugin reads it: the dict it
    was built from (the same object, not a copy), the URL the API is
    served at, and its configuration. *)
Record Spec := {
  spec_dict : loc;
  api_url : string;
  config : gmap string pyval;
}.

(** [BottleIncomingRequest]: what the plugin hands to bravado-core of the
    request. *)
Record BottleIncomingRequest := {
  in_path : pyval;      (* bottle_request.url_args *)
  in_json : pyval;      (* request.json *)
  in_query : pyval;     (* request.query *)
  in_headers : pyval;   (* request.headers *)
  in_form : pyval;      (* request.forms *)
}.

(** [BottleOutgoingResponse]: what the plugin hands to bravado-core of the
    response. *)
Record BottleOutgoingResponse := {
  out_json : pyval;           (* response_json: the handler's result *)
  out_content_type : string;
  out_headers : pyval;
  out_text : string;          (* response.status, the status line *)
}.

(** ** Collaborators

    Everything the plugin calls and does not define, taken as it comes:
    the theorems of Part 5 hold for every schema library, every JSON
    encoder and every URL joiner of these types. *)
Class Externals := {
  (** [bravado_core.operation.Operation] *)
  Operation : Type;
  (** what [get_response_spec] returns *)
  ResponseSpec : Type;
  (** what the application's handlers read and write besides the request,
      the response and the store (a database, say) *)
  AppState : Type;
  (** [Spec.get_op_for_request(http_method, path_pattern)]: the operation,
      or [None] *)
  get_op_for_request : Spec -> string -> string -> option Operation;
  (** [bravado_core.request.unmarshal_request] *)
  unmarshal_request : BottleIncomingRequest -> Operation -> result pyval;
  (** [bravado_core.response.get_response_spec] *)
  get_response_spec : Z -> Operation -> result ResponseSpec;
  (** [bravado_core.response.validate_response] *)
  validate_response :
    ResponseSpec -> Operation -> BottleOutgoingResponse -> result unit;
  (** [bottle.json_dumps]; it reads the store when the value is a shared
      dict *)
  json_dumps : gmap nat (gmap string pyval) -> pyval -> result string;
  (** [six.moves.urllib.parse.urljoin] *)
  urljoin : string -> string -> string;
  (** [urlparse(url).path] *)
  urlparse_path : string -> string;
  (** what [Spec.from_dict] raises, if anything, for the dict at an
      address under a configuration: the document is malformed, or it
      fails structural validation and the configuration asks for it *)
  spec_build_error :
    gmap nat (gmap string pyval) -> loc -> gmap string pyval -> option exn;
  (** [bravado_core.spec.build_api_serving_url] of the dict *)
  build_api_serving_url : gmap nat (gmap string pyval) -> loc -> string;
  (** bottle's status line for a status code (the value of
      [response.status]) *)
  status_line : Z -> string;
}.

(** [Spec.from_dict(spec_dict, config=config)]: it raises what the build
    raises, and otherwise the [Spec] keeps the dict it was given. The
    build reads the document. What bravado writes while it builds (it
    tags the model definitions nested in the document) goes into dicts
    below the top level, which are no objects of the store here: the
    store holds the documents' top-level dicts, and the theorems on it
    speak of those. *)
Definition Spec_from_dict `{Externals}
    (st : store) (d : loc) (cfg : gmap string pyval) : result Spec :=
  match spec_build_error st d cfg with
  | Some e => Raise e
  | None =>
      Return {| spec_dict := d;
                api_url := build_api_serving_url st d;
                config := cfg |}
  end.

(** ** State and exceptions

    The plugin's code threads a state and may raise: a computation takes
    the state and gives a result and the state it leaves, also when it
    raises. *)
Definition ST (S A : Type) : Type := S -> result A * S.

Definition ret {S A} (a : A) : ST S A := fun s => (Return a, s).

Definition raise {S A} (e : exn) : ST S A := fun s => (Raise e, s).

Definition bind {S A B} (m : ST S A) (k : A -> ST S B) : ST S B :=
  fun s =>
    match m s with
    | (Return a, s') => k a s'
    | (Raise e, s') => (Raise e, s')
    end.

(** [try: body] followed by [except] clauses: [handler e] is the clause
    that catches [e], [None] when no clause does. An exception raised by a
    clause is not caught by this statement. *)
Definition try_except {S A} (body : ST S A) (handler : exn -> option (ST S A))
    : ST S A :=
  fun s =>
    match body s with
    | (Return a, s') => (Return a, s')
    | (Raise e, s') =>
        match handler e with
        | Some h => h s'
        | None => (Raise e, s')
        end
    end.

Notation "'let!' x ':=' m 'in' k" := (bind m (fun x => k))
  (at level 10, x name, m at level 100, k at level 200, only parsing).
Notation "'do!' m 'in' k" := (bind m (fun _ => k))
  (at level 10, m at level 100, k at level 200, only parsing).

(* ===================================================================== *)
(** * Part 3. The plugin                                                 *)
(* ===================================================================== *)

Section World.
Context `{Ext : Externals}.

(** ** bottle's [request] and [response], and the world a handler sees *)

Record Request := {
  req_method : string;                 (* request.method *)
  req_url_args : pyval;
  req_json : pyval;
  req_query : pyval;
  req_headers : pyval;
  req_forms : pyval;
  req_SCRIPT_NAME : string;            (* request.environ.get('SCRIPT_NAME', '') *)
  req_swagger_op : option Operation;   (* request.swagger_op, once set *)
  req_swagger_data : option pyval;     (* request.swagger_data, once set *)
}.

Record Response := {
  resp_status_code : Z;                (* response.status_code *)
  resp_content_type : string;          (* response.content_type *)
  resp_headers : pyval;
}.

Record World := {
  request : Request;
  response : Response;
  objects : store;
  app : AppState;
}.

Definition set_request (w : World) (r : Request) : World :=
  {| request := r; response := response w; objects := objects w; app := app w |}.

Definition set_response (w : World) (r : Response) : World :=
  {| request := request w; response := r; objects := objects w; app := app w |}.

Definition set_objects (w : World) (st : store) : World :=
  {| request := request w; response := response w; objects := st; app := app w |}.

(** [request.swagger_op = op] *)
Definition assign_swagger_op (op : Operation) (w : World) : World :=
  set_request w
    {| req_method := req_method (request w);
       req_url_args := req_url_args (request w);
       req_json := req_json (request w);
       req_query := req_query (request w);
       req_headers := req_headers (request w);
       req_forms := req_forms (request w);
       req_SCRIPT_NAME := req_SCRIPT_NAME (request w);
       req_swagger_op := Some op;
       req_swagger_data := req_swagger_data (request w) |}.

(** [request.swagger_data = data] *)
Definition assign_swagger_data (data : pyval) (w : World) : World :=
  set_request w
    {| req_method := req_method (request w);
       req_url_args := req_url_args (request w);
       req_json := req_json (request w);
       req_query := req_query (request w);
       req_headers := req_headers (request w);
       req_forms := req_forms (request w);
       req_SCRIPT_NAME := req_SCRIPT_NAME (request w);
       req_swagger_op := req_swagger_op (request w);
       req_swagger_data := Some data |}.

(** [response.status = status] *)
Definition assign_status (status : Z) (w : World) : World :=
  set_response w
    {| resp_status_code := status;
       resp_content_type := resp_content_type (response w);
       resp_headers := resp_headers (response w) |}.

(** [response.content_type = ct] *)
Definition assign_content_type (ct : string) (w : World) : World :=
  set_response w
    {| resp_status_code := resp_status_code (response w);
       resp_content_type := ct;
       resp_headers := resp_headers (response w) |}.

(** ** Effects

    User code (route callbacks and the four handlers) runs on the world:
    it returns or raises, and leaves a world behind either way. *)
Definition Eff (A : Type) : Type := World -> result A * World.

(** The calls the plugin makes, in the order it makes them. The log is
    the plugin's own: user code gets the world, not the log. *)
Inductive event :=
| EvGetOp (method path : string)     (* swagger.get_op_for_request *)
| EvUnmarshalRequest                 (* unmarshal_request *)
| EvCallback                         (* the route's callback *)
| EvGetResponseSpec (status : Z)     (* get_response_spec *)
| EvValidateResponse                 (* validate_response *)
| EvJsonDumps                        (* json_dumps *)
| EvInvalidRequestHandler (e : exn)
| EvInvalidResponseHandler (e : exn)
| EvNotFoundHandler (rule : string)
| EvExceptionHandler (e : exn).

#[global] Instance event_eq_dec : EqDecision event.
Proof. solve_decision. Defined.

Record MState := { world : World; trace : list event }.

(** The plugin's per-request code runs on the world and its log. *)
Definition M (A : Type) : Type := ST MState A.

(** A logged call of user code. *)
Definition call {A} (ev : event) (f : Eff A) : M A :=
  fun s =>
    let '(r, w) := f (world s) in
    (r, {| world := w; trace := trace s ++ [ev] |}).

(** A logged call of a library function that only computes. *)
Definition call_lib {A} (ev : event) (r : World -> result A) : M A :=
  call ev (fun w => (r w, w)).

(** An assignment to an attribute of [request] or [response]. *)
Definition modify (f : World -> World) : M unit :=
  fun s => (Return tt, {| world := f (world s); trace := trace s |}).

(** Reading the world. *)
Definition gets {A} (f : World -> A) : M A :=
  fun s => (Return (f (world s)), s).

End World.

(** ** Routes, handlers and the plugin object *)

Section Plugin.
Context `{Ext : Externals}.

(** A [bottle.Route]: its rule, and what [str(route)] prints. *)
Record Route := { rule : string; route_str : string }.

(** [_error_response(status, e)]; [msg] is [str(e)]. *)
Definition _error_response (status : Z) (msg : string) : Eff pyval :=
  fun w =>
    (Return (PDict [("code", PInt status); ("message", PStr msg)]),
     assign_status status w).

Definition default_server_error_handler (e : exn) : Eff pyval :=
  _error_response 500 (exn_str e).

Definition default_bad_request_handler (e : exn) : Eff pyval :=
  _error_response 400 (exn_str e).

Definition default_not_found_handler (r : Route) : Eff pyval :=
  _error_response 404 (route_str r).

(** The attributes of a constructed [SwaggerPlugin]. *)
Record SwaggerPlugin := {
  ignore_undefined_routes : bool;
  auto_jsonify : bool;
  invalid_request_handler : exn -> Eff pyval;
  invalid_response_handler : exn -> Eff pyval;
  swagger_op_not_found_handler : Route -> Eff pyval;
  exception_handler : exn -> Eff pyval;
  serve_swagger_schema : bool;
  serve_swagger_ui : bool;
  swagger_ui_validator_url : option string;
  swagger_schema_suburl : string;
  swagger_ui_suburl : string;
  bravado_config : gmap string pyval;
  swagger : Spec;
  swagger_base_path : string;
  adjust_api_base_path : bool;
  swagger_schema_url : string;
  swagger_ui_base_url : string;
}.

(** ** Request interception *)

Definition make_BottleIncomingRequest (r : Request) : BottleIncomingRequest :=
  {| in_path := req_url_args r;
     in_json := req_json r;
     in_query := req_query r;
     in_headers := req_headers r;
     in_form := req_forms r |}.

Definition make_BottleOutgoingResponse (r : Response) (response_json : pyval)
    : BottleOutgoingResponse :=
  {| out_json := response_json;
     out_content_type :=
       if bool_decide (resp_content_type r = "") then "application/json"
       else resp_content_type r;
     out_headers := resp_headers r;
     out_text := status_line (resp_status_code r) |}.

(** [_validate_request(swagger_op)] *)
Definition _validate_request (swagger_op : Operation) : M pyval :=
  call_lib EvUnmarshalRequest
    (fun w => unmarshal_request (make_BottleIncomingRequest (request w)) swagger_op).

(** [_validate_response(swagger_op, result)] *)
Definition _validate_response (swagger_op : Operation) (result : pyval) : M unit :=
  let! status_code := gets (fun w => resp_status_code (response w)) in
  let! response_spec :=
    call_lib (EvGetResponseSpec status_code)
      (fun _ => get_response_spec status_code swagger_op) in
  let! outgoing_response :=
    gets (fun w => make_BottleOutgoingResponse (response w) result) in
  call_lib EvValidateResponse
    (fun _ => validate_response response_spec swagger_op outgoing_response).

(** [self._swagger_op(route)] *)
Definition _swagger_op (self : SwaggerPlugin) (route : Route)
    : M (option Operation) :=
  let path := swagger_path (rule route) in
  let! method := gets (fun w => req_method (request w)) in
  call_lib (EvGetOp method path)
    (fun _ => Return (get_op_for_request (swagger self) method path)).

(** The body of the outer [try] of [_swagger_validate], up to the
    [return result] that follows the statement. A [return] inside an
    inner [except] clause is still inside the outer [try]: what the
    handler called there raises is caught by the outer clause. *)
Definition validated_call (self : SwaggerPlugin)
    (callback : list pyval -> Eff pyval) (args : list pyval)
    (swagger_op : Operation) : M pyval :=
  do! modify (assign_swagger_op swagger_op) in
  let! checked :=
    try_except
      (let! data := _validate_request swagger_op in
       do! modify (assign_swagger_data data) in
       ret None)
      (fun e =>
         if isinstance e ValidationError
         then Some (let! r := call (EvInvalidRequestHandler e)
                                (invalid_request_handler self e) in
                    ret (Some r))
         else None) in
  match checked with
  | Some returned => ret returned
  | None =>
      let! result := call EvCallback (callback args) in
      let! checked :=
        try_except
          (do! _validate_response swagger_op result in ret None)
          (fun e =>
             if isinstance e ValidationError
                || isinstance e MatchingResponseNotFound
             then Some (let! r := call (EvInvalidResponseHandler e)
                                    (invalid_response_handler self e) in
                        ret (Some r))
             else None) in
      match checked with
      | Some returned => ret returned
      | None =>
          if auto_jsonify self && is_dict_or_list result then
            let! text :=
              call_lib EvJsonDumps (fun w => json_dumps (objects w) result) in
            do! modify (assign_content_type "application/json") in
            ret (PStr text)
          else ret result
      end
  end.

(** [self._swagger_validate(callback, route, *args, **kwargs)] *)
Definition _swagger_validate (self : SwaggerPlugin)
    (callback : list pyval -> Eff pyval) (route : Route) (args : list pyval)
    : M pyval :=
  let! swagger_op := _swagger_op self route in
  match swagger_op with
  | None =>
      if negb (startswith (rule route) (swagger_base_path self))
         || ignore_undefined_routes self
      then call EvCallback (callback args)
      else if serve_swagger_schema self
              && bool_decide (rule route = swagger_schema_url self)
      then call EvCallback (callback args)
      else if serve_swagger_ui self
              && startswith (rule route) (swagger_ui_base_url self)
      then call EvCallback (callback args)
      else call (EvNotFoundHandler (rule route))
             (swagger_op_not_found_handler self route)
  | Some op =>
      try_except (validated_call self callback args op)
        (fun e =>
           if is_Exception e
           then Some (if isinstance e HTTPResponse then raise e
                      else call (EvExceptionHandler e) (exception_handler self e))
           else None)
  end.

(** [self.apply(callback, route)]: the wrapper bottle calls in place of
    the callback. *)
Definition apply (self : SwaggerPlugin) (callback : list pyval -> Eff pyval)
    (route : Route) : list pyval -> M pyval :=
  fun args => _swagger_validate self callback route args.

End Plugin.

(** ** Construction *)

(** The arguments of [SwaggerPlugin.__init__], under their Python names.
    An argument whose default is [None] is an [option]. *)
Module Args.
Section Args.
Context `{Ext : Externals}.

Record t := {
  swagger_def : loc;
  validate_swagger_spec : bool;
  validate_requests : bool;
  validate_responses : bool;
  use_bravado_models : bool;
  user_defined_formats : option (list pyval);
  include_missing_properties : bool;
  default_type_to_object : bool;
  internally_dereference_refs : bool;
  ignore_undefined_api_routes : bool;
  auto_jsonify : bool;
  invalid_request_handler : exn -> Eff pyval;
  invalid_response_handler : exn -> Eff pyval;
  swagger_op_not_found_handler : Route -> Eff pyval;
  exception_handler : exn -> Eff pyval;
  swagger_base_path : option string;
  adjust_api_base_path : bool;
  serve_swagger_schema : bool;
  swagger_schema_suburl : string;
  serve_swagger_ui : bool;
  swagger_ui_suburl : string;
  swagger_ui_validator_url : option string;
  extra_bravado_config : option (gmap string pyval);
}.

Definition DEFAULT_SWAGGER_SCHEMA_SUBURL : string := "/swagger.json".
Definition DEFAULT_SWAGGER_UI_SUBURL : string := "/ui/".

(** The defaults of the signature. *)
Definition defaults (swagger_def : loc) : t :=
  {| swagger_def := swagger_def;
     validate_swagger_spec := true;
     validate_requests := true;
     validate_responses := true;
     use_bravado_models := true;
     user_defined_formats := None;
     include_missing_properties := true;
     default_type_to_object := false;
     internally_dereference_refs := false;
     ignore_undefined_api_routes := false;
     auto_jsonify := true;
     invalid_request_handler := default_bad_request_handler;
     invalid_response_handler := default_server_error_handler;
     swagger_op_not_found_handler := default_not_found_handler;
     exception_handler := default_server_error_handler;
     swagger_base_path := None;
     adjust_api_base_path := true;
     serve_swagger_schema := true;
     swagger_schema_suburl := DEFAULT_SWAGGER_SCHEMA_SUBURL;
     serve_swagger_ui := false;
     swagger_ui_suburl := DEFAULT_SWAGGER_UI_SUBURL;
     swagger_ui_validator_url := None;
     extra_bravado_config := None |}.

(** Keyword arguments: the record with one argument given. *)
Definition set_serve_swagger_schema (b : bool) (a : t) : t :=
  {| swagger_def := swagger_def a;
     validate_swagger_spec := validate_swagger_spec a;
     validate_requests := validate_requests a;
     validate_responses := validate_responses a;
     use_bravado_models := use_bravado_models a;
     user_defined_formats := user_defined_formats a;
     include_missing_properties := include_missing_properties a;
     default_type_to_object := default_type_to_object a;
     internally_dereference_refs := internally_dereference_refs a;
     ignore_undefined_api_routes := ignore_undefined_api_routes a;
     auto_jsonify := auto_jsonify a;
     invalid_request_handler := invalid_request_handler a;
     invalid_response_handler := invalid_response_handler a;
     swagger_op_not_found_handler := swagger_op_not_found_handler a;
     exception_handler := exception_handler a;
     swagger_base_path := swagger_base_path a;
     adjust_api_base_path := adjust_api_base_path a;
     serve_swagger_schema := b;
     swagger_schema_suburl := swagger_schema_suburl a;
     serve_swagger_ui := serve_swagger_ui a;
     swagger_ui_suburl := swagger_ui_suburl a;
     swagger_ui_validator_url := swagger_ui_validator_url a;
     extra_bravado_config := extra_bravado_config a |}.

Definition set_serve_swagger_ui (b : bool) (a : t) : t :=
  {| swagger_def := swagger_def a;
     validate_swagger_spec := validate_swagger_spec a;
     validate_requests := validate_requests a;
     validate_responses := validate_responses a;
     use_bravado_models := use_bravado_models a;
     user_defined_formats := user_defined_formats a;
     include_missing_properties := include_missing_properties a;
     default_type_to_object := default_type_to_object a;
     internally_dereference_refs := internally_dereference_refs a;
     ignore_undefined_api_routes := ignore_undefined_api_routes a;
     auto_jsonify := auto_jsonify a;
     invalid_request_handler := invalid_request_handler a;
     invalid_response_handler := invalid_response_handler a;
     swagger_op_not_found_handler := swagger_op_not_found_handler a;
     exception_handler := exception_handler a;
     swagger_base_path := swagger_base_path a;
     adjust_api_base_path := adjust_api_base_path a;
     serve_swagger_schema := serve_swagger_schema a;
     swagger_schema_suburl := swagger_schema_suburl a;
     serve_swagger_ui := b;
     swagger_ui_suburl := swagger_ui_suburl a;
     swagger_ui_validator_url := swagger_ui_validator_url a;
     extra_bravado_config := extra_bravado_config a |}.

Definition set_swagger_base_path (base : option string) (a : t) : t :=
  {| swagger_def := swagger_def a;
     validate_swagger_spec := validate_swagger_spec a;
     validate_requests := validate_requests a;
     validate_responses := validate_responses a;
     use_bravado_models := use_bravado_models a;
     user_defined_formats := user_defined_formats a;
     include_missing_properties := include_missing_properties a;
     default_type_to_object := default_type_to_object a;
     internally_dereference_refs := internally_dereference_refs a;
     ignore_undefined_api_routes := ignore_undefined_api_routes a;
     auto_jsonify := auto_jsonify a;
     invalid_request_handler := invalid_request_handler a;
     invalid_response_handler := invalid_response_handler a;
     swagger_op_not_found_handler := swagger_op_not_found_handler a;
     exception_handler := exception_handler a;
     swagger_base_path := base;
     adjust_api_base_path := adjust_api_base_path a;
     serve_swagger_schema := serve_swagger_schema a;
     swagger_schema_suburl := swagger_schema_suburl a;
     serve_swagger_ui := serve_swagger_ui a;
     swagger_ui_suburl := swagger_ui_suburl a;
     swagger_ui_validator_url := swagger_ui_validator_url a;
     extra_bravado_config := extra_bravado_config a |}.

(** [validate_requests] and [validate_responses] given. *)
Definition set_validation (requests responses : bool) (a : t) : t :=
  {| swagger_def := swagger_def a;
     validate_swagger_spec := validate_swagger_spec a;
     validate_requests := requests;
     validate_responses := responses;
     use_bravado_models := use_bravado_models a;
     user_defined_formats := user_defined_formats a;
     include_missing_properties := include_missing_properties a;
     default_type_to_object := default_type_to_object a;
     internally_dereference_refs := internally_dereference_refs a;
     ignore_undefined_api_routes := ignore_undefined_api_routes a;
     auto_jsonify := auto_jsonify a;
     invalid_request_handler := invalid_request_handler a;
     invalid_response_handler := invalid_response_handler a;
     swagger_op_not_found_handler := swagger_op_not_found_handler a;
     exception_handler := exception_handler a;
     swagger_base_path := swagger_base_path a;
     adjust_api_base_path := adjust_api_base_path a;
     serve_swagger_schema := serve_swagger_schema a;
     swagger_schema_suburl := swagger_schema_suburl a;
     serve_swagger_ui := serve_swagger_ui a;
     swagger_ui_suburl := swagger_ui_suburl a;
     swagger_ui_validator_url := swagger_ui_validator_url a;
     extra_bravado_config := extra_bravado_config a |}.

End Args.
End Args.

Section Construction.
Context `{Ext : Externals}.

(** A value of an attribute of [self]. *)
Inductive attr :=
| ABool (b : bool)
| AStr (s : string)
| AOptStr (s : option string)
| AErrorHandler (h : exn -> Eff pyval)
| ARouteHandler (h : Route -> Eff pyval)
| AConfig (c : gmap string pyval)
| ASpec (s : Spec).

(** While [__init__] runs: the store of shared dicts, and [self.__dict__],
    which holds the attributes assigned so far. *)
Record InitState := {
  init_objects : store;
  self_dict : gmap string attr;
}.

Definition Init (A : Type) : Type := ST InitState A.

(** [self.name = v] *)
Definition setattr (name : string) (v : attr) : Init unit :=
  fun s =>
    (Return tt,
     {| init_objects := init_objects s;
        self_dict := <[name := v]> (self_dict s) |}).

(** [self.name]: the class defines none of the attributes read below, so
    an attribute that was not assigned yet is an [AttributeError]. *)
Definition getattr (name : string) : Init attr :=
  fun s =>
    match self_dict s !! name with
    | Some v => (Return v, s)
    | None =>
        (Raise (Exn AttributeError
                  ("'SwaggerPlugin' object has no attribute '" +:+ name +:+ "'")),
         s)
    end.

Definition type_error {A} (name : string) : Init A :=
  raise (Exn TypeError name).

Definition getattr_bool (name : string) : Init bool :=
  let! v := getattr name in
  match v with ABool b => ret b | _ => type_error name end.

Definition getattr_str (name : string) : Init string :=
  let! v := getattr name in
  match v with AStr s => ret s | _ => type_error name end.

Definition getattr_opt_str (name : string) : Init (option string) :=
  let! v := getattr name in
  match v with AOptStr s => ret s | _ => type_error name end.

Definition getattr_error_handler (name : string) : Init (exn -> Eff pyval) :=
  let! v := getattr name in
  match v with AErrorHandler h => ret h | _ => type_error name end.

Definition getattr_route_handler (name : string) : Init (Route -> Eff pyval) :=
  let! v := getattr name in
  match v with ARouteHandler h => ret h | _ => type_error name end.

Definition getattr_config (name : string) : Init (gmap string pyval) :=
  let! v := getattr name in
  match v with AConfig c => ret c | _ => type_error name end.

Definition getattr_spec (name : string) : Init Spec :=
  let! v := getattr name in
  match v with ASpec s => ret s | _ => type_error name end.

(** [dict(d)] for a document that is a dict object: a new dict object
    with the items of [d]; the values are shared, the dict is not. An
    address that holds no dict stands for an argument [dict] refuses (a
    number, [None]). What else [dict] accepts, a list of pairs for one,
    is not modelled: a statement on what a construction returns takes
    the document to be a dict. *)
Definition dict_copy (d : loc) : Init loc :=
  fun s =>
    match init_objects s !! d with
    | Some items =>
        let l := fresh (dom (init_objects s)) in
        (Return l,
         {| init_objects := <[l := items]> (init_objects s);
            self_dict := self_dict s |})
    | None => (Raise (Exn TypeError "swagger_def"), s)
    end.

(** [d.update(key=v)] *)
Definition dict_update (d : loc) (key : string) (v : pyval) : Init unit :=
  fun s =>
    (Return tt,
     {| init_objects := alter (insert key v) d (init_objects s);
        self_dict := self_dict s |}).

(** [a or b] on strings: [None] and the empty string are false. *)
Definition or_str (a : option string) (b : string) : string :=
  match a with
  | Some s => if bool_decide (s = "") then b else s
  | None => b
  end.

(** [a or {}] on dicts: [None] and the empty dict are false. *)
Definition or_empty_dict (a : option (gmap string pyval)) : gmap string pyval :=
  default ∅ a.

(** [SwaggerPlugin.__init__(self, swagger_def, ...)], statement by
    statement. *)
Definition __init__ (a : Args.t) : Init unit :=
  let! swagger_def := dict_copy (Args.swagger_def a) in
  do! match Args.swagger_base_path a with
      | Some base => dict_update swagger_def "basePath" (PStr base)
      | None => ret tt
      end in
  do! setattr "ignore_undefined_routes" (ABool (Args.ignore_undefined_api_routes a)) in
  do! setattr "auto_jsonify" (ABool (Args.auto_jsonify a)) in
  do! setattr "invalid_request_handler" (AErrorHandler (Args.invalid_request_handler a)) in
  do! setattr "invalid_response_handler" (AErrorHandler (Args.invalid_response_handler a)) in
  do! setattr "swagger_op_not_found_handler" (ARouteHandler (Args.swagger_op_not_found_handler a)) in
  do! setattr "exception_handler" (AErrorHandler (Args.exception_handler a)) in
  (* self.serve_swagger_schema = serve_swagger_schema or self.serve_swagger_ui *)
  let! serve_schema :=
    (if Args.serve_swagger_schema a then ret true
     else getattr_bool "serve_swagger_ui") in
  do! setattr "serve_swagger_schema" (ABool serve_schema) in
  do! setattr "serve_swagger_ui" (ABool (Args.serve_swagger_ui a)) in
  do! setattr "swagger_ui_validator_url" (AOptStr (Args.swagger_ui_validator_url a)) in
  do! setattr "swagger_schema_suburl" (AStr (Args.swagger_schema_suburl a)) in
  do! setattr "swagger_ui_suburl" (AStr (Args.swagger_ui_suburl a)) in
  do! setattr "bravado_config" (AConfig (or_empty_dict (Args.extra_bravado_config a))) in
  let! bravado_config := getattr_config "bravado_config" in
  do! setattr "bravado_config"
        (AConfig
           (list_to_map
              [("validate_swagger_spec", PBool (Args.validate_swagger_spec a));
               ("validate_requests", PBool (Args.validate_requests a));
               ("validate_responses", PBool (Args.validate_responses a));
               ("use_models", PBool (Args.use_bravado_models a));
               ("formats", PList (default [] (Args.user_defined_formats a)));
               ("include_missing_properties", PBool (Args.include_missing_properties a));
               ("default_type_to_object", PBool (Args.default_type_to_object a));
               ("internally_dereference_refs", PBool (Args.internally_dereference_refs a))]
            ∪ bravado_config)) in
  let! bravado_config := getattr_config "bravado_config" in
  let! swagger :=
    (fun s =>
       (Spec_from_dict (init_objects s) swagger_def bravado_config, s)) in
  do! setattr "swagger" (ASpec swagger) in
  let! swagger := getattr_spec "swagger" in
  do! setattr "swagger_base_path"
        (AStr (or_str (Args.swagger_base_path a)
                 (or_str (Some (urlparse_path (api_url swagger))) "/"))) in
  do! setattr "adjust_api_base_path" (ABool (Args.adjust_api_base_path a)) in
  let! base := getattr_str "swagger_base_path" in
  let fixed_base_path := rstrip_slash base +:+ "/" in
  let! schema_suburl := getattr_str "swagger_schema_suburl" in
  do! setattr "swagger_schema_url"
        (AStr (urljoin fixed_base_path (lstrip_slash schema_suburl))) in
  let! ui_suburl := getattr_str "swagger_ui_suburl" in
  setattr "swagger_ui_base_url"
    (AStr (urljoin fixed_base_path (lstrip_slash ui_suburl))).

(** A constructed object as its methods read it. *)
Definition read_plugin : Init SwaggerPlugin :=
  let! a1 := getattr_bool "ignore_undefined_routes" in
  let! a2 := getattr_bool "auto_jsonify" in
  let! a3 := getattr_error_handler "invalid_request_handler" in
  let! a4 := getattr_error_handler "invalid_response_handler" in
  let! a5 := getattr_route_handler "swagger_op_not_found_handler" in
  let! a6 := getattr_error_handler "exception_handler" in
  let! a7 := getattr_bool "serve_swagger_schema" in
  let! a8 := getattr_bool "serve_swagger_ui" in
  let! a9 := getattr_opt_str "swagger_ui_validator_url" in
  let! a10 := getattr_str "swagger_schema_suburl" in
  let! a11 := getattr_str "swagger_ui_suburl" in
  let! a12 := getattr_config "bravado_config" in
  let! a13 := getattr_spec "swagger" in
  let! a14 := getattr_str "swagger_base_path" in
  let! a15 := getattr_bool "adjust_api_base_path" in
  let! a16 := getattr_str "swagger_schema_url" in
  let! a17 := getattr_str "swagger_ui_base_url" in
  ret {| ignore_undefined_routes := a1;
         auto_jsonify := a2;
         invalid_request_handler := a3;
         invalid_response_handler := a4;
         swagger_op_not_found_handler := a5;
         exception_handler := a6;
         serve_swagger_schema := a7;
         serve_swagger_ui := a8;
         swagger_ui_validator_url := a9;
         swagger_schema_suburl := a10;
         swagger_ui_suburl := a11;
         bravado_config := a12;
         swagger := a13;
         swagger_base_path := a14;
         adjust_api_base_path := a15;
         swagger_schema_url := a16;
         swagger_ui_base_url := a17 |}.

(** [SwaggerPlugin(swagger_def, ...)]: a new object with no attribute of
    its own, then [__init__]. The result is the plugin or the exception,
    and the store as the call leaves it. *)
Definition new_SwaggerPlugin (a : Args.t) (st : store)
    : result SwaggerPlugin * store :=
  let '(r, s) :=
    (do! __init__ a in read_plugin)
      {| init_objects := st; self_dict := ∅ |} in
  (r, init_objects s).

End Construction.

(** ** Serving the schema and the UI *)

Section Serving.
Context `{Ext : Externals}.

(** The callbacks [setup] registers. *)
Inductive endpoint :=
| swagger_schema_endpoint
| swagger_ui_index_endpoint
| swagger_ui_assets_endpoint.

(** A route of the application: [app.get(rule)] adds one with method GET. *)
Record app_route := {
  route_method : string;
  route_rule : string;
  route_callback : endpoint;
}.

Definition app_get (rule : string) (callback : endpoint) (routes : list app_route)
    : list app_route :=
  routes ++ [{| route_method := "GET"; route_rule := rule; route_callback := callback |}].

(** [self.setup(app)]; the application is the list of its routes. *)
Definition setup (self : SwaggerPlugin) (routes : list app_route) : list app_route :=
  let routes :=
    if serve_swagger_schema self
    then app_get (swagger_schema_url self) swagger_schema_endpoint routes
    else routes in
  if serve_swagger_ui self
  then app_get (urljoin (swagger_ui_base_url self) "<path:path>")
         swagger_ui_assets_endpoint
         (app_get (swagger_ui_base_url self) swagger_ui_index_endpoint routes)
  else routes.

(** [key in d] for the dict object at [d]. *)
Definition dict_contains (st : store) (d : loc) (key : string) : bool :=
  match st !! d with
  | Some items => bool_decide (is_Some (items !! key))
  | None => false
  end.

(** The base path the schema endpoint reports. *)
Definition adjusted_base_path (self : SwaggerPlugin) (w : World) : string :=
  urljoin
    (urljoin "/" (strip_slash (req_SCRIPT_NAME (request w)) +:+ "/"))
    (lstrip_slash (swagger_base_path self)).

(** The callback [swagger_schema] that [setup] registers: it returns the
    dict object of the [Spec] itself, after writing to it. *)
Definition swagger_schema (self : SwaggerPlugin) : Eff pyval :=
  fun w =>
    let spec_dict := spec_dict (swagger self) in
    if adjust_api_base_path self && dict_contains (objects w) spec_dict "basePath"
    then
      (Return (PDictRef spec_dict),
       set_objects w
         (alter (insert "basePath" (PStr (adjusted_base_path self w)))
            spec_dict (objects w)))
    else (Return (PDictRef spec_dict), w).

End Serving.

(** ** The single-file module

    [bottle_swagger.py] holds an earlier [SwaggerPlugin], without the UI
    and without the base-path adjustment. Its [_error_response], default
    handlers, [_validate_request], [_validate_response] and the two
    request and response wrappers are the same text as the package's;
    its [__init__], [setup], [_swagger_validate] and [_swagger_op] are
    embedded here. *)
Module Legacy.

Module Args.
Section Args.
Context `{Ext : Externals}.

Record t := {
  swagger_def : loc;
  validate_swagger_spec : bool;
  validate_requests : bool;
  validate_responses : bool;
  use_bravado_models : bool;
  user_defined_formats : option (list pyval);
  include_missing_properties : bool;
  default_type_to_object : bool;
  internally_dereference_refs : bool;
  ignore_undefined_api_routes : bool;
  auto_jsonify : bool;
  invalid_request_handler : exn -> Eff pyval;
  invalid_response_handler : exn -> Eff pyval;
  swagger_op_not_found_handler : Route -> Eff pyval;
  exception_handler : exn -> Eff pyval;
  serve_swagger_schema : bool;
  swagger_base_path : option string;
  swagger_schema_suburl : string;
  extra_bravado_config : option (gmap string pyval);
}.

Definition DEFAULT_SWAGGER_SCHEMA_SUBURL : string := "/swagger.json".

(** The defaults of the signature, with [serve_swagger_schema] given. *)
Definition defaults (swagger_def : loc) (serve_swagger_schema : bool) : t :=
  {| swagger_def := swagger_def;
     validate_swagger_spec := true;
     validate_requests := true;
     validate_responses := true;
     use_bravado_models := true;
     user_defined_formats := None;
     include_missing_properties := true;
     default_type_to_object := false;
     internally_dereference_refs := false;
     ignore_undefined_api_routes := false;
     auto_jsonify := true;
     invalid_request_handler := default_bad_request_handler;
     invalid_response_handler := default_server_error_handler;
     swagger_op_not_found_handler := default_not_found_handler;
     exception_handler := default_server_error_handler;
     serve_swagger_schema := serve_swagger_schema;
     swagger_base_path := None;
     swagger_schema_suburl := DEFAULT_SWAGGER_SCHEMA_SUBURL;
     extra_bravado_config := None |}.

(** [validate_requests] and [validate_responses] given. *)
Definition set_validation (requests responses : bool) (a : t) : t :=
  {| swagger_def := swagger_def a;
     validate_swagger_spec := validate_swagger_spec a;
     validate_requests := requests;
     validate_responses := responses;
     use_bravado_models := use_bravado_models a;
     user_defined_formats := user_defined_formats a;
     include_missing_properties := include_missing_properties a;
     default_type_to_object := default_type_to_object a;
     internally_dereference_refs := internally_dereference_refs a;
     ignore_undefined_api_routes := ignore_undefined_api_routes a;
     auto_jsonify := auto_jsonify a;
     invalid_request_handler := invalid_request_handler a;
     invalid_response_handler := invalid_response_handler a;
     swagger_op_not_found_handler := swagger_op_not_found_handler a;
     exception_handler := exception_handler a;
     serve_swagger_schema := serve_swagger_schema a;
     swagger_base_path := swagger_base_path a;
     swagger_schema_suburl := swagger_schema_suburl a;
     extra_bravado_config := extra_bravado_config a |}.

End Args.
End Args.

Section Legacy.
Context `{Ext : Externals}.

(** The attributes of a constructed object. *)
Record SwaggerPlugin := {
  ignore_undefined_routes : bool;
  auto_jsonify : bool;
  invalid_request_handler : exn -> Eff pyval;
  invalid_response_handler : exn -> Eff pyval;
  swagger_op_not_found_handler : Route -> Eff pyval;
  exception_handler : exn -> Eff pyval;
  serve_swagger_schema : bool;
  swagger_schema_suburl : string;
  bravado_config : gmap string pyval;
  swagger : Spec;
  swagger_base_path : string;
}.

(** [SwaggerPlugin.__init__(self, swagger_def, ...)], statement by
    statement. *)
Definition __init__ (a : Args.t) : Init unit :=
  let! swagger_def := dict_copy (Args.swagger_def a) in
  do! match Args.swagger_base_path a with
      | Some base => dict_update swagger_def "basePath" (PStr base)
      | None => ret tt
      end in
  do! setattr "ignore_undefined_routes" (ABool (Args.ignore_undefined_api_routes a)) in
  do! setattr "auto_jsonify" (ABool (Args.auto_jsonify a)) in
  do! setattr "invalid_request_handler" (AErrorHandler (Args.invalid_request_handler a)) in
  do! setattr "invalid_response_handler" (AErrorHandler (Args.invalid_response_handler a)) in
  do! setattr "swagger_op_not_found_handler" (ARouteHandler (Args.swagger_op_not_found_handler a)) in
  do! setattr "exception_handler" (AErrorHandler (Args.exception_handler a)) in
  do! setattr "serve_swagger_schema" (ABool (Args.serve_swagger_schema a)) in
  do! setattr "swagger_schema_suburl" (AStr (Args.swagger_schema_suburl a)) in
  do! setattr "bravado_config" (AConfig (or_empty_dict (Args.extra_bravado_config a))) in
  let! bravado_config := getattr_config "bravado_config" in
  do! setattr "bravado_config"
        (AConfig
           (list_to_map
              [("validate_swagger_spec", PBool (Args.validate_swagger_spec a));
               ("validate_requests", PBool (Args.validate_requests a));
               ("validate_responses", PBool (Args.validate_responses a));
               ("use_models", PBool (Args.use_bravado_models a));
               ("formats", PList (default [] (Args.user_defined_formats a)));
               ("include_missing_properties", PBool (Args.include_missing_properties a));
               ("default_type_to_object", PBool (Args.default_type_to_object a));
               ("internally_dereference_refs", PBool (Args.internally_dereference_refs a))]
            ∪ bravado_config)) in
  let! bravado_config := getattr_config "bravado_config" in
  let! swagger :=
    (fun s =>
       (Spec_from_dict (init_objects s) swagger_def bravado_config, s)) in
  do! setattr "swagger" (ASpec swagger) in
  let! swagger := getattr_spec "swagger" in
  setattr "swagger_base_path"
    (AStr (or_str (Args.swagger_base_path a)
             (or_str (Some (urlparse_path (api_url swagger))) "/"))).

(** A constructed object as its methods read it. *)
Definition read_plugin : Init SwaggerPlugin :=
  let! a1 := getattr_bool "ignore_undefined_routes" in
  let! a2 := getattr_bool "auto_jsonify" in
  let! a3 := getattr_error_handler "invalid_request_handler" in
  let! a4 := getattr_error_handler "invalid_response_handler" in
  let! a5 := getattr_route_handler "swagger_op_not_found_handler" in
  let! a6 := getattr_error_handler "exception_handler" in
  let! a7 := getattr_bool "serve_swagger_schema" in
  let! a8 := getattr_str "swagger_schema_suburl" in
  let! a9 := getattr_config "bravado_config" in
  let! a10 := getattr_spec "swagger" in
  let! a11 := getattr_str "swagger_base_path" in
  ret {| ignore_undefined_routes := a1;
         auto_jsonify := a2;
         invalid_request_handler := a3;
         invalid_response_handler := a4;
         swagger_op_not_found_handler := a5;
         exception_handler := a6;
         serve_swagger_schema := a7;
         swagger_schema_suburl := a8;
         bravado_config := a9;
         swagger := a10;
         swagger_base_path := a11 |}.

(** [SwaggerPlugin(swagger_def, ...)] *)
Definition new_SwaggerPlugin (a : Args.t) (st : store)
    : result SwaggerPlugin * store :=
  let '(r, s) :=
    (do! __init__ a in read_plugin)
      {| init_objects := st; self_dict := ∅ |} in
  (r, init_objects s).

(** The callback [swagger_schema] of [setup]: the dict object of the
    [Spec], as it is. *)
Definition swagger_schema (self : SwaggerPlugin) : Eff pyval :=
  fun w => (Return (PDictRef (spec_dict (swagger self))), w).

(** [self.setup(app)] *)
Definition setup (self : SwaggerPlugin) (routes : list app_route) : list app_route :=
  if serve_swagger_schema self
  then app_get (urljoin (swagger_base_path self) (swagger_schema_suburl self))
         swagger_schema_endpoint routes
  else routes.

(** [self._swagger_op(route)] *)
Definition _swagger_op (self : SwaggerPlugin) (route : Route)
    : M (option Operation) :=
  let path := swagger_path (rule route) in
  let! method := gets (fun w => req_method (request w)) in
  call_lib (EvGetOp method path)
    (fun _ => Return (get_op_for_request (swagger self) method path)).

(** The body of the outer [try] of [_swagger_validate], up to the
    [return result] that follows the statement. *)
Definition validated_call (self : SwaggerPlugin)
    (callback : list pyval -> Eff pyval) (args : list pyval)
    (swagger_op : Operation) : M pyval :=
  do! modify (assign_swagger_op swagger_op) in
  let! checked :=
    try_except
      (let! data := _validate_request swagger_op in
       do! modify (assign_swagger_data data) in
       ret None)
      (fun e =>
         if isinstance e ValidationError
         then Some (let! r := call (EvInvalidRequestHandler e)
                                (invalid_request_handler self e) in
                    ret (Some r))
         else None) in
  match checked with
  | Some returned => ret returned
  | None =>
      let! result := call EvCallback (callback args) in
      let! checked :=
        try_except
          (do! _validate_response swagger_op result in ret None)
          (fun e =>
             if isinstance e ValidationError
                || isinstance e MatchingResponseNotFound
             then Some (let! r := call (EvInvalidResponseHandler e)
                                    (invalid_response_handler self e) in
                        ret (Some r))
             else None) in
      match checked with
      | Some returned => ret returned
      | None =>
          if auto_jsonify self && is_dict_or_list result then
            let! text :=
              call_lib EvJsonDumps (fun w => json_dumps (objects w) result) in
            do! modify (assign_content_type "application/json") in
            ret (PStr text)
          else ret result
      end
  end.

(** [self._swagger_validate(callback, route, *args, **kwargs)] *)
Definition _swagger_validate (self : SwaggerPlugin)
    (callback : list pyval -> Eff pyval) (route : Route) (args : list pyval)
    : M pyval :=
  let! swagger_op := _swagger_op self route in
  match swagger_op with
  | None =>
      if negb (startswith (rule route) (swagger_base_path self))
         || ignore_undefined_routes self
      then call EvCallback (callback args)
      else if serve_swagger_schema self
              && bool_decide
                   (rule route
                    = urljoin (swagger_base_path self) (swagger_schema_suburl self))
      then call EvCallback (callback args)
      else call (EvNotFoundHandler (rule route))
             (swagger_op_not_found_handler self route)
  | Some op =>
      try_except (validated_call self callback args op)
        (fun e =>
           if is_Exception e
           then Some (if isinstance e HTTPResponse then raise e
                      else call (EvExceptionHandler e) (exception_handler self e))
           else None)
  end.

(** [self.apply(callback, route)] *)
Definition apply (self : SwaggerPlugin) (callback : list pyval -> Eff pyval)
    (route : Route) : list pyval -> M pyval :=
  fun args => _swagger_validate self callback route args.

End Legacy.
End Legacy.

(* ===================================================================== *)
(** * Part 4. A concrete schema library and application                  *)
(* ===================================================================== *)

(** A pet store: three operations under [/api], a JSON encoder for plain
    values, and [urljoin] on URLs that are a path and nothing else. The
    theorems of Part 5 do not depend on it; it is what they are run on. *)
Module PetStore.

(** [urllib.parse.urljoin] for a base and a reference that have no
    scheme, host, parameters, query or fragment: the branch of the
    library function that merges the two paths. *)
Fixpoint split_slash (s : string) : list string :=
  match s with
  | EmptyString => [""]
  | String c t =>
      if Ascii.eqb c "/" then "" :: split_slash t
      else match split_slash t with
           | p :: ps => String c p :: ps
           | [] => [String c ""]
           end
  end.

Definition nonempty (s : string) : bool := negb (bool_decide (s = "")).

(** [segments[1:-1] = filter(None, segments[1:-1])] *)
Definition filter_middle (segments : list string) : list string :=
  match segments with
  | [] => []
  | first :: rest =>
      match rev rest with
      | [] => [first]
      | last :: middle =>
          (first :: List.filter nonempty (rev middle) ++ [last])%list
      end
  end.

Definition resolve_dots (segments : list string) : list string :=
  fold_left
    (fun resolved seg =>
       if bool_decide (seg = "..") then removelast resolved
       else if bool_decide (seg = ".") then resolved
       else (resolved ++ [seg])%list)
    segments ([] : list string).

Definition urljoin (base url : string) : string :=
  if bool_decide (base = "") then url
  else if bool_decide (url = "") then base
  else
    let base_parts := split_slash base in
    let base_parts :=
      if nonempty (List.last base_parts "") then removelast base_parts
      else base_parts in
    let segments :=
      if startswith url "/" then split_slash url
      else filter_middle (base_parts ++ split_slash url)%list in
    let resolved := resolve_dots segments in
    let resolved :=
      if bool_decide (List.last segments "" = ".")
         || bool_decide (List.last segments "" = "..")
      then (resolved ++ [""])%list
      else resolved in
    let path := String.concat "/" resolved in
    if bool_decide (path = "") then "/" else path.

Definition origin : string := "http://localhost".

(** [urlparse(url).path] for the URLs [build_api_serving_url] makes. *)
Definition urlparse_path (url : string) : string :=
  if startswith url origin
  then String.substring (String.length origin)
         (String.length url - String.length origin) url
  else url.

Definition build_api_serving_url (st : store) (d : loc) : string :=
  match st !! d with
  | Some items =>
      match items !! "basePath" with
      | Some (PStr base) => origin +:+ base
      | _ => origin +:+ "/"
      end
  | None => origin +:+ "/"
  end.

(** Structural validation: a document must say which Swagger it is. *)
Definition spec_build_error (st : store) (d : loc) (cfg : gmap string pyval)
    : option exn :=
  match st !! d with
  | None => Some (Exn TypeError "spec_dict")
  | Some items =>
      match cfg !! "validate_swagger_spec", items !! "swagger" with
      | Some (PBool true), None =>
          Some (Exn ValueError "'swagger' is a required property")
      | _, _ => None
      end
  end.

Definition get_op_for_request (_ : Spec) (method path : string) : option string :=
  if bool_decide (path = "/api/pets") then
    if bool_decide (method = "GET") then Some "listPets"
    else if bool_decide (method = "POST") then Some "addPet"
    else None
  else if bool_decide (path = "/api/pets/{id}") then
    if bool_decide (method = "GET") then Some "getPet" else None
  else None.

Definition has_key (v : pyval) (key : string) : bool :=
  match v with
  | PDict items => bool_decide (key ∈ items.*1)
  | _ => false
  end.

Definition required_name : exn :=
  Exn ValidationError "'name' is a required property".

Definition unmarshal_request (r : BottleIncomingRequest) (op : string)
    : result pyval :=
  if bool_decide (op = "addPet") then
    if has_key (in_json r) "name" then Return (PDict [("pet", in_json r)])
    else Raise required_name
  else Return (PDict [("path", in_path r)]).

Definition get_response_spec (status : Z) (op : string) : result string :=
  if bool_decide (status = 200%Z) then Return op
  else Raise (Exn MatchingResponseNotFound "Response specification matching http status not found").

Definition validate_response (response_spec op : string)
    (r : BottleOutgoingResponse) : result unit :=
  if bool_decide (op = "listPets") then
    match out_json r with
    | PList _ => Return tt
    | _ => Raise (Exn ValidationError "is not of type 'array'")
    end
  else if has_key (out_json r) "name" then Return tt
  else Raise required_name.

(** JSON text of a plain value; an object that is not JSON has none. *)
Definition quote : string := String (ascii_of_nat 34) "".

Definition join_comma (parts : list string) : string := String.concat ", " parts.

Fixpoint dumps (v : pyval) : option string :=
  match v with
  | PNone => Some "null"
  | PBool b => Some (if b then "true" else "false")
  | PInt n => Some (pretty n)
  | PStr s => Some (quote +:+ s +:+ quote)
  | PList items =>
      (fun parts => "[" +:+ join_comma parts +:+ "]") <$>
      (fix elements (l : list pyval) : option (list string) :=
         match l with
         | [] => Some []
         | x :: l' =>
             match dumps x, elements l' with
             | Some a, Some b => Some (a :: b)
             | _, _ => None
             end
         end) items
  | PDict items =>
      (fun parts => "{" +:+ join_comma parts +:+ "}") <$>
      (fix members (l : list (string * pyval)) : option (list string) :=
         match l with
         | [] => Some []
         | (k, x) :: l' =>
             match dumps x, members l' with
             | Some a, Some b => Some ((quote +:+ k +:+ quote +:+ ": " +:+ a) :: b)
             | _, _ => None
             end
         end) items
  | PDictRef _ | PObj _ => None
  end.

Definition json_dumps (st : store) (v : pyval) : result string :=
  let plain :=
    match v with
    | PDictRef l => PDict <$> (map_to_list <$> st !! l)
    | _ => Some v
    end in
  match plain ≫= dumps with
  | Some text => Return text
  | None => Raise (Exn TypeError "Object is not JSON serializable")
  end.

Definition status_line (status : Z) : string :=
  if bool_decide (status = 200%Z) then "200 OK"
  else if bool_decide (status = 400%Z) then "400 Bad Request"
  else if bool_decide (status = 404%Z) then "404 Not Found"
  else if bool_decide (status = 500%Z) then "500 Internal Server Error"
  else pretty status +:+ " Unknown".

(** The application state is the list of the writes its handlers made to
    the database, latest first. *)
Definition externals : Externals :=
  Build_Externals string string (list string)
    get_op_for_request unmarshal_request get_response_spec validate_response
    json_dumps urljoin urlparse_path spec_build_error build_api_serving_url
    status_line.

#[local] Existing Instance externals.

(** The schema document the application loads, at address 0 of its
    store. *)
Definition schema : gmap string pyval :=
  list_to_map
    [("swagger", PStr "2.0"); ("basePath", PStr "/api"); ("paths", PObj "paths")].

Definition caller_store : store := {[ 0 := schema ]}.

(** The configuration every default of the signature gives. *)
Definition default_config : gmap string pyval :=
  list_to_map
    [("validate_swagger_spec", PBool true);
     ("validate_requests", PBool true);
     ("validate_responses", PBool true);
     ("use_models", PBool true);
     ("formats", PList []);
     ("include_missing_properties", PBool true);
     ("default_type_to_object", PBool false);
     ("internally_dereference_refs", PBool false)].

(** [SwaggerPlugin(schema, ignore_undefined_api_routes=ignore,
    auto_jsonify=jsonify)]: the plugin's copy of the document is at
    address 1. *)
Definition plugin_with (ignore jsonify : bool) : SwaggerPlugin :=
  {| ignore_undefined_routes := ignore;
     auto_jsonify := jsonify;
     invalid_request_handler := default_bad_request_handler;
     invalid_response_handler := default_server_error_handler;
     swagger_op_not_found_handler := default_not_found_handler;
     exception_handler := default_server_error_handler;
     serve_swagger_schema := true;
     serve_swagger_ui := false;
     swagger_ui_validator_url := None;
     swagger_schema_suburl := "/swagger.json";
     swagger_ui_suburl := "/ui/";
     bravado_config := default_config;
     swagger :=
       {| spec_dict := 1;
          api_url := "http://localhost/api";
          config := default_config |};
     swagger_base_path := "/api";
     adjust_api_base_path := true;
     swagger_schema_url := "/api/swagger.json";
     swagger_ui_base_url := "/api/ui/" |}.

Definition plugin : SwaggerPlugin := plugin_with false true.

(** The store once the plugin is constructed. *)
Definition live_store : store := <[1 := schema]> caller_store.

(** A request as bottle presents it before the plugin runs: status 200,
    bottle's default content type, nothing written to the database. *)
Definition incoming (method : string) (json : pyval) (script_name : string)
    : MState :=
  {| world :=
       {| request :=
            {| req_method := method;
               req_url_args := PDict [];
               req_json := json;
               req_query := PDict [];
               req_headers := PDict [];
               req_forms := PDict [];
               req_SCRIPT_NAME := script_name;
               req_swagger_op := None;
               req_swagger_data := None |};
          response :=
            {| resp_status_code := 200;
               resp_content_type := "text/html; charset=UTF-8";
               resp_headers := PDict [] |};
          objects := live_store;
          app := [] |};
     trace := [] |}.

(** [db.append(entry)] in a handler. *)
Definition db_write (entry : string) (w : World) : World :=
  {| request := request w; response := response w; objects := objects w;
     app := entry :: app w |}.

(** POST /api/pets: stores the pet and returns it. *)
Definition add_pet (_ : list pyval) : Eff pyval :=
  fun w => (Return (PDict [("name", PStr "rex")]), db_write "INSERT rex" w).

(** GET /api/pets/<id>: counts the visit, and forgets the name. *)
Definition get_pet_without_name (_ : list pyval) : Eff pyval :=
  fun w => (Return (PDict [("id", PInt 7)]), db_write "UPDATE visits" w).

(** GET /api/pets/<id>: answers 418, a status the schema does not list. *)
Definition get_pet_teapot (_ : list pyval) : Eff pyval :=
  fun w =>
    (Return (PDict [("name", PStr "rex")]),
     assign_status 418 (db_write "UPDATE visits" w)).

(** GET /api/pets: a list. *)
Definition list_pets (_ : list pyval) : Eff pyval :=
  fun w => (Return (PList [PStr "rex"; PStr "tom"]), w).

(** GET /api/pets/<id>: plain text. *)
Definition get_pet_name (_ : list pyval) : Eff pyval :=
  fun w => (Return (PStr "rex"), w).

(** GET /api/pets: the ids. *)
Definition list_pet_ids (_ : list pyval) : Eff pyval :=
  fun w => (Return (PList [PInt 1; PInt 2]), w).

(** GET /api/pets/<id>: the database is down. *)
Definition get_pet_crash (_ : list pyval) : Eff pyval :=
  fun w => (Raise (Exn RuntimeError "database is down"), db_write "BEGIN" w).

(** GET /health, outside the API: the database is down. *)
Definition health_down (_ : list pyval) : Eff pyval :=
  fun w => (Raise (Exn RuntimeError "database is down"), w).

(** GET /health, outside the API. *)
Definition health (_ : list pyval) : Eff pyval :=
  fun w => (Return (PDict [("status", PStr "up")]), w).

(** GET /api/legacy, under the API and not in the schema. *)
Definition legacy_page (_ : list pyval) : Eff pyval :=
  fun w => (Return (PList [PInt 1; PInt 2]), db_write "SELECT legacy" w).

Definition route_of (rule : string) : Route :=
  {| rule := rule; route_str := "<GET '" +:+ rule +:+ "'>" |}.

End PetStore.

(* ===================================================================== *)
(** * Part 5. Theorems                                                   *)
(* ===================================================================== *)

(** ** Path translation *)

Section PathTranslation.

Lemma greedy_dots_then_gt_shorter s rest :
  greedy_dots_then_gt s = Some rest -> String.length rest < String.length s.
Proof.
  revert rest. induction s as [|c t IH]; intros rest; simpl; [discriminate|].
  destruct (dot c); [|discriminate].
  destruct (greedy_dots_then_gt t) as [r|] eqn:Ht.
  - intros [= <-]. specialize (IH r eq_refl). lia.
  - destruct (Ascii.eqb c ">"); [|discriminate]. intros [= <-]. lia.
Qed.

Lemma modifier_then_gt_shorter s rest :
  modifier_then_gt s = Some rest -> String.length rest < String.length s.
Proof.
  unfold modifier_then_gt.
  destruct s as [|c t]; [discriminate|].
  destruct (ascii_dec c ":") as [->|Hc].
  - destruct t as [|c' t']; [discriminate|].
    destruct (dot c').
    + destruct (greedy_dots_then_gt t') as [r|] eqn:Hg.
      * intros [= <-]. apply greedy_dots_then_gt_shorter in Hg. simpl. lia.
      * discriminate.
    + discriminate.
  - assert (Hnone :
      match String c t with
      | String ":" (String c' t') =>
          if dot c' then greedy_dots_then_gt t' else None
      | _ => None
      end = None).
    { destruct c as [[] [] [] [] [] [] [] []]; try reflexivity.
      exfalso. apply Hc. reflexivity. }
    rewrite Hnone.
    destruct c as [[] [] [] [] [] [] [] []]; try discriminate.
    intros [= <-]. simpl. lia.
Qed.

Lemma lazy_name_shorter s : forall name name' rest,
  lazy_name name s = Some (name', rest) -> String.length rest < String.length s.
Proof.
  induction s as [|c t IH]; intros name name' rest; simpl.
  - destruct (modifier_then_gt "") eqn:Hm; [|discriminate].
    apply modifier_then_gt_shorter in Hm. simpl in Hm. lia.
  - destruct (modifier_then_gt (String c t)) as [r|] eqn:Hm.
    + intros [= <- <-]. apply modifier_then_gt_shorter in Hm. exact Hm.
    + destruct (dot c); [|discriminate].
      intros H. apply IH in H. lia.
Qed.

Lemma match_here_shorter s name rest :
  match_here s = Some (name, rest) -> String.length rest < String.length s.
Proof.
  unfold match_here.
  destruct s as [|c0 [|c1 [|c t]]]; try discriminate;
    try (destruct c0 as [[] [] [] [] [] [] [] []]; discriminate).
  - destruct c0 as [[] [] [] [] [] [] [] []]; try discriminate;
      destruct c1 as [[] [] [] [] [] [] [] []]; discriminate.
  - destruct c0 as [[] [] [] [] [] [] [] []]; try discriminate;
      destruct c1 as [[] [] [] [] [] [] [] []]; try discriminate.
    destruct (dot c); [|discriminate].
    intros H. apply lazy_name_shorter in H. simpl. lia.
Qed.

Lemma re_sub_from_enough fuel : forall s,
  String.length s < fuel -> is_Some (re_sub_from fuel s).
Proof.
  induction fuel as [|fuel IH]; intros s Hlen; [lia|].
  destruct s as [|c t]; [eexists; reflexivity|].
  cbn [re_sub_from].
  destruct (match_here (String c t)) as [[name rest]|] eqn:Hm.
  - apply match_here_shorter in Hm.
    destruct (IH rest) as [r Hr]; [lia|].
    rewrite Hr. eexists; reflexivity.
  - destruct (IH t) as [r Hr]; [simpl in Hlen; lia|].
    rewrite Hr. eexists; reflexivity.
Qed.

(** The substitution ends on every rule: the steps it is given are
    enough. *)
Lemma re_sub_total (s : string) : is_Some (re_sub s).
Proof. apply re_sub_from_enough. lia. Qed.

(** More steps change nothing. *)
Lemma re_sub_from_more fuel : forall fuel' s r,
  re_sub_from fuel s = Some r -> fuel <= fuel' -> re_sub_from fuel' s = Some r.
Proof.
  induction fuel as [|fuel IH]; intros fuel' s r; [discriminate|].
  destruct fuel' as [|fuel']; [lia|]. intros H Hle.
  destruct s as [|c t]; [exact H|].
  cbn [re_sub_from] in *.
  destruct (match_here (String c t)) as [[name rest]|].
  - destruct (re_sub_from fuel rest) as [r'|] eqn:Hr; [|discriminate].
    rewrite (IH fuel' rest r' Hr); [exact H | lia].
  - destruct (re_sub_from fuel t) as [r'|] eqn:Hr; [|discriminate].
    rewrite (IH fuel' t r' Hr); [exact H | lia].
Qed.

(** The pattern's literal characters, by comparison. *)
Lemma match_here_unfold (s : string) :
  match_here s =
  match s with
  | String a (String b (String c t)) =>
      if Ascii.eqb a "/" && Ascii.eqb b "<" && dot c
      then lazy_name (String c "") t
      else None
  | _ => None
  end.
Proof.
  destruct s as [|a [|b [|c t]]]; try reflexivity;
    try (destruct a as [[] [] [] [] [] [] [] []]; reflexivity).
  - destruct a as [[] [] [] [] [] [] [] []]; try reflexivity;
      destruct b as [[] [] [] [] [] [] [] []]; reflexivity.
  - destruct a as [[] [] [] [] [] [] [] []]; try reflexivity;
      destruct b as [[] [] [] [] [] [] [] []]; reflexivity.
Qed.

Lemma modifier_then_gt_unfold (s : string) :
  modifier_then_gt s =
  match
    match s with
    | String a (String c t) =>
        if Ascii.eqb a ":" && dot c then greedy_dots_then_gt t else None
    | _ => None
    end
  with
  | Some rest => Some rest
  | None =>
      match s with
      | String a rest => if Ascii.eqb a ">" then Some rest else None
      | EmptyString => None
      end
  end.
Proof.
  unfold modifier_then_gt.
  destruct s as [|a t]; [reflexivity|].
  destruct t as [|c t];
    destruct a as [[] [] [] [] [] [] [] []]; reflexivity.
Qed.

Lemma re_sub_from_step (fuel : nat) (c : ascii) (t : string) :
  re_sub_from (S fuel) (String c t) =
  match match_here (String c t) with
  | Some (name, rest) =>
      (fun r => "/{" +:+ name +:+ "}" +:+ r) <$> re_sub_from fuel rest
  | None => String c <$> re_sub_from fuel t
  end.
Proof. reflexivity. Qed.

Lemma re_sub_step (c : ascii) (t : string) :
  re_sub (String c t) =
  match match_here (String c t) with
  | Some (name, rest) => (fun r => "/{" +:+ name +:+ "}" +:+ r) <$> re_sub rest
  | None => String c <$> re_sub t
  end.
Proof.
  unfold re_sub at 1.
  change (String.length (String c t)) with (S (String.length t)).
  rewrite re_sub_from_step.
  destruct (match_here (String c t)) as [[name rest]|] eqn:Hm.
  - destruct (re_sub_total rest) as [r Hr]. rewrite Hr.
    apply match_here_shorter in Hm.
    rewrite (re_sub_from_more _ (S (String.length t)) rest r Hr);
      [reflexivity | simpl in Hm; lia].
  - destruct (re_sub_total t) as [r Hr]. rewrite Hr.
    rewrite (re_sub_from_more _ (S (String.length t)) t r Hr);
      [reflexivity | lia].
Qed.

Lemma swagger_path_is_re_sub (s : string) : re_sub s = Some (swagger_path s).
Proof.
  unfold swagger_path. destruct (re_sub_total s) as [r ->]. reflexivity.
Qed.

Lemma swagger_path_match (s name rest : string) :
  match_here s = Some (name, rest) ->
  swagger_path s = "/{" +:+ name +:+ "}" +:+ swagger_path rest.
Proof.
  intros Hm. destruct s as [|c t]; [discriminate|].
  unfold swagger_path at 1. rewrite re_sub_step, Hm.
  rewrite (swagger_path_is_re_sub rest). reflexivity.
Qed.

Lemma swagger_path_skip (c : ascii) (t : string) :
  match_here (String c t) = None ->
  swagger_path (String c t) = String c (swagger_path t).
Proof.
  intros Hm. unfold swagger_path at 1. rewrite re_sub_step, Hm.
  rewrite (swagger_path_is_re_sub t). reflexivity.
Qed.

Lemma append_empty (a : string) : a +:+ "" = a.
Proof.
  induction a as [|x a IH]; [reflexivity|].
  change (String x (a +:+ "") = String x a). f_equal. exact IH.
Qed.

Lemma append_assoc (a b c : string) : (a +:+ b) +:+ c = a +:+ b +:+ c.
Proof.
  induction a as [|x a IH]; [reflexivity|].
  change (String x ((a +:+ b) +:+ c) = String x (a +:+ b +:+ c)).
  f_equal. exact IH.
Qed.

Lemma greedy_dots_then_gt_step (c : ascii) (t : string) :
  greedy_dots_then_gt (String c t) =
  if dot c then
    match greedy_dots_then_gt t with
    | Some rest => Some rest
    | None => if Ascii.eqb c ">" then Some t else None
    end
  else None.
Proof. reflexivity. Qed.

Lemma lazy_name_step (name s : string) :
  lazy_name name s =
  match modifier_then_gt s with
  | Some rest => Some (name, rest)
  | None =>
      match s with
      | String c t => if dot c then lazy_name (name +:+ String c "") t else None
      | EmptyString => None
      end
  end.
Proof. destruct s; reflexivity. Qed.

Lemma all_chars_step (p : ascii -> bool) (c : ascii) (t : string) :
  all_chars p (String c t) = p c && all_chars p t.
Proof. reflexivity. Qed.

(** A greedy run finds no [>] where there is none. *)
Lemma greedy_without_gt (s : string) :
  has_no_gt s = true -> greedy_dots_then_gt s = None.
Proof.
  unfold has_no_gt. induction s as [|c t IH]; [reflexivity|].
  rewrite all_chars_step. intros H. apply andb_true_iff in H as [Hc Ht].
  rewrite greedy_dots_then_gt_step, (IH Ht).
  apply negb_true_iff in Hc. rewrite Hc.
  destruct (dot c); reflexivity.
Qed.

(** After a modifier, the run ends at the [>] that closes the placeholder
    when no [>] follows. *)
Lemma greedy_through_modifier (m rest : string) :
  all_chars modifier_char m = true ->
  has_no_gt rest = true ->
  greedy_dots_then_gt (m +:+ ">" +:+ rest) = Some rest.
Proof.
  intros Hm Hrest. induction m as [|c m IH].
  - change ("" +:+ ">" +:+ rest) with (String ">" rest).
    rewrite greedy_dots_then_gt_step, (greedy_without_gt rest Hrest).
    reflexivity.
  - rewrite all_chars_step in Hm. apply andb_true_iff in Hm as [Hc Hm].
    unfold modifier_char in Hc. apply andb_true_iff in Hc as [Hdot _].
    change (String c m +:+ ">" +:+ rest) with (String c (m +:+ ">" +:+ rest)).
    rewrite greedy_dots_then_gt_step, Hdot, (IH Hm). reflexivity.
Qed.

(** The rest of the pattern does not match inside a name. *)
Lemma modifier_then_gt_at_name_char (c : ascii) (t : string) :
  name_char c = true -> modifier_then_gt (String c t) = None.
Proof.
  intros Hc. unfold name_char in Hc.
  apply andb_true_iff in Hc as [Hc Hgt]. apply andb_true_iff in Hc as [_ Hcolon].
  apply negb_true_iff in Hgt, Hcolon.
  rewrite modifier_then_gt_unfold, Hcolon, Hgt.
  destruct t; reflexivity.
Qed.

Lemma dot_of_name_char (c : ascii) : name_char c = true -> dot c = true.
Proof.
  unfold name_char. intros Hc.
  apply andb_true_iff in Hc as [Hc _]. apply andb_true_iff in Hc as [Hdot _].
  exact Hdot.
Qed.

(** Group 1 takes the name and stops at the [>]. *)
Lemma lazy_name_to_gt (n rest : string) : forall acc,
  all_chars name_char n = true ->
  lazy_name acc (n +:+ ">" +:+ rest) = Some (acc +:+ n, rest).
Proof.
  induction n as [|c n IH]; intros acc Hn.
  - change ("" +:+ ">" +:+ rest) with (String ">" rest).
    rewrite lazy_name_step, modifier_then_gt_unfold, append_empty.
    destruct rest; reflexivity.
  - rewrite all_chars_step in Hn. apply andb_true_iff in Hn as [Hc Hn].
    change (String c n +:+ ">" +:+ rest) with (String c (n +:+ ">" +:+ rest)).
    rewrite lazy_name_step, (modifier_then_gt_at_name_char _ _ Hc).
    rewrite (dot_of_name_char c Hc), (IH _ Hn), append_assoc. reflexivity.
Qed.

(** Group 1 takes the name and stops at the colon of a modifier that no
    [>] follows. *)
Lemma lazy_name_to_modifier (n m rest : string) : forall acc,
  all_chars name_char n = true ->
  is_modifier m = true ->
  has_no_gt rest = true ->
  lazy_name acc (n +:+ ":" +:+ m +:+ ">" +:+ rest) = Some (acc +:+ n, rest).
Proof.
  induction n as [|c n IH]; intros acc Hn Hm Hrest.
  - change ("" +:+ ":" +:+ m +:+ ">" +:+ rest)
      with (String ":" (m +:+ ">" +:+ rest)).
    unfold is_modifier in Hm. apply andb_true_iff in Hm as [Hne Hm].
    destruct m as [|c m]; [discriminate|].
    change (String c m +:+ ">" +:+ rest) with (String c (m +:+ ">" +:+ rest)).
    rewrite all_chars_step in Hm. apply andb_true_iff in Hm as [Hc Hm].
    unfold modifier_char in Hc. apply andb_true_iff in Hc as [Hdot _].
    rewrite lazy_name_step, modifier_then_gt_unfold.
    change (Ascii.eqb ":" ":") with true. cbn [andb]. rewrite Hdot.
    rewrite (greedy_through_modifier m rest Hm Hrest), append_empty.
    reflexivity.
  - rewrite all_chars_step in Hn. apply andb_true_iff in Hn as [Hc Hn].
    change (String c n +:+ ":" +:+ m +:+ ">" +:+ rest)
      with (String c (n +:+ ":" +:+ m +:+ ">" +:+ rest)).
    rewrite lazy_name_step, (modifier_then_gt_at_name_char _ _ Hc).
    rewrite (dot_of_name_char c Hc), (IH _ Hn Hm Hrest), append_assoc.
    reflexivity.
Qed.

(** A placeholder at the start of the text is one match. *)
Lemma match_here_placeholder (n rest : string) :
  is_name n = true ->
  match_here ("/<" +:+ n +:+ ">" +:+ rest) = Some (n, rest).
Proof.
  unfold is_name. intros Hn. apply andb_true_iff in Hn as [Hne Hn].
  destruct n as [|c n]; [discriminate|].
  change ("/<" +:+ String c n +:+ ">" +:+ rest)
    with (String "/" (String "<" (String c (n +:+ ">" +:+ rest)))).
  rewrite all_chars_step in Hn. apply andb_true_iff in Hn as [Hc Hn].
  rewrite match_here_unfold.
  change (Ascii.eqb "/" "/") with true. change (Ascii.eqb "<" "<") with true.
  cbn [andb]. rewrite (dot_of_name_char c Hc).
  exact (lazy_name_to_gt n rest (String c "") Hn).
Qed.

Lemma match_here_typed (n m rest : string) :
  is_name n = true ->
  is_modifier m = true ->
  has_no_gt rest = true ->
  match_here ("/<" +:+ n +:+ ":" +:+ m +:+ ">" +:+ rest) = Some (n, rest).
Proof.
  unfold is_name. intros Hn Hm Hrest. apply andb_true_iff in Hn as [Hne Hn].
  destruct n as [|c n]; [discriminate|].
  change ("/<" +:+ String c n +:+ ":" +:+ m +:+ ">" +:+ rest)
    with (String "/" (String "<" (String c (n +:+ ":" +:+ m +:+ ">" +:+ rest)))).
  rewrite all_chars_step in Hn. apply andb_true_iff in Hn as [Hc Hn].
  rewrite match_here_unfold.
  change (Ascii.eqb "/" "/") with true. change (Ascii.eqb "<" "<") with true.
  cbn [andb]. rewrite (dot_of_name_char c Hc).
  exact (lazy_name_to_modifier n m rest (String c "") Hn Hm Hrest).
Qed.

(** No match starts at a character that [<] does not follow. *)
Lemma match_here_without_lt (c : ascii) (t : string) :
  match t with String b _ => Ascii.eqb b "<" | EmptyString => false end = false ->
  match_here (String c t) = None.
Proof.
  intros Hb. rewrite match_here_unfold.
  destruct t as [|b [|d t]]; try reflexivity.
  rewrite Hb, andb_false_r. reflexivity.
Qed.

(** A rule in bottle's syntax is empty or starts with a slash. *)
Lemma bottle_rule_start (segments : list segment) :
  match bottle_rule segments with
  | String b _ => Ascii.eqb b "<"
  | EmptyString => false
  end = false.
Proof. destruct segments as [|[text|name|name modifier] rest]; reflexivity. Qed.

(** Literal text is copied. *)
Lemma swagger_path_literal (text rest : string) :
  is_literal text = true ->
  match rest with String b _ => Ascii.eqb b "<" | EmptyString => false end = false ->
  swagger_path (text +:+ rest) = text +:+ swagger_path rest.
Proof.
  unfold is_literal. intros Htext Hrest.
  induction text as [|c text IH]; [reflexivity|].
  rewrite all_chars_step in Htext. apply andb_true_iff in Htext as [Hc Htext].
  change (String c text +:+ rest) with (String c (text +:+ rest)).
  rewrite swagger_path_skip.
  - rewrite (IH Htext). reflexivity.
  - apply match_here_without_lt.
    destruct text as [|b text]; [exact Hrest|].
    rewrite all_chars_step in Htext. apply andb_true_iff in Htext as [Hb _].
    apply negb_true_iff in Hb. exact Hb.
Qed.

(** X1. The rules the pattern gets right. A rule made of literal
    segments, placeholders [<name>] and typed placeholders
    [<name:modifier>], in which no [>] comes after a typed placeholder,
    is translated segment by segment: literal segments are copied and
    both kinds of placeholder become [{name}]. *)
Theorem translatable_rule_is_translated (segments : list segment) :
  translatable segments = true ->
  swagger_path (bottle_rule segments) = swagger_rule segments.
Proof.
  induction segments as [|seg rest IH]; [reflexivity|].
  destruct seg as [text|name|name modifier]; cbn [translatable]; intros H.
  - apply andb_true_iff in H as [Htext Hrest].
    cbn [bottle_rule swagger_rule bottle_segment swagger_segment].
    change ("/" +:+ text +:+ bottle_rule rest)
      with (String "/" (text +:+ bottle_rule rest)).
    rewrite swagger_path_skip.
    + rewrite (swagger_path_literal text _ Htext (bottle_rule_start rest)).
      rewrite (IH Hrest). reflexivity.
    + apply match_here_without_lt.
      destruct text as [|b text]; [apply bottle_rule_start|].
      unfold is_literal in Htext. rewrite all_chars_step in Htext.
      apply andb_true_iff in Htext as [Hb _].
      apply negb_true_iff in Hb. exact Hb.
  - apply andb_true_iff in H as [Hname Hrest].
    cbn [bottle_rule swagger_rule bottle_segment swagger_segment].
    rewrite (swagger_path_match _ name (bottle_rule rest)
               (match_here_placeholder name _ Hname)).
    rewrite (IH Hrest). reflexivity.
  - apply andb_true_iff in H as [H Hrest].
    apply andb_true_iff in H as [H Hgt].
    apply andb_true_iff in H as [Hname Hmodifier].
    cbn [bottle_rule swagger_rule bottle_segment swagger_segment].
    rewrite (swagger_path_match _ name (bottle_rule rest)
               (match_here_typed name modifier _ Hname Hmodifier Hgt)).
    rewrite (IH Hrest). reflexivity.
Qed.

(** A greedy run goes over every [>] but the last one of the line. *)
Lemma greedy_to_the_last_gt (m rest : string) :
  all_chars dot m = true ->
  has_no_gt rest = true ->
  greedy_dots_then_gt (m +:+ ">" +:+ rest) = Some rest.
Proof.
  intros Hm Hrest. induction m as [|c m IH].
  - change ("" +:+ ">" +:+ rest) with (String ">" rest).
    rewrite greedy_dots_then_gt_step, (greedy_without_gt rest Hrest).
    reflexivity.
  - rewrite all_chars_step in Hm. apply andb_true_iff in Hm as [Hdot Hm].
    change (String c m +:+ ">" +:+ rest) with (String c (m +:+ ">" +:+ rest)).
    rewrite greedy_dots_then_gt_step, Hdot, (IH Hm). reflexivity.
Qed.

Lemma lazy_name_to_greedy_run (n m rest : string) : forall acc,
  all_chars name_char n = true ->
  is_greedy_run m = true ->
  has_no_gt rest = true ->
  lazy_name acc (n +:+ ":" +:+ m +:+ ">" +:+ rest) = Some (acc +:+ n, rest).
Proof.
  induction n as [|c n IH]; intros acc Hn Hm Hrest.
  - change ("" +:+ ":" +:+ m +:+ ">" +:+ rest)
      with (String ":" (m +:+ ">" +:+ rest)).
    unfold is_greedy_run in Hm. apply andb_true_iff in Hm as [Hne Hm].
    destruct m as [|c m]; [discriminate|].
    change (String c m +:+ ">" +:+ rest) with (String c (m +:+ ">" +:+ rest)).
    rewrite all_chars_step in Hm. apply andb_true_iff in Hm as [Hdot Hm].
    rewrite lazy_name_step, modifier_then_gt_unfold.
    change (Ascii.eqb ":" ":") with true. cbn [andb]. rewrite Hdot.
    rewrite (greedy_to_the_last_gt m rest Hm Hrest), append_empty.
    reflexivity.
  - rewrite all_chars_step in Hn. apply andb_true_iff in Hn as [Hc Hn].
    change (String c n +:+ ":" +:+ m +:+ ">" +:+ rest)
      with (String c (n +:+ ":" +:+ m +:+ ">" +:+ rest)).
    rewrite lazy_name_step, (modifier_then_gt_at_name_char _ _ Hc).
    rewrite (dot_of_name_char c Hc), (IH _ Hn Hm Hrest), append_assoc.
    reflexivity.
Qed.

Lemma match_here_greedy_run (n m rest : string) :
  is_name n = true ->
  is_greedy_run m = true ->
  has_no_gt rest = true ->
  match_here ("/<" +:+ n +:+ ":" +:+ m +:+ ">" +:+ rest) = Some (n, rest).
Proof.
  unfold is_name. intros Hn Hm Hrest. apply andb_true_iff in Hn as [Hne Hn].
  destruct n as [|c n]; [discriminate|].
  change ("/<" +:+ String c n +:+ ":" +:+ m +:+ ">" +:+ rest)
    with (String "/" (String "<" (String c (n +:+ ":" +:+ m +:+ ">" +:+ rest)))).
  rewrite all_chars_step in Hn. apply andb_true_iff in Hn as [Hc Hn].
  rewrite match_here_unfold.
  change (Ascii.eqb "/" "/") with true. change (Ascii.eqb "<" "<") with true.
  cbn [andb]. rewrite (dot_of_name_char c Hc).
  exact (lazy_name_to_greedy_run n m rest (String c "") Hn Hm Hrest).
Qed.

Lemma has_no_gt_step (c : ascii) (t : string) :
  has_no_gt (String c t) = negb (Ascii.eqb c ">") && has_no_gt t.
Proof. reflexivity. Qed.

(** Without a [>] nothing closes a match. *)
Lemma modifier_then_gt_without_gt (s : string) :
  has_no_gt s = true -> modifier_then_gt s = None.
Proof.
  intros Hs. rewrite modifier_then_gt_unfold.
  destruct s as [|a t]; [reflexivity|].
  rewrite has_no_gt_step in Hs. apply andb_true_iff in Hs as [Ha Ht].
  apply negb_true_iff in Ha. rewrite Ha.
  destruct t as [|c t]; [reflexivity|].
  rewrite has_no_gt_step in Ht. apply andb_true_iff in Ht as [_ Ht].
  rewrite (greedy_without_gt t Ht).
  destruct (Ascii.eqb a ":" && dot c); reflexivity.
Qed.

Lemma lazy_name_without_gt (s : string) : forall acc,
  has_no_gt s = true -> lazy_name acc s = None.
Proof.
  induction s as [|c t IH]; intros acc Hs.
  - reflexivity.
  - rewrite lazy_name_step, (modifier_then_gt_without_gt _ Hs).
    rewrite has_no_gt_step in Hs. apply andb_true_iff in Hs as [_ Ht].
    rewrite (IH _ Ht). destruct (dot c); reflexivity.
Qed.

Lemma match_here_without_gt (s : string) :
  has_no_gt s = true -> match_here s = None.
Proof.
  intros Hs. rewrite match_here_unfold.
  destruct s as [|a [|b [|c t]]]; try reflexivity.
  rewrite !has_no_gt_step in Hs.
  apply andb_true_iff in Hs as [_ Hs]. apply andb_true_iff in Hs as [_ Hs].
  apply andb_true_iff in Hs as [_ Hs].
  rewrite (lazy_name_without_gt t _ Hs).
  destruct (Ascii.eqb a "/" && Ascii.eqb b "<" && dot c); reflexivity.
Qed.

Lemma swagger_path_without_gt (s : string) :
  has_no_gt s = true -> swagger_path s = s.
Proof.
  induction s as [|c t IH]; intros Hs; [reflexivity|].
  rewrite (swagger_path_skip c t (match_here_without_gt _ Hs)).
  rewrite has_no_gt_step in Hs. apply andb_true_iff in Hs as [_ Ht].
  rewrite (IH Ht). reflexivity.
Qed.

(** X13. A rule that opens no placeholder, or closes none, is looked up
    as it is written. *)
Theorem rule_without_placeholder_is_kept (rule : string) :
  is_literal rule = true \/ has_no_gt rule = true ->
  swagger_path rule = rule.
Proof.
  intros [Hrule | Hrule].
  - rewrite <- (append_empty rule) at 1.
    rewrite (swagger_path_literal rule "" Hrule eq_refl).
    apply append_empty.
  - exact (swagger_path_without_gt rule Hrule).
Qed.

(** X14. How far a typed placeholder reaches: after literal text, a
    placeholder with a colon is replaced together with everything up to
    the last [>] of the rule, when no newline stands between. Whatever
    stands between the colon and that [>], later segments and later
    placeholders included, is dropped, and what follows the last [>] is
    kept as it is. *)
Theorem typed_placeholder_reaches_the_last_gt (prefix n m rest : string) :
  is_literal prefix = true ->
  is_name n = true ->
  is_greedy_run m = true ->
  has_no_gt rest = true ->
  swagger_path (prefix +:+ "/<" +:+ n +:+ ":" +:+ m +:+ ">" +:+ rest)
  = prefix +:+ "/{" +:+ n +:+ "}" +:+ rest.
Proof.
  intros Hprefix Hn Hm Hrest.
  rewrite (swagger_path_literal prefix
             ("/<" +:+ n +:+ ":" +:+ m +:+ ">" +:+ rest) Hprefix eq_refl).
  rewrite (swagger_path_match _ n rest (match_here_greedy_run n m rest Hn Hm Hrest)).
  rewrite (swagger_path_without_gt rest Hrest). reflexivity.
Qed.

End PathTranslation.

(** ** Request interception *)

Section Interception.
Context `{Ext : Externals}.

(** The operation the lookup of [_swagger_op] finds in a world. *)
Definition resolved_operation (self : SwaggerPlugin) (route : Route) (w : World)
    : option Operation :=
  get_op_for_request (swagger self) (req_method (request w))
    (swagger_path (rule route)).

(** The log entry of that lookup. *)
Definition lookup_event (route : Route) (w : World) : event :=
  EvGetOp (req_method (request w)) (swagger_path (rule route)).

(** What [_validate_response] comes to in a world: the library's answer
    for the status code the response has and the payload. *)
Definition response_check (op : Operation) (payload : pyval) (w : World)
    : result unit :=
  match get_response_spec (resp_status_code (response w)) op with
  | Raise e => Raise e
  | Return response_spec =>
      validate_response response_spec op
        (make_BottleOutgoingResponse (response w) payload)
  end.

(** The library calls [_validate_response] logs in a world. *)
Definition response_check_events (op : Operation) (w : World) : list event :=
  match get_response_spec (resp_status_code (response w)) op with
  | Raise _ => [EvGetResponseSpec (resp_status_code (response w))]
  | Return _ =>
      [EvGetResponseSpec (resp_status_code (response w)); EvValidateResponse]
  end.

(** The state in which the callback of a validated request runs. *)
Definition validated_world (op : Operation) (data : pyval) (w : World) : World :=
  assign_swagger_data data (assign_swagger_op op w).

(** An exception the outer [except Exception] clause hands to the
    exception handler. *)
Definition handled (e : exn) : bool :=
  is_Exception e && negb (isinstance e HTTPResponse).

(** What the outer [except Exception] clause makes of an exception
    raised in the [try] body in state [s]: the exception handler's answer
    when it is [handled], the same exception in the same state when it is
    an [HTTPResponse] or no [Exception]. *)
Definition outer_except (self : SwaggerPlugin) (e : exn) (s : MState)
    : result pyval * MState :=
  if handled e
  then call (EvExceptionHandler e) (exception_handler self e) s
  else (Raise e, s).

Variable self : SwaggerPlugin.
Variable callback : list pyval -> Eff pyval.
Variable route : Route.
Variable args : list pyval.

Lemma _swagger_op_run (s : MState) :
  _swagger_op self route s =
  (Return (resolved_operation self route (world s)),
   {| world := world s; trace := trace s ++ [lookup_event route (world s)] |}).
Proof. reflexivity. Qed.

Lemma _validate_response_run (op : Operation) (payload : pyval) (s : MState) :
  _validate_response op payload s =
  (response_check op payload (world s),
   {| world := world s;
      trace := trace s ++ response_check_events op (world s) |}).
Proof.
  unfold _validate_response, response_check, response_check_events,
    bind, gets, call_lib, call. simpl.
  destruct (get_response_spec _ op) as [spec|e]; simpl.
  - rewrite <- app_assoc. reflexivity.
  - reflexivity.
Qed.

(** Without an operation and with a route the plugin lets through, the
    routine is the lookup and then the callback, and nothing else. *)
Lemma unmatched_passes_through (s : MState) :
  resolved_operation self route (world s) = None ->
  negb (startswith (rule route) (swagger_base_path self))
    || ignore_undefined_routes self = true ->
  _swagger_validate self callback route args s =
  (fst (callback args (world s)),
   {| world := snd (callback args (world s));
      trace := trace s ++ [lookup_event route (world s); EvCallback] |}).
Proof.
  intros Hop Hpass.
  unfold _swagger_validate, bind. rewrite _swagger_op_run, Hop, Hpass.
  unfold call. simpl.
  destruct (callback args (world s)) as [r w]. simpl.
  rewrite <- app_assoc. reflexivity.
Qed.

(** How far the routine gets once an operation is resolved. *)
Lemma matched_runs_validated_call (s : MState) (op : Operation) :
  resolved_operation self route (world s) = Some op ->
  _swagger_validate self callback route args s =
  try_except (validated_call self callback args op)
    (fun e =>
       if is_Exception e
       then Some (if isinstance e HTTPResponse then raise e
                  else call (EvExceptionHandler e) (exception_handler self e))
       else None)
    {| world := world s; trace := trace s ++ [lookup_event route (world s)] |}.
Proof.
  intros Hop. unfold _swagger_validate, bind.
  rewrite _swagger_op_run, Hop. reflexivity.
Qed.

Ltac run_monad :=
  unfold validated_call, _validate_request, bind, try_except, call_lib,
    call, modify, gets, ret, raise;
  simpl.

(** Request validation raises: the clause for [ValidationError] calls the
    invalid-request handler, any other exception leaves the [try] body. *)
Lemma validated_call_unmarshal_raises (s1 : MState) (op : Operation) (e : exn) :
  unmarshal_request (make_BottleIncomingRequest (request (world s1))) op = Raise e ->
  validated_call self callback args op s1 =
  let s2 := {| world := assign_swagger_op op (world s1);
               trace := trace s1 ++ [EvUnmarshalRequest] |} in
  if isinstance e ValidationError
  then call (EvInvalidRequestHandler e) (invalid_request_handler self e) s2
  else (Raise e, s2).
Proof.
  intros Hun. run_monad.
  unfold make_BottleIncomingRequest in *. simpl in *. rewrite Hun. simpl.
  destruct (isinstance e ValidationError); [|reflexivity].
  simpl.
  destruct (invalid_request_handler self e (assign_swagger_op op (world s1)))
    as [[v|e'] w]; reflexivity.
Qed.

(** The callback raises: nothing in the [try] body catches it. *)
Lemma validated_call_callback_raises (s1 : MState) (op : Operation)
    (data : pyval) (e : exn) (w3 : World) :
  unmarshal_request (make_BottleIncomingRequest (request (world s1))) op
    = Return data ->
  callback args (validated_world op data (world s1)) = (Raise e, w3) ->
  validated_call self callback args op s1 =
  (Raise e,
   {| world := w3; trace := trace s1 ++ [EvUnmarshalRequest; EvCallback] |}).
Proof.
  intros Hun Hcb. run_monad.
  unfold make_BottleIncomingRequest, validated_world in *. simpl in *.
  rewrite Hun. simpl. rewrite Hcb. simpl.
  rewrite <- app_assoc. reflexivity.
Qed.

(** The callback returns and response validation raises: the clause for
    [ValidationError] and [MatchingResponseNotFound] calls the
    invalid-response handler in the world the callback left. *)
Lemma validated_call_response_check_raises (s1 : MState) (op : Operation)
    (data payload : pyval) (e : exn) (w3 : World) :
  unmarshal_request (make_BottleIncomingRequest (request (world s1))) op
    = Return data ->
  callback args (validated_world op data (world s1)) = (Return payload, w3) ->
  response_check op payload w3 = Raise e ->
  validated_call self callback args op s1 =
  let s4 := {| world := w3;
               trace := trace s1 ++ [EvUnmarshalRequest; EvCallback]
                          ++ response_check_events op w3 |} in
  if isinstance e ValidationError || isinstance e MatchingResponseNotFound
  then call (EvInvalidResponseHandler e) (invalid_response_handler self e) s4
  else (Raise e, s4).
Proof.
  intros Hun Hcb Hcheck.
  unfold validated_call, _validate_request, bind, try_except, call_lib,
    call, modify, gets, ret, raise.
  unfold make_BottleIncomingRequest, validated_world in *. simpl in *.
  rewrite Hun. simpl. rewrite Hcb. simpl.
  rewrite _validate_response_run. simpl. rewrite Hcheck. simpl.
  destruct (isinstance e ValidationError || isinstance e MatchingResponseNotFound);
    simpl; [|rewrite <- !app_assoc; reflexivity].
  destruct (invalid_response_handler self e w3) as [[v|e'] w];
    simpl; rewrite <- !app_assoc; reflexivity.
Qed.

(** The callback returns and response validation passes: the result is
    serialized or returned as it is. *)
Lemma validated_call_checked (s1 : MState) (op : Operation)
    (data payload : pyval) (w3 : World) :
  unmarshal_request (make_BottleIncomingRequest (request (world s1))) op
    = Return data ->
  callback args (validated_world op data (world s1)) = (Return payload, w3) ->
  response_check op payload w3 = Return tt ->
  validated_call self callback args op s1 =
  let log := (trace s1 ++ [EvUnmarshalRequest; EvCallback]
                ++ response_check_events op w3)%list in
  if auto_jsonify self && is_dict_or_list payload
  then match json_dumps (objects w3) payload with
       | Return text =>
           (Return (PStr text),
            {| world := assign_content_type "application/json" w3;
               trace := log ++ [EvJsonDumps] |})
       | Raise e => (Raise e, {| world := w3; trace := log ++ [EvJsonDumps] |})
       end
  else (Return payload, {| world := w3; trace := log |}).
Proof.
  intros Hun Hcb Hcheck.
  unfold validated_call, _validate_request, bind, try_except, call_lib,
    call, modify, gets, ret, raise.
  unfold make_BottleIncomingRequest, validated_world in *. simpl in *.
  rewrite Hun. simpl. rewrite Hcb. simpl.
  rewrite _validate_response_run. simpl. rewrite Hcheck. simpl.
  destruct (auto_jsonify self && is_dict_or_list payload);
    simpl; [|rewrite <- !app_assoc; reflexivity].
  destruct (json_dumps (objects w3) payload) as [text|e];
    simpl; rewrite <- !app_assoc; reflexivity.
Qed.

(** The outer [try] statement around a [try] body that came to [r]. *)
Lemma matched_outcome (s : MState) (op : Operation)
    (r : result pyval) (s2 : MState) :
  resolved_operation self route (world s) = Some op ->
  validated_call self callback args op
    {| world := world s; trace := trace s ++ [lookup_event route (world s)] |}
    = (r, s2) ->
  _swagger_validate self callback route args s =
  match r with
  | Return v => (Return v, s2)
  | Raise e => outer_except self e s2
  end.
Proof.
  intros Hop Hbody. rewrite (matched_runs_validated_call s op Hop).
  unfold try_except. rewrite Hbody.
  destruct r as [v|e]; [reflexivity|].
  unfold outer_except, handled. destruct (is_Exception e); [|reflexivity].
  destruct (isinstance e HTTPResponse); reflexivity.
Qed.

(** A passing response check logged both library calls. *)
Lemma response_check_events_passed (op : Operation) (payload : pyval) (w : World) :
  response_check op payload w = Return tt ->
  response_check_events op w =
  [EvGetResponseSpec (resp_status_code (response w)); EvValidateResponse].
Proof.
  unfold response_check, response_check_events.
  destruct (get_response_spec _ op); [reflexivity | discriminate].
Qed.


Ltac not_logged :=
  unfold lookup_event; intros Hin;
  repeat (apply elem_of_cons in Hin as [Hin|Hin]; [discriminate Hin|]);
  apply elem_of_nil in Hin; exact Hin.

(** C1. A request that resolves to an operation and fails request
    validation with a [ValidationError] is answered by the
    invalid-request handler: what the handler returns is what the routine
    returns, in the world the handler leaves; the callback is not called,
    whatever the handler does; and the default handler sets status 400
    and returns the dict with code 400 and the text of the error: after
    the run the response's status code reads 400, the rest of the
    response, the store and the application state are as they were, and
    the request has the operation. What is validated is the request
    itself: the wrapper handed to [unmarshal_request] gives its
    [url_args], [json], [query], [headers] and [forms]. *)
Theorem invalid_request_is_answered_by_its_handler
    (s : MState) (op : Operation) (e : exn) :
  resolved_operation self route (world s) = Some op ->
  unmarshal_request (make_BottleIncomingRequest (request (world s))) op
    = Raise e ->
  exn_type e = ValidationError ->
  let w1 := assign_swagger_op op (world s) in
  let log := (trace s ++ [lookup_event route (world s); EvUnmarshalRequest;
                          EvInvalidRequestHandler e])%list in
  (forall v w2,
     invalid_request_handler self e w1 = (Return v, w2) ->
     _swagger_validate self callback route args s
     = (Return v, {| world := w2; trace := log |}))
  /\ (exists calls,
        trace (snd (_swagger_validate self callback route args s))
        = (trace s ++ calls)%list
        /\ EvCallback ∉ calls)
  /\ (invalid_request_handler self = default_bad_request_handler ->
      _swagger_validate self callback route args s
      = (Return (PDict [("code", PInt 400); ("message", PStr (exn_str e))]),
         {| world := assign_status 400 w1; trace := log |}))
  /\ (invalid_request_handler self = default_bad_request_handler ->
      let final := world (snd (_swagger_validate self callback route args s)) in
      resp_status_code (response final) = 400%Z
      /\ resp_content_type (response final)
         = resp_content_type (response (world s))
      /\ resp_headers (response final) = resp_headers (response (world s))
      /\ objects final = objects (world s)
      /\ app final = app (world s)
      /\ req_swagger_op (request final) = Some op
      /\ req_swagger_data (request final) = req_swagger_data (request (world s)))
  /\ (let incoming := make_BottleIncomingRequest (request (world s)) in
      in_path incoming = req_url_args (request (world s))
      /\ in_json incoming = req_json (request (world s))
      /\ in_query incoming = req_query (request (world s))
      /\ in_headers incoming = req_headers (request (world s))
      /\ in_form incoming = req_forms (request (world s))).
Proof.
  intros Hop Hun Hcls w1 log.
  pose proof (validated_call_unmarshal_raises
    {| world := world s; trace := trace s ++ [lookup_event route (world s)] |}
    op e Hun) as Hbody.
  assert (Hve : isinstance e ValidationError = true).
  { unfold isinstance. rewrite Hcls. reflexivity. }
  simpl in Hbody. rewrite Hve in Hbody. unfold call in Hbody. simpl in Hbody.
  fold w1 in Hbody.
  assert (Hlog : forall (w2 : World) r,
    invalid_request_handler self e w1 = (r, w2) ->
    validated_call self callback args op
      {| world := world s; trace := trace s ++ [lookup_event route (world s)] |}
    = (r, {| world := w2; trace := log |})).
  { intros w2 r Hh. rewrite Hbody, Hh. unfold log.
    rewrite <- !app_assoc. reflexivity. }
  assert (Hdefault_run :
    invalid_request_handler self = default_bad_request_handler ->
    _swagger_validate self callback route args s
    = (Return (PDict [("code", PInt 400); ("message", PStr (exn_str e))]),
       {| world := assign_status 400 w1; trace := log |})).
  { intros Hdefault.
    rewrite (matched_outcome s op
      (Return (PDict [("code", PInt 400); ("message", PStr (exn_str e))]))
      {| world := assign_status 400 w1; trace := log |} Hop).
    + reflexivity.
    + apply Hlog. rewrite Hdefault. reflexivity. }
  split; [|split; [|split; [|split]]].
  - intros v w2 Hh.
    rewrite (matched_outcome s op _ _ Hop (Hlog _ _ Hh)). reflexivity.
  - destruct (invalid_request_handler self e w1) as [r w2] eqn:Hh.
    rewrite (matched_outcome s op _ _ Hop (Hlog _ _ eq_refl)).
    destruct r as [v|e'].
    + eexists. split; [reflexivity|]. not_logged.
    + unfold outer_except. destruct (handled e').
      * unfold call. simpl.
        destruct (exception_handler self e' w2) as [r' w']. simpl.
        unfold log. rewrite <- app_assoc. eexists. split; [reflexivity|].
        simpl. not_logged.
      * eexists. split; [reflexivity|]. not_logged.
  - exact Hdefault_run.
  - intros Hdefault final. unfold final. rewrite (Hdefault_run Hdefault).
    repeat split; reflexivity.
  - repeat split; reflexivity.
Qed.

(** C2. The callback of a validated request runs before the response
    is checked. When the check of what it returned, against the status
    code it left, raises [ValidationError] (the payload does not fit) or
    [MatchingResponseNotFound] (the operation has no response for that
    status), the invalid-response handler is called in the world the
    callback left, so that nothing the callback did is undone, and what
    the handler returns is returned in place of the payload. The default
    handler only sets status 500 in that world and returns the dict with
    code 500 and the text of the error: after the run the response's
    status code reads 500, and the rest of the response, the request, the
    store and the application state are as the callback left them. What
    is checked is what the callback returned: the wrapper handed to
    [validate_response] gives the payload as its [json], the response's
    content type ([application/json] when it has none), its headers and
    the status line of its status code, against the response the
    operation has for that status code. *)
Theorem invalid_response_is_answered_by_its_handler
    (s : MState) (op : Operation) (data payload : pyval) (w3 : World) (e : exn) :
  resolved_operation self route (world s) = Some op ->
  unmarshal_request (make_BottleIncomingRequest (request (world s))) op
    = Return data ->
  callback args (validated_world op data (world s)) = (Return payload, w3) ->
  response_check op payload w3 = Raise e ->
  exn_type e = ValidationError \/ exn_type e = MatchingResponseNotFound ->
  let log := (trace s
              ++ [lookup_event route (world s); EvUnmarshalRequest; EvCallback]
              ++ response_check_events op w3
              ++ [EvInvalidResponseHandler e])%list in
  (forall v w4,
     invalid_response_handler self e w3 = (Return v, w4) ->
     _swagger_validate self callback route args s
     = (Return v, {| world := w4; trace := log |}))
  /\ (invalid_response_handler self = default_server_error_handler ->
      _swagger_validate self callback route args s
      = (Return (PDict [("code", PInt 500); ("message", PStr (exn_str e))]),
         {| world := assign_status 500 w3; trace := log |}))
  /\ (invalid_response_handler self = default_server_error_handler ->
      let final := world (snd (_swagger_validate self callback route args s)) in
      resp_status_code (response final) = 500%Z
      /\ resp_content_type (response final) = resp_content_type (response w3)
      /\ resp_headers (response final) = resp_headers (response w3)
      /\ request final = request w3
      /\ objects final = objects w3
      /\ app final = app w3)
  /\ (let outgoing := make_BottleOutgoingResponse (response w3) payload in
      out_json outgoing = payload
      /\ out_content_type outgoing
         = (if bool_decide (resp_content_type (response w3) = "")
            then "application/json"
            else resp_content_type (response w3))
      /\ out_headers outgoing = resp_headers (response w3)
      /\ out_text outgoing = status_line (resp_status_code (response w3))
      /\ response_check op payload w3
         = match get_response_spec (resp_status_code (response w3)) op with
           | Raise e' => Raise e'
           | Return response_spec =>
               validate_response response_spec op outgoing
           end).
Proof.
  intros Hop Hun Hcb Hcheck Hcls log.
  pose proof (validated_call_response_check_raises
    {| world := world s; trace := trace s ++ [lookup_event route (world s)] |}
    op data payload e w3 Hun Hcb Hcheck) as Hbody.
  assert (Hcaught :
    isinstance e ValidationError || isinstance e MatchingResponseNotFound = true).
  { unfold isinstance. destruct Hcls as [-> | ->]; reflexivity. }
  simpl in Hbody. rewrite Hcaught in Hbody. unfold call in Hbody.
  simpl in Hbody.
  assert (Hlog : forall (w4 : World) r,
    invalid_response_handler self e w3 = (r, w4) ->
    validated_call self callback args op
      {| world := world s; trace := trace s ++ [lookup_event route (world s)] |}
    = (r, {| world := w4; trace := log |})).
  { intros w4 r Hh. rewrite Hbody, Hh. unfold log.
    rewrite <- !app_assoc. reflexivity. }
  assert (Hdefault_run :
    invalid_response_handler self = default_server_error_handler ->
    _swagger_validate self callback route args s
    = (Return (PDict [("code", PInt 500); ("message", PStr (exn_str e))]),
       {| world := assign_status 500 w3; trace := log |})).
  { intros Hdefault.
    rewrite (matched_outcome s op
      (Return (PDict [("code", PInt 500); ("message", PStr (exn_str e))]))
      {| world := assign_status 500 w3; trace := log |} Hop).
    + reflexivity.
    + apply Hlog. rewrite Hdefault. reflexivity. }
  split; [|split; [|split]].
  - intros v w4 Hh.
    rewrite (matched_outcome s op _ _ Hop (Hlog _ _ Hh)). reflexivity.
  - exact Hdefault_run.
  - intros Hdefault final. unfold final. rewrite (Hdefault_run Hdefault).
    repeat split; reflexivity.
  - repeat split; reflexivity.
Qed.

(** C8. Once the callback of a validated request has returned a payload
    that passes the response check: with [auto_jsonify] on and a payload
    that is a dict or a list, the routine calls [json_dumps] on the
    payload; the text that gives is what the routine returns, and after
    the run the response's content type reads [application/json] while
    its status code and headers, the request, the store and the
    application state are as the callback left them. A payload for which
    [json_dumps] raises has no JSON text: the exception goes the way of
    every exception of the [try] body (C3). With [auto_jsonify] off, or
    any other payload, the routine returns the payload itself and leaves
    the world as the callback left it. *)
Theorem checked_result_is_serialized_or_passed_through
    (s : MState) (op : Operation) (data payload : pyval) (w3 : World) :
  resolved_operation self route (world s) = Some op ->
  unmarshal_request (make_BottleIncomingRequest (request (world s))) op
    = Return data ->
  callback args (validated_world op data (world s)) = (Return payload, w3) ->
  response_check op payload w3 = Return tt ->
  let log := (trace s
              ++ [lookup_event route (world s); EvUnmarshalRequest; EvCallback;
                  EvGetResponseSpec (resp_status_code (response w3));
                  EvValidateResponse])%list in
  let run := _swagger_validate self callback route args s in
  (auto_jsonify self = true ->
   is_dict_or_list payload = true ->
   match json_dumps (objects w3) payload with
   | Return text =>
       run = (Return (PStr text),
              {| world := assign_content_type "application/json" w3;
                 trace := log ++ [EvJsonDumps] |})
       /\ resp_content_type (response (world (snd run))) = "application/json"
       /\ resp_status_code (response (world (snd run)))
          = resp_status_code (response w3)
       /\ resp_headers (response (world (snd run))) = resp_headers (response w3)
       /\ request (world (snd run)) = request w3
       /\ objects (world (snd run)) = objects w3
       /\ app (world (snd run)) = app w3
   | Raise e =>
       run = outer_except self e
               {| world := w3; trace := log ++ [EvJsonDumps] |}
   end)
  /\ (auto_jsonify self = false \/ is_dict_or_list payload = false ->
      run = (Return payload, {| world := w3; trace := log |})).
Proof.
  intros Hop Hun Hcb Hcheck log run.
  pose proof (validated_call_checked
    {| world := world s; trace := trace s ++ [lookup_event route (world s)] |}
    op data payload w3 Hun Hcb Hcheck) as Hbody.
  rewrite (response_check_events_passed op payload w3 Hcheck) in Hbody.
  simpl in Hbody. rewrite <- !app_assoc in Hbody. simpl in Hbody.
  split.
  - intros Hauto Hpayload.
    rewrite Hauto, Hpayload in Hbody. simpl in Hbody.
    destruct (json_dumps (objects w3) payload) as [text|e].
    + assert (Hrun : run = (Return (PStr text),
                            {| world := assign_content_type "application/json" w3;
                               trace := log ++ [EvJsonDumps] |})).
      { unfold run. rewrite (matched_outcome s op _ _ Hop Hbody).
        unfold log. rewrite <- !app_assoc. reflexivity. }
      split; [exact Hrun|]. rewrite Hrun. repeat split; reflexivity.
    + unfold run. rewrite (matched_outcome s op _ _ Hop Hbody).
      unfold log. rewrite <- !app_assoc. reflexivity.
  - intros Hoff.
    assert (Hno : auto_jsonify self && is_dict_or_list payload = false).
    { destruct Hoff as [-> | ->]; [reflexivity | apply andb_false_r]. }
    rewrite Hno in Hbody.
    unfold run. rewrite (matched_outcome s op _ _ Hop Hbody). reflexivity.
Qed.

(** C6. With [ignore_undefined_routes] on, a request whose method and
    translated path are not in the schema goes to the callback: the
    routine returns or raises what the callback does, in the world the
    callback leaves, and the only calls it makes are the lookup and the
    callback; no validation, no error handler, no serialization. *)
Theorem ignored_undefined_route_is_forwarded (s : MState) :
  ignore_undefined_routes self = true ->
  resolved_operation self route (world s) = None ->
  _swagger_validate self callback route args s =
  (fst (callback args (world s)),
   {| world := snd (callback args (world s));
      trace := trace s ++ [lookup_event route (world s); EvCallback] |}).
Proof.
  intros Hignore Hop. apply unmatched_passes_through; [exact Hop|].
  rewrite Hignore. apply orb_true_r.
Qed.

(** C5, as amended. The lookup is made for every route. For a route whose
    rule does not begin with the base path and for which the lookup finds
    no operation, the routine then goes to the callback: it returns or
    raises what the callback does, and the only calls it makes are the
    lookup and the callback. *)
Theorem route_outside_base_path_is_delegated (s : MState) :
  startswith (rule route) (swagger_base_path self) = false ->
  resolved_operation self route (world s) = None ->
  _swagger_validate self callback route args s =
  (fst (callback args (world s)),
   {| world := snd (callback args (world s));
      trace := trace s ++ [lookup_event route (world s); EvCallback] |}).
Proof.
  intros Houtside Hop. apply unmatched_passes_through; [exact Hop|].
  rewrite Houtside. reflexivity.
Qed.

(** C3, as amended. Once an operation is resolved, every exception
    raised by a later step comes to the outer [except] clause
    ([outer_except]): request validation (an exception other than
    [ValidationError]), the invalid-request handler, the callback,
    response validation (an exception other than [ValidationError] and
    [MatchingResponseNotFound]), the invalid-response handler and
    [json_dumps]. There an exception that derives from [Exception] and is
    no [HTTPResponse] is answered by the exception handler, and an
    [HTTPResponse] or an exception that does not derive from [Exception]
    leaves the routine as it is, in the state it was raised in. So what
    the routine raises on such a request is an [HTTPResponse], or no
    [Exception], or what the exception handler itself raised. *)
Theorem exceptions_after_resolution_reach_the_outer_except
    (s : MState) (op : Operation) :
  resolved_operation self route (world s) = Some op ->
  let w1 := assign_swagger_op op (world s) in
  let run := _swagger_validate self callback route args s in
  let log calls :=
    (trace s ++ lookup_event route (world s) :: EvUnmarshalRequest :: calls)%list in
  (* request validation *)
  (forall e,
     unmarshal_request (make_BottleIncomingRequest (request (world s))) op
       = Raise e ->
     isinstance e ValidationError = false ->
     run = outer_except self e {| world := w1; trace := log [] |})
  (* the invalid-request handler *)
  /\ (forall e e' w2,
      unmarshal_request (make_BottleIncomingRequest (request (world s))) op
        = Raise e ->
      isinstance e ValidationError = true ->
      invalid_request_handler self e w1 = (Raise e', w2) ->
      run = outer_except self e'
              {| world := w2; trace := log [EvInvalidRequestHandler e] |})
  (* the callback *)
  /\ (forall data e w3,
      unmarshal_request (make_BottleIncomingRequest (request (world s))) op
        = Return data ->
      callback args (validated_world op data (world s)) = (Raise e, w3) ->
      run = outer_except self e {| world := w3; trace := log [EvCallback] |})
  (* response validation *)
  /\ (forall data payload e w3,
      unmarshal_request (make_BottleIncomingRequest (request (world s))) op
        = Return data ->
      callback args (validated_world op data (world s)) = (Return payload, w3) ->
      response_check op payload w3 = Raise e ->
      isinstance e ValidationError || isinstance e MatchingResponseNotFound
        = false ->
      run = outer_except self e
              {| world := w3;
                 trace := log (EvCallback :: response_check_events op w3) |})
  (* the invalid-response handler *)
  /\ (forall data payload e e' w3 w4,
      unmarshal_request (make_BottleIncomingRequest (request (world s))) op
        = Return data ->
      callback args (validated_world op data (world s)) = (Return payload, w3) ->
      response_check op payload w3 = Raise e ->
      isinstance e ValidationError || isinstance e MatchingResponseNotFound
        = true ->
      invalid_response_handler self e w3 = (Raise e', w4) ->
      run = outer_except self e'
              {| world := w4;
                 trace := log (EvCallback :: response_check_events op w3
                               ++ [EvInvalidResponseHandler e]) |})
  (* serialization *)
  /\ (forall data payload e w3,
      unmarshal_request (make_BottleIncomingRequest (request (world s))) op
        = Return data ->
      callback args (validated_world op data (world s)) = (Return payload, w3) ->
      response_check op payload w3 = Return tt ->
      auto_jsonify self && is_dict_or_list payload = true ->
      json_dumps (objects w3) payload = Raise e ->
      run = outer_except self e
              {| world := w3;
                 trace := log (EvCallback :: response_check_events op w3
                               ++ [EvJsonDumps]) |})
  (* what leaves the routine *)
  /\ (forall e s',
      run = (Raise e, s') ->
      isinstance e HTTPResponse = true
      \/ is_Exception e = false
      \/ exists e0 calls,
           handled e0 = true
           /\ trace s' = (calls ++ [EvExceptionHandler e0])%list).
Proof.
  intros Hop w1 run log.
  set (s1 := {| world := world s;
                trace := trace s ++ [lookup_event route (world s)] |}).
  assert (Hraise : forall e s2,
    validated_call self callback args op s1 = (Raise e, s2) ->
    run = outer_except self e s2).
  { intros e s2 Hbody. unfold run.
    rewrite (matched_outcome s op _ _ Hop Hbody). reflexivity. }
  repeat split.
  - intros e Hun Hcls. apply Hraise.
    rewrite (validated_call_unmarshal_raises s1 op e Hun). simpl.
    rewrite Hcls. unfold log. rewrite <- app_assoc. reflexivity.
  - intros e e' w2 Hun Hcls Hh. apply Hraise.
    rewrite (validated_call_unmarshal_raises s1 op e Hun). simpl.
    rewrite Hcls. unfold call. simpl. fold w1. rewrite Hh.
    unfold log. rewrite <- !app_assoc. reflexivity.
  - intros data e w3 Hun Hcb. apply Hraise.
    rewrite (validated_call_callback_raises s1 op data e w3 Hun Hcb).
    unfold log. simpl. rewrite <- app_assoc. reflexivity.
  - intros data payload e w3 Hun Hcb Hcheck Hcls. apply Hraise.
    rewrite (validated_call_response_check_raises s1 op data payload e w3
               Hun Hcb Hcheck).
    simpl. rewrite Hcls. unfold log. rewrite <- app_assoc. reflexivity.
  - intros data payload e e' w3 w4 Hun Hcb Hcheck Hcls Hh. apply Hraise.
    rewrite (validated_call_response_check_raises s1 op data payload e w3
               Hun Hcb Hcheck).
    simpl. rewrite Hcls. unfold call. simpl. rewrite Hh.
    unfold log. rewrite <- !app_assoc. reflexivity.
  - intros data payload e w3 Hun Hcb Hcheck Hjson Hdumps. apply Hraise.
    rewrite (validated_call_checked s1 op data payload w3 Hun Hcb Hcheck).
    simpl. rewrite Hjson, Hdumps.
    unfold log. rewrite <- !app_assoc. reflexivity.
  - intros e s' Hrun. unfold run in Hrun.
    destruct (validated_call self callback args op s1) as [r s2] eqn:Hbody.
    rewrite (matched_outcome s op _ _ Hop Hbody) in Hrun.
    destruct r as [v|e0]; [discriminate|].
    unfold outer_except in Hrun.
    destruct (handled e0) eqn:Hhandled.
    + right; right. exists e0, (trace s2).
      split; [exact Hhandled|].
      unfold call in Hrun.
      destruct (exception_handler self e0 (world s2)) as [r' w'].
      injection Hrun as _ <-. reflexivity.
    + injection Hrun as <- <-.
      unfold handled in Hhandled.
      destruct (is_Exception e0); [|right; left; reflexivity].
      left. simpl in Hhandled. apply negb_false_iff in Hhandled. exact Hhandled.
Qed.

End Interception.

(** ** The order of the calls *)

Section CallOrder.
Context `{Ext : Externals}.

(** How far a run of [_swagger_validate] has come, as its log shows it. *)
Inductive phase :=
| Entered          (* nothing was called yet *)
| LookedUp         (* [_swagger_op] looked the operation up *)
| Unmarshalled     (* [_validate_request] called [unmarshal_request] *)
| Called           (* the callback of a validated request was called *)
| SpecFound        (* [get_response_spec] was called *)
| Validated        (* [validate_response] was called *)
| Dumped           (* [json_dumps] was called *)
| Answered         (* the invalid-request or invalid-response handler was called *)
| Left.            (* forwarded, not found, or the exception handler was called *)

(** The calls the statements of [_swagger_validate] allow next. *)
Definition next (p : phase) (ev : event) : option phase :=
  match p, ev with
  | Entered, EvGetOp _ _ => Some LookedUp
  | LookedUp, EvCallback => Some Left
  | LookedUp, EvNotFoundHandler _ => Some Left
  | LookedUp, EvUnmarshalRequest => Some Unmarshalled
  | Unmarshalled, EvInvalidRequestHandler _ => Some Answered
  | Unmarshalled, EvCallback => Some Called
  | Called, EvGetResponseSpec _ => Some SpecFound
  | SpecFound, EvValidateResponse => Some Validated
  | SpecFound, EvInvalidResponseHandler _ => Some Answered
  | Validated, EvInvalidResponseHandler _ => Some Answered
  | Validated, EvJsonDumps => Some Dumped
  | Unmarshalled, EvExceptionHandler _ => Some Left
  | Called, EvExceptionHandler _ => Some Left
  | SpecFound, EvExceptionHandler _ => Some Left
  | Validated, EvExceptionHandler _ => Some Left
  | Dumped, EvExceptionHandler _ => Some Left
  | Answered, EvExceptionHandler _ => Some Left
  | _, _ => None
  end.

Fixpoint run_from (p : phase) (calls : list event) : option phase :=
  match calls with
  | [] => Some p
  | ev :: rest =>
      match next p ev with
      | Some q => run_from q rest
      | None => None
      end
  end.

(** A run can end anywhere but before or right after the lookup. *)
Definition complete (p : phase) : bool :=
  match p with
  | Entered | LookedUp => false
  | _ => true
  end.

(** The calls of one whole run, in an order the routine allows. *)
Definition in_order (calls : list event) : bool :=
  match run_from Entered calls with
  | Some p => complete p
  | None => false
  end.

(** How often a log shows the route's callback. *)
Fixpoint callback_calls (log : list event) : nat :=
  match log with
  | [] => 0
  | EvCallback :: rest => S (callback_calls rest)
  | _ :: rest => callback_calls rest
  end.

(** The calls that look at what the callback returned. *)
Definition response_side (ev : event) : bool :=
  match ev with
  | EvGetResponseSpec _ | EvValidateResponse | EvJsonDumps
  | EvInvalidResponseHandler _ => true
  | _ => false
  end.

(** The tests of the [if not swagger_op:] block that end in
    [return callback(...)]. *)
Definition let_through (self : SwaggerPlugin) (route : Route) : bool :=
  negb (startswith (rule route) (swagger_base_path self))
  || ignore_undefined_routes self
  || serve_swagger_schema self
     && bool_decide (rule route = swagger_schema_url self)
  || serve_swagger_ui self
     && startswith (rule route) (swagger_ui_base_url self).

Lemma run_from_app (p : phase) (l1 l2 : list event) :
  run_from p (l1 ++ l2)%list =
  match run_from p l1 with
  | Some q => run_from q l2
  | None => None
  end.
Proof.
  revert p. induction l1 as [|ev l1 IH]; intros p; [reflexivity|].
  rewrite <- app_comm_cons. cbn [run_from].
  destruct (next p ev); [apply IH | reflexivity].
Qed.

Lemma callback_calls_app (l1 l2 : list event) :
  callback_calls (l1 ++ l2)%list = callback_calls l1 + callback_calls l2.
Proof.
  induction l1 as [|ev l1 IH]; [reflexivity|].
  rewrite <- app_comm_cons.
  destruct ev; cbn [callback_calls]; rewrite IH; reflexivity.
Qed.

(** The calls a phase still allows to the callback. *)
Definition callbacks_left (p : phase) : nat :=
  match p with
  | Entered | LookedUp | Unmarshalled => 1
  | _ => 0
  end.

Lemma run_from_callback_calls (calls : list event) (p q : phase) :
  run_from p calls = Some q ->
  callback_calls calls <= callbacks_left p.
Proof.
  revert p. induction calls as [|ev rest IH]; intros p Hrun.
  - cbn. lia.
  - cbn [run_from] in Hrun.
    destruct (next p ev) as [p'|] eqn:Hnext; [|discriminate].
    specialize (IH p' Hrun).
    destruct p, ev; cbn in Hnext; try discriminate;
      injection Hnext as <-; cbn in *; lia.
Qed.

(** The phases that lie behind the call of a validated request's callback. *)
Definition behind_callback (p : phase) : bool :=
  match p with
  | Called | SpecFound | Validated | Dumped => true
  | _ => false
  end.

Lemma run_from_behind_callback (calls : list event) (p q : phase) :
  run_from p calls = Some q ->
  behind_callback q = true ->
  behind_callback p = true \/ EvCallback ∈ calls.
Proof.
  revert p. induction calls as [|ev rest IH]; intros p Hrun Hq.
  - cbn in Hrun. injection Hrun as ->. left. exact Hq.
  - cbn [run_from] in Hrun.
    destruct (next p ev) as [p'|] eqn:Hnext; [|discriminate].
    destruct (IH p' Hrun Hq) as [Hp'|Hin].
    + destruct p, ev; cbn in Hnext; try discriminate;
        injection Hnext as <-; cbn in Hp'; try discriminate;
        first [ left; reflexivity
              | right; apply elem_of_cons; left; reflexivity ].
    + right. apply elem_of_cons. right. exact Hin.
Qed.

Lemma next_response_side (p q : phase) (ev : event) :
  next p ev = Some q -> response_side ev = true -> behind_callback p = true.
Proof.
  destruct p, ev; cbn; intros Hnext Hev; try discriminate; reflexivity.
Qed.

Ltac close_run :=
  repeat match goal with x := _ : MState |- _ => subst x end;
  cbn [fst snd trace world]; rewrite <- ?app_assoc; cbn [app];
  do 2 eexists;
  split; [reflexivity|]; split; [reflexivity|]; split; [reflexivity|];
  first [ reflexivity | left; reflexivity | right; reflexivity ].

Ltac through_outer_except self e :=
  unfold outer_except; destruct (handled e);
  [ unfold call; cbn [world trace];
    match goal with
    | |- context [exception_handler self e ?w] =>
        destruct (exception_handler self e w) as [? ?]
    end
  | ];
  close_run.

(** The calls of a run, case by case: after the lookup they are in an
    order the routine allows, and the run ends in a phase it can end in;
    a resolved operation starts with request validation, and no
    operation leaves one call. *)
Lemma calls_of_a_run (self : SwaggerPlugin)
    (callback : list pyval -> Eff pyval) (route : Route) (args : list pyval)
    (s : MState) :
  exists calls p,
    trace (snd (_swagger_validate self callback route args s))
    = (trace s ++ lookup_event route (world s) :: calls)%list
    /\ run_from LookedUp calls = Some p
    /\ complete p = true
    /\ match resolved_operation self route (world s) with
       | Some _ => head calls = Some EvUnmarshalRequest
       | None => calls = [EvCallback]
                 \/ calls = [EvNotFoundHandler (rule route)]
       end.
Proof.
  destruct (resolved_operation self route (world s)) as [op|] eqn:Hop.
  - pose (s1 := {| world := world s;
                   trace := trace s ++ [lookup_event route (world s)] |}).
    destruct (unmarshal_request
                (make_BottleIncomingRequest (request (world s1))) op)
      as [data|e] eqn:Hun.
    + destruct (callback args (validated_world op data (world s1)))
        as [[payload|e] w3] eqn:Hcb.
      * destruct (response_check op payload w3) as [[]|e] eqn:Hck.
        -- pose proof (validated_call_checked self callback args s1 op data
                         payload w3 Hun Hcb Hck) as Hbody.
           cbv zeta in Hbody.
           rewrite (response_check_events_passed op payload w3 Hck) in Hbody.
           destruct (auto_jsonify self && is_dict_or_list payload).
           ++ destruct (json_dumps (objects w3) payload) as [text|e].
              ** rewrite (matched_outcome self callback route args s op _ _
                            Hop Hbody).
                 close_run.
              ** rewrite (matched_outcome self callback route args s op _ _
                            Hop Hbody).
                 through_outer_except self e.
           ++ rewrite (matched_outcome self callback route args s op _ _
                         Hop Hbody).
              close_run.
        -- pose proof (validated_call_response_check_raises self callback args
                         s1 op data payload e w3 Hun Hcb Hck) as Hbody.
           cbv zeta in Hbody.
           assert (Hevents :
                     response_check_events op w3
                     = [EvGetResponseSpec (resp_status_code (response w3))]
                     \/ response_check_events op w3
                        = [EvGetResponseSpec (resp_status_code (response w3));
                           EvValidateResponse]).
           { unfold response_check_events.
             destruct (get_response_spec _ op); [right | left]; reflexivity. }
           destruct (isinstance e ValidationError
                     || isinstance e MatchingResponseNotFound).
           ++ unfold call in Hbody. cbn [world trace] in Hbody.
              destruct (invalid_response_handler self e w3) as [[v|e'] w4].
              ** rewrite (matched_outcome self callback route args s op _ _
                            Hop Hbody).
                 destruct Hevents as [-> | ->]; close_run.
              ** rewrite (matched_outcome self callback route args s op _ _
                            Hop Hbody).
                 destruct Hevents as [-> | ->]; through_outer_except self e'.
           ++ rewrite (matched_outcome self callback route args s op _ _
                         Hop Hbody).
              destruct Hevents as [-> | ->]; through_outer_except self e.
      * pose proof (validated_call_callback_raises self callback args s1 op
                      data e w3 Hun Hcb) as Hbody.
        rewrite (matched_outcome self callback route args s op _ _ Hop Hbody).
        through_outer_except self e.
    + pose proof (validated_call_unmarshal_raises self callback args s1 op e
                    Hun) as Hbody.
      cbv zeta in Hbody.
      destruct (isinstance e ValidationError).
      * unfold call in Hbody. cbn [world trace] in Hbody.
        destruct (invalid_request_handler self e
                    (assign_swagger_op op (world s1))) as [[v|e'] w2].
        -- rewrite (matched_outcome self callback route args s op _ _
                      Hop Hbody).
           close_run.
        -- rewrite (matched_outcome self callback route args s op _ _
                      Hop Hbody).
           through_outer_except self e'.
      * rewrite (matched_outcome self callback route args s op _ _ Hop Hbody).
        through_outer_except self e.
  - unfold _swagger_validate, bind.
    rewrite _swagger_op_run, Hop.
    destruct (negb (startswith (rule route) (swagger_base_path self))
              || ignore_undefined_routes self);
      [|destruct (serve_swagger_schema self
                  && bool_decide (rule route = swagger_schema_url self));
        [|destruct (serve_swagger_ui self
                    && startswith (rule route) (swagger_ui_base_url self))]];
      unfold call; cbn [world trace];
      try (destruct (callback args (world s)) as [? ?]; close_run).
    destruct (swagger_op_not_found_handler self route (world s)) as [? ?].
    close_run.
Qed.

(** X2. Every run makes its calls in the order of the routine's
    statements: first the operation lookup for the request's method and
    the translated rule, then either the callback alone, or the
    not-found handler alone, or request validation followed by the
    invalid-request handler or by the callback, the response lookup, the
    response validation, and the serialization or the invalid-response
    handler; the exception handler, when it is called, is the last
    call. This holds for every plugin, callback, route and request. *)
Theorem calls_are_made_in_order (self : SwaggerPlugin)
    (callback : list pyval -> Eff pyval) (route : Route) (args : list pyval)
    (s : MState) :
  exists calls,
    trace (snd (_swagger_validate self callback route args s))
    = (trace s ++ calls)%list
    /\ head calls = Some (EvGetOp (req_method (request (world s)))
                            (swagger_path (rule route)))
    /\ in_order calls = true.
Proof.
  destruct (calls_of_a_run self callback route args s)
    as (calls & p & Htrace & Hrun & Hp & _).
  exists (lookup_event route (world s) :: calls).
  split; [exact Htrace|]. split; [reflexivity|].
  unfold in_order, lookup_event. cbn [run_from next].
  rewrite Hrun. exact Hp.
Qed.

(** X3. One request calls the route's callback at most once, whatever
    the handlers and the schema library do. *)
Theorem callback_is_called_at_most_once (self : SwaggerPlugin)
    (callback : list pyval -> Eff pyval) (route : Route) (args : list pyval)
    (s : MState) :
  callback_calls (trace (snd (_swagger_validate self callback route args s)))
  <= callback_calls (trace s) + 1.
Proof.
  destruct (calls_of_a_run self callback route args s)
    as (calls & p & -> & Hrun & _).
  rewrite callback_calls_app. unfold lookup_event. cbn [callback_calls].
  pose proof (run_from_callback_calls calls LookedUp p Hrun) as Hle.
  cbn in Hle. lia.
Qed.

(** X4. What looks at the callback's result comes after the callback:
    whenever the log of a run shows the response lookup, the response
    validation, the serialization or the invalid-response handler, it
    shows the callback before it, in the same run. *)
Theorem response_is_checked_after_the_callback (self : SwaggerPlugin)
    (callback : list pyval -> Eff pyval) (route : Route) (args : list pyval)
    (s : MState) (before after : list event) (ev : event) :
  trace (snd (_swagger_validate self callback route args s))
  = (trace s ++ before ++ ev :: after)%list ->
  response_side ev = true ->
  EvCallback ∈ before.
Proof.
  intros Htrace Hev.
  destruct (calls_of_a_run self callback route args s)
    as (calls & p & Hcalls & Hrun & _).
  rewrite Hcalls in Htrace. apply app_inv_head in Htrace.
  assert (Hall : run_from Entered (before ++ ev :: after) = Some p).
  { rewrite <- Htrace. unfold lookup_event. cbn [run_from next]. exact Hrun. }
  rewrite run_from_app in Hall.
  destruct (run_from Entered before) as [q|] eqn:Hbefore; [|discriminate].
  cbn [run_from] in Hall.
  destruct (next q ev) as [q'|] eqn:Hnext; [|discriminate].
  pose proof (next_response_side q q' ev Hnext Hev) as Hq.
  destruct (run_from_behind_callback before Entered q Hbefore Hq) as [H|H];
    [discriminate H | exact H].
Qed.

(** Without an operation the tests of the [if not swagger_op:] block
    decide between the callback and the not-found handler. *)
Lemma unmatched_outcome (self : SwaggerPlugin)
    (callback : list pyval -> Eff pyval) (route : Route) (args : list pyval)
    (s : MState) :
  resolved_operation self route (world s) = None ->
  _swagger_validate self callback route args s
  = (if let_through self route
     then (fst (callback args (world s)),
           {| world := snd (callback args (world s));
              trace := trace s ++ [lookup_event route (world s); EvCallback] |})
     else (fst (swagger_op_not_found_handler self route (world s)),
           {| world := snd (swagger_op_not_found_handler self route (world s));
              trace := trace s ++ [lookup_event route (world s);
                                   EvNotFoundHandler (rule route)] |})).
Proof.
  intros Hop.
  unfold _swagger_validate, bind, let_through.
  rewrite _swagger_op_run, Hop.
  destruct (negb (startswith (rule route) (swagger_base_path self))
            || ignore_undefined_routes self);
    [|destruct (serve_swagger_schema self
                && bool_decide (rule route = swagger_schema_url self));
      [|destruct (serve_swagger_ui self
                  && startswith (rule route) (swagger_ui_base_url self))]];
    unfold call; cbn [world trace orb];
    try (destruct (callback args (world s)) as [? ?];
         cbn [fst snd]; rewrite <- app_assoc; reflexivity).
  destruct (swagger_op_not_found_handler self route (world s)) as [? ?].
  cbn [fst snd]. rewrite <- app_assoc. reflexivity.
Qed.

(** X5. A route for which the lookup finds no operation is either handed
    to the callback untouched or answered by the not-found handler, and
    the tests decide which: outside the base path, with
    [ignore_undefined_routes], on the schema URL while the schema is
    served, or under the UI URL while the UI is served, the outcome and
    the world are the callback's own; in every other case they are the
    not-found handler's and the callback is not called. Neither path
    validates anything, and the default not-found handler sets status
    404 and returns the dict with code 404 and the route's text: after
    the run the response's status code reads 404, and the rest of the
    response, the request, the store and the application state are as
    they were. *)
Theorem unmatched_route_is_forwarded_or_not_found (self : SwaggerPlugin)
    (callback : list pyval -> Eff pyval) (route : Route) (args : list pyval)
    (s : MState) :
  resolved_operation self route (world s) = None ->
  _swagger_validate self callback route args s
  = (if let_through self route
     then (fst (callback args (world s)),
           {| world := snd (callback args (world s));
              trace := trace s ++ [lookup_event route (world s); EvCallback] |})
     else (fst (swagger_op_not_found_handler self route (world s)),
           {| world := snd (swagger_op_not_found_handler self route (world s));
              trace := trace s ++ [lookup_event route (world s);
                                   EvNotFoundHandler (rule route)] |}))
  /\ (swagger_op_not_found_handler self = default_not_found_handler ->
      let_through self route = false ->
      _swagger_validate self callback route args s
      = (Return (PDict [("code", PInt 404);
                        ("message", PStr (route_str route))]),
         {| world := assign_status 404 (world s);
            trace := trace s ++ [lookup_event route (world s);
                                 EvNotFoundHandler (rule route)] |}))
  /\ (swagger_op_not_found_handler self = default_not_found_handler ->
      let_through self route = false ->
      let final := world (snd (_swagger_validate self callback route args s)) in
      resp_status_code (response final) = 404%Z
      /\ resp_content_type (response final)
         = resp_content_type (response (world s))
      /\ resp_headers (response final) = resp_headers (response (world s))
      /\ request final = request (world s)
      /\ objects final = objects (world s)
      /\ app final = app (world s)).
Proof.
  intros Hop.
  pose proof (unmatched_outcome self callback route args s Hop) as Hrun.
  split; [exact Hrun|]. split.
  - intros Hdefault Hblocked. rewrite Hrun, Hblocked, Hdefault. reflexivity.
  - intros Hdefault Hblocked final. unfold final.
    rewrite Hrun, Hblocked, Hdefault. repeat split; reflexivity.
Qed.

(** X6. The callback of a validated request runs in the world where
    [request.swagger_op] is the operation and [request.swagger_data] is
    what request validation returned, and where nothing else has
    changed; and that world is all the routine shows the callback: two
    callbacks that do the same there make the same run. *)
Theorem callback_sees_the_validated_request (self : SwaggerPlugin)
    (callback callback' : list pyval -> Eff pyval) (route : Route)
    (args : list pyval) (s : MState) (op : Operation) (data : pyval) :
  resolved_operation self route (world s) = Some op ->
  unmarshal_request (make_BottleIncomingRequest (request (world s))) op
    = Return data ->
  let w := validated_world op data (world s) in
  req_swagger_op (request w) = Some op
  /\ req_swagger_data (request w) = Some data
  /\ make_BottleIncomingRequest (request w)
     = make_BottleIncomingRequest (request (world s))
  /\ req_method (request w) = req_method (request (world s))
  /\ req_SCRIPT_NAME (request w) = req_SCRIPT_NAME (request (world s))
  /\ response w = response (world s)
  /\ objects w = objects (world s)
  /\ app w = app (world s)
  /\ (callback' args w = callback args w ->
      _swagger_validate self callback' route args s
      = _swagger_validate self callback route args s).
Proof.
  intros Hop Hun w.
  repeat (split; [reflexivity|]).
  intros Hsame.
  rewrite (matched_runs_validated_call self callback' route args s op Hop).
  rewrite (matched_runs_validated_call self callback route args s op Hop).
  assert (Hbody : forall s1,
            world s1 = world s ->
            validated_call self callback' args op s1
            = validated_call self callback args op s1).
  { intros [w1 t1] Hw. cbn [world] in Hw. subst w1 w.
    unfold validated_call, _validate_request, bind, try_except, call_lib,
      call, modify, gets, ret, raise.
    unfold make_BottleIncomingRequest, validated_world in *. simpl in *.
    rewrite Hun. simpl. rewrite Hsame. reflexivity. }
  unfold try_except at 1. rewrite Hbody by reflexivity. reflexivity.
Qed.

Lemma startswith_itself (text : string) : startswith text text = true.
Proof.
  unfold startswith. apply String.prefix_correct.
  induction text as [|c text IH]; [reflexivity|].
  cbn [String.length String.substring]. f_equal. exact IH.
Qed.

(** X15. The plugin lets its own endpoints through. A request to a route
    that [setup] adds, the schema's, the UI's index or, when joining
    keeps the UI URL in front, the UI's assets, and that resolves to no
    operation of the schema, goes to the route's callback untouched: the
    not-found handler is not called, whatever the base path and
    [ignore_undefined_routes]. *)
Theorem own_routes_are_let_through (self : SwaggerPlugin) (r : app_route)
    (callback : list pyval -> Eff pyval) (route : Route) (args : list pyval)
    (s : MState) :
  r ∈ setup self [] ->
  rule route = route_rule r ->
  (route_callback r = swagger_ui_assets_endpoint ->
   startswith (route_rule r) (swagger_ui_base_url self) = true) ->
  resolved_operation self route (world s) = None ->
  _swagger_validate self callback route args s
  = (fst (callback args (world s)),
     {| world := snd (callback args (world s));
        trace := trace s ++ [lookup_event route (world s); EvCallback] |}).
Proof.
  intros Hin Hrule Hassets Hop.
  rewrite (unmatched_outcome self callback route args s Hop).
  assert (Hthrough : let_through self route = true); [|rewrite Hthrough; reflexivity].
  unfold let_through. rewrite Hrule.
  unfold setup, app_get in Hin.
  destruct (serve_swagger_schema self) eqn:Hschema;
    destruct (serve_swagger_ui self) eqn:Hui;
    cbn [app] in Hin;
    repeat (apply elem_of_cons in Hin as [-> | Hin]);
    try (apply elem_of_nil in Hin; destruct Hin);
    cbn [route_rule route_callback andb] in *.
  - rewrite bool_decide_eq_true_2 by reflexivity.
    destruct (negb _ || _); reflexivity.
  - rewrite startswith_itself. destruct (negb _ || _), (bool_decide _); reflexivity.
  - rewrite (Hassets eq_refl).
    destruct (negb _ || _), (bool_decide _); reflexivity.
  - rewrite bool_decide_eq_true_2 by reflexivity.
    destruct (negb _ || _); reflexivity.
  - rewrite startswith_itself. destruct (negb _ || _); reflexivity.
  - rewrite (Hassets eq_refl). destruct (negb _ || _); reflexivity.
Qed.

(** X16. A request that resolves to an operation is handed to request
    validation before anything else is called, whatever the validation
    options of the constructor were; and when request validation raises,
    a [ValidationError] or anything else, the callback is not called. *)
Theorem resolved_request_is_validated_first (self : SwaggerPlugin)
    (callback : list pyval -> Eff pyval) (route : Route) (args : list pyval)
    (s : MState) (op : Operation) :
  resolved_operation self route (world s) = Some op ->
  exists rest,
    trace (snd (_swagger_validate self callback route args s))
    = (trace s ++ lookup_event route (world s) :: EvUnmarshalRequest :: rest)%list
    /\ forall e,
         unmarshal_request (make_BottleIncomingRequest (request (world s))) op
         = Raise e ->
         EvCallback ∉ rest.
Proof.
  intros Hop.
  destruct (unmarshal_request
              (make_BottleIncomingRequest (request (world s))) op)
    as [data|e] eqn:Hun.
  - destruct (calls_of_a_run self callback route args s)
      as (calls & p & Htrace & _ & _ & Hhead).
    rewrite Hop in Hhead.
    destruct calls as [|ev rest]; [discriminate Hhead|].
    cbn [head] in Hhead. injection Hhead as ->.
    exists rest. split; [exact Htrace|]. intros e He. discriminate He.
  - pose (s1 := {| world := world s;
                   trace := trace s ++ [lookup_event route (world s)] |}).
    pose proof (validated_call_unmarshal_raises self callback args s1 op e
                  Hun) as Hbody.
    cbv zeta in Hbody.
    assert (Hnot : forall calls : list event,
              (forall ev, ev ∈ calls ->
                 exists e', ev = EvInvalidRequestHandler e'
                            \/ ev = EvExceptionHandler e') ->
              EvCallback ∉ calls).
    { intros calls Hcalls Hin. destruct (Hcalls _ Hin) as (e' & [H|H]);
        discriminate H. }
    destruct (isinstance e ValidationError).
    + unfold call in Hbody. cbn [world trace] in Hbody.
      destruct (invalid_request_handler self e
                  (assign_swagger_op op (world s1))) as [[v|e'] w2].
      * rewrite (matched_outcome self callback route args s op _ _ Hop Hbody).
        subst s1. cbn [snd trace]. rewrite <- !app_assoc. cbn [app].
        eexists. split; [reflexivity|]. intros e0 _. apply Hnot.
        intros ev Hev. apply list_elem_of_singleton in Hev as ->.
        eexists. left. reflexivity.
      * rewrite (matched_outcome self callback route args s op _ _ Hop Hbody).
        unfold outer_except. destruct (handled e').
        -- unfold call. cbn [world trace].
           destruct (exception_handler self e' w2) as [r w3].
           subst s1. cbn [snd trace]. rewrite <- !app_assoc. cbn [app].
           eexists. split; [reflexivity|]. intros e0 _. apply Hnot.
           intros ev Hev.
           apply elem_of_cons in Hev as [-> | Hev];
             [eexists; left; reflexivity|].
           apply list_elem_of_singleton in Hev as ->.
           eexists. right. reflexivity.
        -- subst s1. cbn [snd trace]. rewrite <- !app_assoc. cbn [app].
           eexists. split; [reflexivity|]. intros e0 _. apply Hnot.
           intros ev Hev. apply list_elem_of_singleton in Hev as ->.
           eexists. left. reflexivity.
    + rewrite (matched_outcome self callback route args s op _ _ Hop Hbody).
      unfold outer_except. destruct (handled e).
      * unfold call. cbn [world trace].
        destruct (exception_handler self e (assign_swagger_op op (world s1)))
          as [r w3].
        subst s1. cbn [snd trace]. rewrite <- !app_assoc. cbn [app].
        eexists. split; [reflexivity|]. intros e0 _. apply Hnot.
        intros ev Hev. apply list_elem_of_singleton in Hev as ->.
        eexists. right. reflexivity.
      * subst s1. cbn [snd trace]. rewrite <- !app_assoc. cbn [app].
        eexists. split; [reflexivity|]. intros e0 _. apply Hnot.
        intros ev Hev. apply elem_of_nil in Hev. destruct Hev.
Qed.

End CallOrder.

(** ** Construction *)

Section ConstructionFacts.
Context `{Ext : Externals}.

(** The plugin's copy of a document with items [items]: the items, with
    [basePath] overridden when the argument is given. *)
Definition plugin_copy (a : Args.t) (items : gmap string pyval)
    : gmap string pyval :=
  match Args.swagger_base_path a with
  | Some base => <["basePath" := PStr base]> items
  | None => items
  end.

(** The configuration [__init__] hands to [Spec.from_dict]. *)
Definition config_of (a : Args.t) : gmap string pyval :=
  list_to_map
    [("validate_swagger_spec", PBool (Args.validate_swagger_spec a));
     ("validate_requests", PBool (Args.validate_requests a));
     ("validate_responses", PBool (Args.validate_responses a));
     ("use_models", PBool (Args.use_bravado_models a));
     ("formats", PList (default [] (Args.user_defined_formats a)));
     ("include_missing_properties", PBool (Args.include_missing_properties a));
     ("default_type_to_object", PBool (Args.default_type_to_object a));
     ("internally_dereference_refs", PBool (Args.internally_dereference_refs a))]
  ∪ or_empty_dict (Args.extra_bravado_config a).

(** The base path of a plugin whose copy of the document is at [d]. *)
Definition base_path_of (a : Args.t) (st : store) (d : loc) : string :=
  or_str (Args.swagger_base_path a)
    (or_str (Some (urlparse_path (build_api_serving_url st d))) "/").

(** The object a successful construction leaves. *)
Definition constructed (a : Args.t) (st : store) (d : loc) : SwaggerPlugin :=
  let base := base_path_of a st d in
  {| ignore_undefined_routes := Args.ignore_undefined_api_routes a;
     auto_jsonify := Args.auto_jsonify a;
     invalid_request_handler := Args.invalid_request_handler a;
     invalid_response_handler := Args.invalid_response_handler a;
     swagger_op_not_found_handler := Args.swagger_op_not_found_handler a;
     exception_handler := Args.exception_handler a;
     serve_swagger_schema := true;
     serve_swagger_ui := Args.serve_swagger_ui a;
     swagger_ui_validator_url := Args.swagger_ui_validator_url a;
     swagger_schema_suburl := Args.swagger_schema_suburl a;
     swagger_ui_suburl := Args.swagger_ui_suburl a;
     bravado_config := config_of a;
     swagger :=
       {| spec_dict := d;
          api_url := build_api_serving_url st d;
          config := config_of a |};
     swagger_base_path := base;
     adjust_api_base_path := Args.adjust_api_base_path a;
     swagger_schema_url :=
       urljoin (rstrip_slash base +:+ "/")
         (lstrip_slash (Args.swagger_schema_suburl a));
     swagger_ui_base_url :=
       urljoin (rstrip_slash base +:+ "/")
         (lstrip_slash (Args.swagger_ui_suburl a)) |}.

(** The exception of reading [self.serve_swagger_ui] too early. *)
Definition no_serve_swagger_ui : exn :=
  Exn AttributeError
    "'SwaggerPlugin' object has no attribute 'serve_swagger_ui'".

(** One statement at a time. *)
Lemma bind_returns {S A B} (m : ST S A) (k : A -> ST S B) (s s' : S) (a : A) :
  m s = (Return a, s') -> bind m k s = k a s'.
Proof. intros H. unfold bind. rewrite H. reflexivity. Qed.

Lemma bind_raises {S A B} (m : ST S A) (k : A -> ST S B) (s s' : S) (e : exn) :
  m s = (Raise e, s') -> bind m k s = (Raise e, s').
Proof. intros H. unfold bind. rewrite H. reflexivity. Qed.

Lemma getattr_bool_returns (name : string) (b : bool) (s : InitState) :
  self_dict s !! name = Some (ABool b) -> getattr_bool name s = (Return b, s).
Proof. intros H. unfold getattr_bool, bind, getattr. rewrite H. reflexivity. Qed.

Lemma getattr_str_returns (name : string) (v : string) (s : InitState) :
  self_dict s !! name = Some (AStr v) -> getattr_str name s = (Return v, s).
Proof. intros H. unfold getattr_str, bind, getattr. rewrite H. reflexivity. Qed.

Lemma getattr_opt_str_returns (name : string) (v : option string) (s : InitState) :
  self_dict s !! name = Some (AOptStr v) ->
  getattr_opt_str name s = (Return v, s).
Proof. intros H. unfold getattr_opt_str, bind, getattr. rewrite H. reflexivity. Qed.

Lemma getattr_error_handler_returns (name : string) (h : exn -> Eff pyval)
    (s : InitState) :
  self_dict s !! name = Some (AErrorHandler h) ->
  getattr_error_handler name s = (Return h, s).
Proof.
  intros H. unfold getattr_error_handler, bind, getattr. rewrite H. reflexivity.
Qed.

Lemma getattr_route_handler_returns (name : string) (h : Route -> Eff pyval)
    (s : InitState) :
  self_dict s !! name = Some (ARouteHandler h) ->
  getattr_route_handler name s = (Return h, s).
Proof.
  intros H. unfold getattr_route_handler, bind, getattr. rewrite H. reflexivity.
Qed.

Lemma getattr_config_returns (name : string) (c : gmap string pyval)
    (s : InitState) :
  self_dict s !! name = Some (AConfig c) -> getattr_config name s = (Return c, s).
Proof. intros H. unfold getattr_config, bind, getattr. rewrite H. reflexivity. Qed.

Lemma getattr_spec_returns (name : string) (v : Spec) (s : InitState) :
  self_dict s !! name = Some (ASpec v) -> getattr_spec name s = (Return v, s).
Proof. intros H. unfold getattr_spec, bind, getattr. rewrite H. reflexivity. Qed.

Lemma getattr_bool_missing (name : string) (s : InitState) :
  self_dict s !! name = None ->
  getattr_bool name s =
  (Raise (Exn AttributeError
            ("'SwaggerPlugin' object has no attribute '" +:+ name +:+ "'")), s).
Proof. intros H. unfold getattr_bool, bind, getattr. rewrite H. reflexivity. Qed.

(** The first two statements of [__init__]. *)
Lemma copy_then_override (a : Args.t) (items : gmap string pyval)
    (s : InitState) {B} (k : loc -> Init B) :
  init_objects s !! Args.swagger_def a = Some items ->
  (let! swagger_def := dict_copy (Args.swagger_def a) in
   do! match Args.swagger_base_path a with
       | Some base => dict_update swagger_def "basePath" (PStr base)
       | None => ret tt
       end in
   k swagger_def) s
  = k (fresh (dom (init_objects s)))
      {| init_objects :=
           <[fresh (dom (init_objects s)) := plugin_copy a items]> (init_objects s);
         self_dict := self_dict s |}.
Proof.
  intros Hitems. unfold bind, dict_copy, dict_update, ret, plugin_copy.
  rewrite Hitems.
  destruct (Args.swagger_base_path a); cbn [init_objects self_dict].
  - rewrite alter_insert_eq. reflexivity.
  - reflexivity.
Qed.

Ltac attr_lookup :=
  cbn [self_dict init_objects];
  repeat first [ rewrite lookup_insert_eq
               | rewrite lookup_insert_ne by discriminate
               | rewrite lookup_empty ];
  reflexivity.

Ltac init_step :=
  erewrite bind_returns;
  [| first [ apply getattr_bool_returns; attr_lookup
           | apply getattr_str_returns; attr_lookup
           | apply getattr_opt_str_returns; attr_lookup
           | apply getattr_error_handler_returns; attr_lookup
           | apply getattr_route_handler_returns; attr_lookup
           | apply getattr_config_returns; attr_lookup
           | apply getattr_spec_returns; attr_lookup
           | reflexivity ] ];
  cbn [init_objects self_dict].

(** Construction without a document raises and touches nothing. *)
Lemma new_without_document (a : Args.t) (st : store) :
  st !! Args.swagger_def a = None ->
  new_SwaggerPlugin a st = (Raise (Exn TypeError "swagger_def"), st).
Proof.
  intros Hnone. unfold new_SwaggerPlugin, __init__.
  rewrite bind_raises with (e := Exn TypeError "swagger_def")
    (s' := {| init_objects := st; self_dict := ∅ |}); [reflexivity|].
  apply bind_raises. unfold dict_copy. cbn [init_objects].
  rewrite Hnone. reflexivity.
Qed.

(** Construction with [serve_swagger_schema] off: the copy is made, and
    the read of [self.serve_swagger_ui] raises. *)
Lemma new_without_schema_serving (a : Args.t) (st : store)
    (items : gmap string pyval) :
  st !! Args.swagger_def a = Some items ->
  Args.serve_swagger_schema a = false ->
  new_SwaggerPlugin a st =
  (Raise no_serve_swagger_ui, <[fresh (dom st) := plugin_copy a items]> st).
Proof.
  intros Hitems Hserve. unfold new_SwaggerPlugin, __init__.
  rewrite bind_raises with (e := no_serve_swagger_ui)
    (s' := {| init_objects := <[fresh (dom st) := plugin_copy a items]> st;
              self_dict :=
                <["exception_handler" := AErrorHandler (Args.exception_handler a)]>
                (<["swagger_op_not_found_handler" :=
                     ARouteHandler (Args.swagger_op_not_found_handler a)]>
                (<["invalid_response_handler" :=
                     AErrorHandler (Args.invalid_response_handler a)]>
                (<["invalid_request_handler" :=
                     AErrorHandler (Args.invalid_request_handler a)]>
                (<["auto_jsonify" := ABool (Args.auto_jsonify a)]>
                (<["ignore_undefined_routes" :=
                     ABool (Args.ignore_undefined_api_routes a)]> ∅))))) |});
    [reflexivity|].
  rewrite (copy_then_override a items); [|exact Hitems].
  cbn [init_objects self_dict].
  do 6 init_step.
  apply bind_raises. rewrite Hserve.
  apply getattr_bool_missing.
  cbn [self_dict]. repeat (rewrite lookup_insert_ne by discriminate).
  apply lookup_empty.
Qed.

(** Construction with [serve_swagger_schema] on, up to [Spec.from_dict]:
    the library's verdict on the copy decides. *)
Lemma new_with_schema_serving (a : Args.t) (st : store)
    (items : gmap string pyval) :
  st !! Args.swagger_def a = Some items ->
  Args.serve_swagger_schema a = true ->
  let d := fresh (dom st) in
  let st1 := <[d := plugin_copy a items]> st in
  new_SwaggerPlugin a st =
  match spec_build_error st1 d (config_of a) with
  | Some e => (Raise e, st1)
  | None => (Return (constructed a st1 d), st1)
  end.
Proof.
  intros Hitems Hserve d st1. unfold new_SwaggerPlugin.
  destruct (spec_build_error st1 d (config_of a)) as [e|] eqn:Hbuild.
  - eassert (Hinit : __init__ a {| init_objects := st; self_dict := ∅ |}
                     = (Raise e, {| init_objects := st1; self_dict := _ |})).
    { unfold __init__.
      rewrite (copy_then_override a items); [|exact Hitems].
      cbn [init_objects self_dict]. fold d. fold st1. rewrite Hserve.
      do 16 init_step. fold (config_of a).
      apply bind_raises.
      unfold Spec_from_dict. cbn [init_objects]. rewrite Hbuild. reflexivity. }
    rewrite (bind_raises _ _ _ _ _ Hinit). reflexivity.
  - eassert (Hinit : __init__ a {| init_objects := st; self_dict := ∅ |}
                     = (Return tt, {| init_objects := st1; self_dict := _ |})).
    { unfold __init__.
      rewrite (copy_then_override a items); [|exact Hitems].
      cbn [init_objects self_dict]. fold d. fold st1. rewrite Hserve.
      do 16 init_step. fold (config_of a).
      erewrite bind_returns;
        [|unfold Spec_from_dict; cbn [init_objects]; rewrite Hbuild; reflexivity].
      cbn [init_objects self_dict].
      do 8 init_step. reflexivity. }
    rewrite (bind_returns _ _ _ _ _ Hinit).
    unfold read_plugin. do 17 init_step. reflexivity.
Qed.

(** Every construction leaves the store as it was, but for the copy it
    may have added at a fresh address. *)
Lemma new_store (a : Args.t) (st : store) :
  snd (new_SwaggerPlugin a st) = st
  \/ exists items,
       st !! Args.swagger_def a = Some items
       /\ snd (new_SwaggerPlugin a st)
          = <[fresh (dom st) := plugin_copy a items]> st.
Proof.
  destruct (st !! Args.swagger_def a) as [items|] eqn:Hitems.
  - right. exists items. split; [reflexivity|].
    destruct (Args.serve_swagger_schema a) eqn:Hserve.
    + rewrite (new_with_schema_serving a st items Hitems Hserve).
      destruct (spec_build_error _ _ _); reflexivity.
    + rewrite (new_without_schema_serving a st items Hitems Hserve). reflexivity.
  - left. rewrite (new_without_document a st Hitems). reflexivity.
Qed.

(** A plugin was constructed: the document was there, schema serving was
    asked for, and the object is [constructed]. *)
Lemma new_returned (a : Args.t) (st st' : store) (self : SwaggerPlugin) :
  new_SwaggerPlugin a st = (Return self, st') ->
  exists items,
    st !! Args.swagger_def a = Some items
    /\ Args.serve_swagger_schema a = true
    /\ st' = <[fresh (dom st) := plugin_copy a items]> st
    /\ self = constructed a st' (fresh (dom st)).
Proof.
  intros Hnew.
  destruct (st !! Args.swagger_def a) as [items|] eqn:Hitems.
  - destruct (Args.serve_swagger_schema a) eqn:Hserve.
    + rewrite (new_with_schema_serving a st items Hitems Hserve) in Hnew.
      destruct (spec_build_error _ _ _); [discriminate|].
      injection Hnew as <- <-. exists items. repeat split; reflexivity.
    + rewrite (new_without_schema_serving a st items Hitems Hserve) in Hnew.
      discriminate.
  - rewrite (new_without_document a st Hitems) in Hnew. discriminate.
Qed.

Lemma fresh_address_is_new (st : store) (l : loc) (o : gmap string pyval) :
  st !! l = Some o -> fresh (dom st) <> l.
Proof.
  intros Hl Heq.
  apply (is_fresh (dom st)). rewrite Heq.
  apply elem_of_dom. exists o. exact Hl.
Qed.

(** C10. Whatever the arguments, and whether construction succeeds or
    raises, every object that was in the store before is in it unchanged
    afterwards, the caller's document among them. When a base path is
    given and construction succeeds, the plugin's document is another
    object than the caller's, and it is that object which holds the
    caller's items with [basePath] written over them. *)
Theorem caller_document_is_left_unchanged (a : Args.t) (st : store) :
  (forall l o,
     st !! l = Some o -> snd (new_SwaggerPlugin a st) !! l = Some o)
  /\ (forall items base self,
        st !! Args.swagger_def a = Some items ->
        Args.swagger_base_path a = Some base ->
        fst (new_SwaggerPlugin a st) = Return self ->
        spec_dict (swagger self) <> Args.swagger_def a
        /\ snd (new_SwaggerPlugin a st) !! spec_dict (swagger self)
           = Some (<["basePath" := PStr base]> items)).
Proof.
  split.
  - intros l o Hl.
    destruct (new_store a st) as [-> | (items & _ & ->)]; [exact Hl|].
    rewrite lookup_insert_ne; [exact Hl|].
    apply (fresh_address_is_new st l o Hl).
  - intros items base self Hitems Hbase Hself.
    destruct (new_SwaggerPlugin a st) as [r st'] eqn:Hnew.
    simpl in Hself. subst r.
    destruct (new_returned a st st' self Hnew)
      as (items' & Hitems' & _ & -> & ->).
    rewrite Hitems in Hitems'. injection Hitems' as <-.
    cbn [constructed swagger spec_dict snd]. split.
    + apply (fresh_address_is_new st _ items Hitems).
    + rewrite lookup_insert_eq. unfold plugin_copy. rewrite Hbase. reflexivity.
Qed.

End ConstructionFacts.

(** ** Serving the schema *)

Section ServingFacts.
Context `{Ext : Externals}.

(** The route [setup] adds for the schema. *)
Definition schema_route (self : SwaggerPlugin) : app_route :=
  {| route_method := "GET";
     route_rule := swagger_schema_url self;
     route_callback := swagger_schema_endpoint |}.

(** [d[key]] for the dict object at [d], when both are there. *)
Definition item (st : store) (d : loc) (key : string) : option pyval :=
  match st !! d with
  | Some items => items !! key
  | None => None
  end.











End ServingFacts.

(** ** What a construction leaves *)

Section ConstructedPlugins.
Context `{Ext : Externals}.

(** The keys of the dict [__init__] passes to [bravado_config.update]. *)
Definition forced_keys : list string :=
  ["validate_swagger_spec"; "validate_requests"; "validate_responses";
   "use_models"; "formats"; "include_missing_properties";
   "default_type_to_object"; "internally_dereference_refs"].

Lemma dict_contains_after_write (st : store) (d : loc) (key : string) (v : pyval) :
  dict_contains st d key = true ->
  dict_contains (alter (insert key v) d st) d key = true.
Proof.
  unfold dict_contains. rewrite lookup_alter_eq.
  destruct (st !! d) as [items|]; [|discriminate].
  intros _. cbn. apply bool_decide_eq_true_2.
  rewrite lookup_insert_eq. eexists. reflexivity.
Qed.

Lemma write_over_write (st : store) (d : loc) (key : string) (v v' : pyval) :
  alter (insert key v') d (alter (insert key v) d st)
  = alter (insert key v') d st.
Proof.
  apply map_eq. intros l.
  destruct (decide (d = l)) as [<-|Hne].
  - rewrite !lookup_alter_eq.
    destruct (st !! d) as [items|]; [|reflexivity].
    cbn. rewrite insert_insert_eq. reflexivity.
  - rewrite !lookup_alter_ne by exact Hne. reflexivity.
Qed.

(** X7. For a document that is a dict, what the construction returns
    or raises: a plugin exactly when schema serving is asked for and the
    schema library accepts the plugin's copy of the document under the
    configuration [__init__] builds; the library's exception when
    schema serving is asked for and the library rejects the copy; and
    the [AttributeError] of the early read of [self.serve_swagger_ui]
    when schema serving is not asked for. *)
Theorem construction_succeeds_exactly_when (a : Args.t) (st : store)
    (items : gmap string pyval) :
  st !! Args.swagger_def a = Some items ->
  let d := fresh (dom st) in
  let st1 := <[d := plugin_copy a items]> st in
  ((exists self, fst (new_SwaggerPlugin a st) = Return self)
   <-> Args.serve_swagger_schema a = true
       /\ spec_build_error st1 d (config_of a) = None)
  /\ (forall e,
        Args.serve_swagger_schema a = true ->
        spec_build_error st1 d (config_of a) = Some e ->
        fst (new_SwaggerPlugin a st) = Raise e)
  /\ (Args.serve_swagger_schema a = false ->
      fst (new_SwaggerPlugin a st) = Raise no_serve_swagger_ui).
Proof.
  intros Hitems d st1.
  split; [split|split].
  - intros [self Hself].
    destruct (Args.serve_swagger_schema a) eqn:Hserve.
    + split; [reflexivity|].
      rewrite (new_with_schema_serving a st items Hitems Hserve) in Hself.
      cbv zeta in Hself. fold d in Hself. fold st1 in Hself.
      destruct (spec_build_error st1 d (config_of a));
        [discriminate Hself | reflexivity].
    + rewrite (new_without_schema_serving a st items Hitems Hserve) in Hself.
      discriminate Hself.
  - intros (Hserve & Hbuild).
    rewrite (new_with_schema_serving a st items Hitems Hserve).
    cbv zeta. fold d. fold st1. rewrite Hbuild. eexists. reflexivity.
  - intros e Hserve Hbuild.
    rewrite (new_with_schema_serving a st items Hitems Hserve).
    cbv zeta. fold d. fold st1. rewrite Hbuild. reflexivity.
  - intros Hserve.
    rewrite (new_without_schema_serving a st items Hitems Hserve). reflexivity.
Qed.

(** X8. The base path of a constructed plugin is never empty: it is the
    [swagger_base_path] argument when that is given and not empty,
    otherwise the path of the document's API URL when that is not
    empty, otherwise [/]. A given argument, empty or not, is written to
    [basePath] of the plugin's copy of the document, and the UI is
    placed under the base path closed by one slash. *)
Theorem constructed_base_path (a : Args.t) (st st' : store)
    (self : SwaggerPlugin) :
  new_SwaggerPlugin a st = (Return self, st') ->
  let from_document := urlparse_path (api_url (swagger self)) in
  swagger_base_path self <> ""
  /\ (forall base,
        Args.swagger_base_path a = Some base -> base <> "" ->
        swagger_base_path self = base)
  /\ (Args.swagger_base_path a = None \/ Args.swagger_base_path a = Some "" ->
      swagger_base_path self
      = if bool_decide (from_document = "") then "/" else from_document)
  /\ (forall base,
        Args.swagger_base_path a = Some base ->
        item st' (spec_dict (swagger self)) "basePath" = Some (PStr base))
  /\ api_url (swagger self)
     = build_api_serving_url st' (spec_dict (swagger self))
  /\ swagger_ui_base_url self
     = urljoin (rstrip_slash (swagger_base_path self) +:+ "/")
         (lstrip_slash (swagger_ui_suburl self)).
Proof.
  intros Hnew.
  destruct (new_returned a st st' self Hnew)
    as (items & Hitems & _ & Hst' & ->).
  cbn [constructed swagger swagger_base_path api_url spec_dict
       swagger_ui_base_url swagger_ui_suburl].
  unfold base_path_of.
  split; [|split; [|split; [|split; [|split]]]].
  - unfold or_str.
    destruct (Args.swagger_base_path a) as [base|];
      repeat case_bool_decide; congruence.
  - intros base -> Hbase. unfold or_str at 1.
    rewrite bool_decide_eq_false_2 by exact Hbase. reflexivity.
  - intros [-> | ->]; reflexivity.
  - intros base Hbase. unfold item. rewrite Hst', lookup_insert_eq.
    unfold plugin_copy. rewrite Hbase. apply lookup_insert_eq.
  - reflexivity.
  - reflexivity.
Qed.

Lemma config_of_other_keys (a : Args.t) (key : string) :
  key ∉ forced_keys ->
  config_of a !! key = or_empty_dict (Args.extra_bravado_config a) !! key.
Proof.
  intros Hkey. unfold config_of. apply lookup_union_r.
  apply not_elem_of_list_to_map_1. exact Hkey.
Qed.

(** X9. The configuration of a constructed plugin, which is also the one
    its [Spec] was built with: each of the eight options has the value of
    its argument, whatever [extra_bravado_config] says about it, with
    [formats] the empty list when [user_defined_formats] is not given;
    every other item of [extra_bravado_config] is kept, and nothing else
    is added. *)
Theorem configuration_overrides_the_extra_items (a : Args.t) (st st' : store)
    (self : SwaggerPlugin) :
  new_SwaggerPlugin a st = (Return self, st') ->
  let cfg := bravado_config self in
  config (swagger self) = cfg
  /\ cfg !! "validate_swagger_spec" = Some (PBool (Args.validate_swagger_spec a))
  /\ cfg !! "validate_requests" = Some (PBool (Args.validate_requests a))
  /\ cfg !! "validate_responses" = Some (PBool (Args.validate_responses a))
  /\ cfg !! "use_models" = Some (PBool (Args.use_bravado_models a))
  /\ cfg !! "formats" = Some (PList (default [] (Args.user_defined_formats a)))
  /\ cfg !! "include_missing_properties"
     = Some (PBool (Args.include_missing_properties a))
  /\ cfg !! "default_type_to_object"
     = Some (PBool (Args.default_type_to_object a))
  /\ cfg !! "internally_dereference_refs"
     = Some (PBool (Args.internally_dereference_refs a))
  /\ (forall key,
        key ∉ forced_keys ->
        cfg !! key = match Args.extra_bravado_config a with
                     | Some extra => extra !! key
                     | None => None
                     end).
Proof.
  intros Hnew.
  destruct (new_returned a st st' self Hnew) as (items & _ & _ & _ & ->).
  cbn [constructed swagger bravado_config config].
  split; [reflexivity|].
  repeat (split;
          [unfold config_of; apply lookup_union_Some_l;
           cbn [list_to_map foldr uncurry fst snd];
           repeat first [ apply lookup_insert_eq
                        | rewrite lookup_insert_ne by discriminate ]|]).
  intros key Hkey. rewrite (config_of_other_keys a key Hkey).
  destruct (Args.extra_bravado_config a); [reflexivity | apply lookup_empty].
Qed.

(** X10. What the schema endpoint writes into the plugin's document
    depends on the request it serves and on nothing an earlier request
    wrote: serving a request after another leaves everything exactly as
    serving it alone does, so mount prefixes do not pile up in
    [basePath]; and a request served again returns the same and changes
    nothing more. *)
Theorem schema_endpoint_keeps_no_history (self : SwaggerPlugin) (w w' : World) :
  swagger_schema self (set_objects w' (objects (snd (swagger_schema self w))))
  = swagger_schema self (set_objects w' (objects w))
  /\ swagger_schema self (snd (swagger_schema self w))
     = (fst (swagger_schema self w), snd (swagger_schema self w)).
Proof.
  destruct w as [rq rs ob ap], w' as [rq' rs' ob' ap'].
  unfold swagger_schema, set_objects, adjusted_base_path.
  cbn [objects request response app].
  destruct (adjust_api_base_path self); cbn [andb]; [|split; reflexivity].
  destruct (dict_contains ob (spec_dict (swagger self)) "basePath") eqn:Hin;
    cbn [fst snd objects request response app].
  - rewrite !(dict_contains_after_write ob _ _ _ Hin).
    rewrite !write_over_write. split; reflexivity.
  - rewrite ?Hin. split; reflexivity.
Qed.

End ConstructedPlugins.

(** ** The single-file module *)

Section LegacyFacts.
Context `{Ext : Externals}.

(** The plugin's copy of a document with items [items]. *)
Definition legacy_plugin_copy (a : Legacy.Args.t) (items : gmap string pyval)
    : gmap string pyval :=
  match Legacy.Args.swagger_base_path a with
  | Some base => <["basePath" := PStr base]> items
  | None => items
  end.

(** The configuration [__init__] hands to [Spec.from_dict]. *)
Definition legacy_config_of (a : Legacy.Args.t) : gmap string pyval :=
  list_to_map
    [("validate_swagger_spec", PBool (Legacy.Args.validate_swagger_spec a));
     ("validate_requests", PBool (Legacy.Args.validate_requests a));
     ("validate_responses", PBool (Legacy.Args.validate_responses a));
     ("use_models", PBool (Legacy.Args.use_bravado_models a));
     ("formats", PList (default [] (Legacy.Args.user_defined_formats a)));
     ("include_missing_properties",
      PBool (Legacy.Args.include_missing_properties a));
     ("default_type_to_object", PBool (Legacy.Args.default_type_to_object a));
     ("internally_dereference_refs",
      PBool (Legacy.Args.internally_dereference_refs a))]
  ∪ or_empty_dict (Legacy.Args.extra_bravado_config a).

(** The object a successful construction leaves. *)
Definition legacy_constructed (a : Legacy.Args.t) (st : store) (d : loc)
    : Legacy.SwaggerPlugin :=
  {| Legacy.ignore_undefined_routes := Legacy.Args.ignore_undefined_api_routes a;
     Legacy.auto_jsonify := Legacy.Args.auto_jsonify a;
     Legacy.invalid_request_handler := Legacy.Args.invalid_request_handler a;
     Legacy.invalid_response_handler := Legacy.Args.invalid_response_handler a;
     Legacy.swagger_op_not_found_handler :=
       Legacy.Args.swagger_op_not_found_handler a;
     Legacy.exception_handler := Legacy.Args.exception_handler a;
     Legacy.serve_swagger_schema := Legacy.Args.serve_swagger_schema a;
     Legacy.swagger_schema_suburl := Legacy.Args.swagger_schema_suburl a;
     Legacy.bravado_config := legacy_config_of a;
     Legacy.swagger :=
       {| spec_dict := d;
          api_url := build_api_serving_url st d;
          config := legacy_config_of a |};
     Legacy.swagger_base_path :=
       or_str (Legacy.Args.swagger_base_path a)
         (or_str (Some (urlparse_path (build_api_serving_url st d))) "/") |}.

(** The route [setup] adds for the schema. *)
Definition legacy_schema_route (self : Legacy.SwaggerPlugin) : app_route :=
  {| route_method := "GET";
     route_rule := urljoin (Legacy.swagger_base_path self)
                     (Legacy.swagger_schema_suburl self);
     route_callback := swagger_schema_endpoint |}.

(** A plugin of the package that has the attributes of a plugin of the
    single-file module, no UI, and the schema URL the module joins on
    every request. *)
Definition same_plugin (p : Legacy.SwaggerPlugin) (q : SwaggerPlugin) : Prop :=
  ignore_undefined_routes q = Legacy.ignore_undefined_routes p
  /\ auto_jsonify q = Legacy.auto_jsonify p
  /\ invalid_request_handler q = Legacy.invalid_request_handler p
  /\ invalid_response_handler q = Legacy.invalid_response_handler p
  /\ swagger_op_not_found_handler q = Legacy.swagger_op_not_found_handler p
  /\ exception_handler q = Legacy.exception_handler p
  /\ serve_swagger_schema q = Legacy.serve_swagger_schema p
  /\ swagger q = Legacy.swagger p
  /\ swagger_base_path q = Legacy.swagger_base_path p
  /\ serve_swagger_ui q = false
  /\ swagger_schema_url q
     = urljoin (Legacy.swagger_base_path p) (Legacy.swagger_schema_suburl p).

Lemma legacy_copy_then_override (a : Legacy.Args.t) (items : gmap string pyval)
    (s : InitState) {B} (k : loc -> Init B) :
  init_objects s !! Legacy.Args.swagger_def a = Some items ->
  (let! swagger_def := dict_copy (Legacy.Args.swagger_def a) in
   do! match Legacy.Args.swagger_base_path a with
       | Some base => dict_update swagger_def "basePath" (PStr base)
       | None => ret tt
       end in
   k swagger_def) s
  = k (fresh (dom (init_objects s)))
      {| init_objects :=
           <[fresh (dom (init_objects s)) := legacy_plugin_copy a items]>
             (init_objects s);
         self_dict := self_dict s |}.
Proof.
  intros Hitems. unfold bind, dict_copy, dict_update, ret, legacy_plugin_copy.
  rewrite Hitems.
  destruct (Legacy.Args.swagger_base_path a); cbn [init_objects self_dict].
  - rewrite alter_insert_eq. reflexivity.
  - reflexivity.
Qed.

Ltac attr_lookup :=
  cbn [self_dict init_objects];
  repeat first [ rewrite lookup_insert_eq
               | rewrite lookup_insert_ne by discriminate
               | rewrite lookup_empty ];
  reflexivity.

Ltac init_step :=
  erewrite bind_returns;
  [| first [ apply getattr_bool_returns; attr_lookup
           | apply getattr_str_returns; attr_lookup
           | apply getattr_opt_str_returns; attr_lookup
           | apply getattr_error_handler_returns; attr_lookup
           | apply getattr_route_handler_returns; attr_lookup
           | apply getattr_config_returns; attr_lookup
           | apply getattr_spec_returns; attr_lookup
           | reflexivity ] ];
  cbn [init_objects self_dict].

(** Construction, up to [Spec.from_dict]: the library's verdict on the
    copy decides. *)
Lemma legacy_new (a : Legacy.Args.t) (st : store) (items : gmap string pyval) :
  st !! Legacy.Args.swagger_def a = Some items ->
  let d := fresh (dom st) in
  let st1 := <[d := legacy_plugin_copy a items]> st in
  Legacy.new_SwaggerPlugin a st =
  match spec_build_error st1 d (legacy_config_of a) with
  | Some e => (Raise e, st1)
  | None => (Return (legacy_constructed a st1 d), st1)
  end.
Proof.
  intros Hitems d st1. unfold Legacy.new_SwaggerPlugin.
  destruct (spec_build_error st1 d (legacy_config_of a)) as [e|] eqn:Hbuild.
  - eassert (Hinit : Legacy.__init__ a {| init_objects := st; self_dict := ∅ |}
                     = (Raise e, {| init_objects := st1; self_dict := _ |})).
    { unfold Legacy.__init__.
      rewrite (legacy_copy_then_override a items); [|exact Hitems].
      cbn [init_objects self_dict]. fold d. fold st1.
      do 12 init_step. fold (legacy_config_of a).
      apply bind_raises.
      unfold Spec_from_dict. cbn [init_objects]. rewrite Hbuild. reflexivity. }
    rewrite (bind_raises _ _ _ _ _ Hinit). reflexivity.
  - eassert (Hinit : Legacy.__init__ a {| init_objects := st; self_dict := ∅ |}
                     = (Return tt, {| init_objects := st1; self_dict := _ |})).
    { unfold Legacy.__init__.
      rewrite (legacy_copy_then_override a items); [|exact Hitems].
      cbn [init_objects self_dict]. fold d. fold st1.
      do 12 init_step. fold (legacy_config_of a).
      erewrite bind_returns;
        [|unfold Spec_from_dict; cbn [init_objects]; rewrite Hbuild; reflexivity].
      cbn [init_objects self_dict].
      do 2 init_step. reflexivity. }
    rewrite (bind_returns _ _ _ _ _ Hinit).
    unfold Legacy.read_plugin. do 11 init_step. reflexivity.
Qed.

(** X11. In the single-file module every document the schema library
    accepts constructs a plugin, with schema serving on and with schema
    serving off, and the plugin has the toggle as it was given: with it
    on, [setup] adds one GET route, at the base path joined with the
    schema sub-path, and with it off [setup] adds nothing. The schema
    endpoint returns the plugin's document and writes nothing. When the
    library rejects the document, construction raises the library's
    exception. *)
Theorem legacy_construction_honours_the_schema_toggle
    (a : Legacy.Args.t) (st : store) (items : gmap string pyval) :
  st !! Legacy.Args.swagger_def a = Some items ->
  let d := fresh (dom st) in
  let st1 := <[d := legacy_plugin_copy a items]> st in
  match spec_build_error st1 d (legacy_config_of a) with
  | Some e => Legacy.new_SwaggerPlugin a st = (Raise e, st1)
  | None =>
      exists self,
        Legacy.new_SwaggerPlugin a st = (Return self, st1)
        /\ Legacy.serve_swagger_schema self = Legacy.Args.serve_swagger_schema a
        /\ Legacy.swagger_base_path self <> ""
        /\ spec_dict (Legacy.swagger self) = d
        /\ (forall routes,
              Legacy.setup self routes
              = if Legacy.Args.serve_swagger_schema a
                then (routes ++ [legacy_schema_route self])%list
                else routes)
        /\ (forall w,
              Legacy.swagger_schema self w = (Return (PDictRef d), w))
  end.
Proof.
  intros Hitems d st1.
  rewrite (legacy_new a st items Hitems). fold d. fold st1.
  destruct (spec_build_error st1 d (legacy_config_of a)) as [e|];
    [reflexivity|].
  exists (legacy_constructed a st1 d).
  split; [reflexivity|]. split; [reflexivity|]. split; [|split; [|split]].
  - cbn [legacy_constructed Legacy.swagger_base_path]. unfold or_str.
    destruct (Legacy.Args.swagger_base_path a) as [base|];
      repeat case_bool_decide; congruence.
  - reflexivity.
  - intros routes. unfold Legacy.setup.
    cbn [legacy_constructed Legacy.serve_swagger_schema].
    destruct (Legacy.Args.serve_swagger_schema a); reflexivity.
  - intros w. reflexivity.
Qed.

(** The plugin of the package that [same_plugin] describes, with the
    attributes the single-file module does not have at the defaults of
    the package's signature. *)
Definition package_view (p : Legacy.SwaggerPlugin) : SwaggerPlugin :=
  {| ignore_undefined_routes := Legacy.ignore_undefined_routes p;
     auto_jsonify := Legacy.auto_jsonify p;
     invalid_request_handler := Legacy.invalid_request_handler p;
     invalid_response_handler := Legacy.invalid_response_handler p;
     swagger_op_not_found_handler := Legacy.swagger_op_not_found_handler p;
     exception_handler := Legacy.exception_handler p;
     serve_swagger_schema := Legacy.serve_swagger_schema p;
     serve_swagger_ui := false;
     swagger_ui_validator_url := None;
     swagger_schema_suburl := Legacy.swagger_schema_suburl p;
     swagger_ui_suburl := Args.DEFAULT_SWAGGER_UI_SUBURL;
     bravado_config := Legacy.bravado_config p;
     swagger := Legacy.swagger p;
     swagger_base_path := Legacy.swagger_base_path p;
     adjust_api_base_path := true;
     swagger_schema_url :=
       urljoin (Legacy.swagger_base_path p) (Legacy.swagger_schema_suburl p);
     swagger_ui_base_url :=
       urljoin (rstrip_slash (Legacy.swagger_base_path p) +:+ "/")
         (lstrip_slash Args.DEFAULT_SWAGGER_UI_SUBURL) |}.

Lemma package_view_is_the_same_plugin (p : Legacy.SwaggerPlugin) :
  same_plugin p (package_view p).
Proof. unfold same_plugin. repeat split; reflexivity. Qed.

(** X12. The single-file module intercepts as the package does: a plugin
    of the package with the same attributes, the UI off, and as schema
    URL the base path joined with the schema sub-path, makes of every
    request, callback and route the same outcome, the same world and the
    same calls in the same order. *)
Theorem legacy_interception_is_the_package_interception
    (p : Legacy.SwaggerPlugin) (q : SwaggerPlugin)
    (callback : list pyval -> Eff pyval) (route : Route) (args : list pyval)
    (s : MState) :
  same_plugin p q ->
  Legacy._swagger_validate p callback route args s
  = _swagger_validate q callback route args s.
Proof.
  intros (H1 & H2 & H3 & H4 & H5 & H6 & H7 & H8 & H9 & H10 & H11).
  destruct p, q. cbn in H1, H2, H3, H4, H5, H6, H7, H8, H9, H10, H11.
  subst.
  unfold Legacy._swagger_validate, _swagger_validate, Legacy._swagger_op,
    _swagger_op, Legacy.validated_call, validated_call.
  cbn [Legacy.ignore_undefined_routes Legacy.auto_jsonify
       Legacy.invalid_request_handler Legacy.invalid_response_handler
       Legacy.swagger_op_not_found_handler Legacy.exception_handler
       Legacy.serve_swagger_schema Legacy.swagger_schema_suburl
       Legacy.swagger Legacy.swagger_base_path
       ignore_undefined_routes auto_jsonify invalid_request_handler
       invalid_response_handler swagger_op_not_found_handler
       exception_handler serve_swagger_schema serve_swagger_ui swagger
       swagger_base_path swagger_schema_url swagger_ui_base_url andb].
  reflexivity.
Qed.

End LegacyFacts.

(** ** The schema endpoint in both modules *)

Section SchemaEndpoints.
Context `{Ext : Externals}.







End SchemaEndpoints.

(** ** The plugin on the pet store *)

Section OnThePetStore.

#[local] Existing Instance PetStore.externals.

(** C4. The rule [/pets/<id:int>/toys/<name>] has two placeholders, the
    first with a type. Its translation should be
    [/pets/{id}/toys/{name}]; the pattern's greedy [.+] runs to the last
    [>] of the rule, so one match swallows the literal segment and the
    second placeholder, and the path looked up is [/pets/{id}]. *)
Theorem typed_placeholder_swallows_the_rest_of_the_rule :
  swagger_path "/pets/<id:int>/toys/<name>" = "/pets/{id}".
Proof. vm_compute. reflexivity. Qed.

(** What does translate: single placeholders, typed or not, literal
    segments around an untyped placeholder, and a typed placeholder that
    comes last. *)
Lemma placeholders_that_translate :
  swagger_path "/<id>" = "/{id}"
  /\ swagger_path "/<id:int>" = "/{id}"
  /\ swagger_path "/pets/<id>/toys/<name>" = "/pets/{id}/toys/{name}"
  /\ swagger_path "/pets/<id>/toys/<name:re:[a-z]+>" = "/pets/{id}/toys/{name}"
  /\ swagger_path "/pets/<id:int>/toys" = "/pets/{id}/toys"
  /\ swagger_path "/pets/toys" = "/pets/toys".
Proof. vm_compute. repeat split; reflexivity. Qed.

Lemma pet_store_document : PetStore.caller_store !! 0 = Some PetStore.schema.
Proof. apply lookup_singleton_eq. Qed.

Lemma pet_store_fresh_address : fresh (dom PetStore.caller_store) = 1.
Proof. vm_compute. reflexivity. Qed.

Lemma pet_store_default_config :
  config_of (Args.defaults 0) = PetStore.default_config.
Proof.
  unfold config_of, PetStore.default_config. cbn [Args.defaults
    Args.validate_swagger_spec Args.validate_requests Args.validate_responses
    Args.use_bravado_models Args.user_defined_formats
    Args.include_missing_properties Args.default_type_to_object
    Args.internally_dereference_refs Args.extra_bravado_config
    or_empty_dict default].
  apply (right_id ∅ (∪)).
Qed.

Lemma pet_store_document_is_accepted (cfg : gmap string pyval) :
  PetStore.spec_build_error PetStore.live_store 1 cfg = None.
Proof.
  unfold PetStore.spec_build_error, PetStore.live_store.
  rewrite lookup_insert_eq.
  replace (PetStore.schema !! "swagger") with (Some (PStr "2.0"))
    by (vm_compute; reflexivity).
  destruct (cfg !! "validate_swagger_spec") as [[| [] | | | | | |]|]; reflexivity.
Qed.

(** The default arguments construct the pet store's plugin. *)
Lemma pet_store_plugin_is_constructed :
  new_SwaggerPlugin (Args.defaults 0) PetStore.caller_store
  = (Return PetStore.plugin, PetStore.live_store).
Proof.
  rewrite (new_with_schema_serving (Args.defaults 0) PetStore.caller_store
             PetStore.schema pet_store_document eq_refl).
  rewrite pet_store_fresh_address.
  change (plugin_copy (Args.defaults 0) PetStore.schema) with PetStore.schema.
  fold PetStore.live_store.
  change (@spec_build_error PetStore.externals) with PetStore.spec_build_error.
  rewrite pet_store_document_is_accepted.
  unfold constructed, base_path_of. rewrite pet_store_default_config.
  replace (build_api_serving_url PetStore.live_store 1)
    with "http://localhost/api" by (vm_compute; reflexivity).
  reflexivity.
Qed.

(** C7. On the pet store's document, which the default arguments accept,
    construction with [serve_swagger_schema=False] raises
    [AttributeError], with the UI off and with the UI on: [__init__]
    reads [self.serve_swagger_ui] one statement before it assigns it.
    With [serve_swagger_schema=True] both settings of the UI construct a
    plugin. *)
Theorem construction_without_schema_serving_raises :
  fst (new_SwaggerPlugin
         (Args.set_serve_swagger_schema false (Args.defaults 0))
         PetStore.caller_store)
  = Raise no_serve_swagger_ui
  /\ fst (new_SwaggerPlugin
            (Args.set_serve_swagger_schema false
               (Args.set_serve_swagger_ui true (Args.defaults 0)))
            PetStore.caller_store)
     = Raise no_serve_swagger_ui
  /\ fst (new_SwaggerPlugin (Args.defaults 0) PetStore.caller_store)
     = Return PetStore.plugin
  /\ (exists self,
        fst (new_SwaggerPlugin
               (Args.set_serve_swagger_ui true (Args.defaults 0))
               PetStore.caller_store)
        = Return self
        /\ serve_swagger_ui self = true).
Proof.
  split; [|split; [|split]].
  - rewrite (new_without_schema_serving
               (Args.set_serve_swagger_schema false (Args.defaults 0))
               PetStore.caller_store PetStore.schema pet_store_document eq_refl).
    reflexivity.
  - rewrite (new_without_schema_serving
               (Args.set_serve_swagger_schema false
                  (Args.set_serve_swagger_ui true (Args.defaults 0)))
               PetStore.caller_store PetStore.schema pet_store_document eq_refl).
    reflexivity.
  - rewrite pet_store_plugin_is_constructed. reflexivity.
  - rewrite (new_with_schema_serving
               (Args.set_serve_swagger_ui true (Args.defaults 0))
               PetStore.caller_store PetStore.schema pet_store_document eq_refl).
    rewrite pet_store_fresh_address.
    change (plugin_copy _ PetStore.schema) with PetStore.schema.
    fold PetStore.live_store.
    change (@spec_build_error PetStore.externals) with PetStore.spec_build_error.
    rewrite pet_store_document_is_accepted.
    eexists. split; reflexivity.
Qed.

(** C1 on the pet store: POST /api/pets without a body. The answer is
    the 400 dict, the status code reads 400, the pet is not stored, and
    the log ends with the handler; the same request with a named pet in
    its body passes request validation. *)
Lemma invalid_request_on_the_pet_store :
  let s := PetStore.incoming "POST" PNone "" in
  let pet := PDict [("name", PStr "rex")] in
  let run := _swagger_validate PetStore.plugin PetStore.add_pet
               (PetStore.route_of "/api/pets") [] s in
  run
  = (Return (PDict [("code", PInt 400);
                    ("message", PStr "'name' is a required property")]),
     {| world := assign_status 400 (assign_swagger_op "addPet" (world s));
        trace := trace s ++ [lookup_event (PetStore.route_of "/api/pets") (world s);
                             EvUnmarshalRequest;
                             EvInvalidRequestHandler PetStore.required_name] |})
  /\ resp_status_code (response (world (snd run))) = 400%Z
  /\ resp_status_code (response (world s)) = 200%Z
  /\ app (world (snd run)) = []
  /\ in_json (make_BottleIncomingRequest
                (request (world (PetStore.incoming "POST" pet "")))) = pet
  /\ unmarshal_request
       (make_BottleIncomingRequest
          (request (world (PetStore.incoming "POST" pet "")))) "addPet"
     = Return (PDict [("pet", pet)]).
Proof.
  intros s pet run.
  assert (Hop : resolved_operation PetStore.plugin
                  (PetStore.route_of "/api/pets") (world s) = Some "addPet")
    by (vm_compute; reflexivity).
  assert (Hun : unmarshal_request
                  (make_BottleIncomingRequest (request (world s))) "addPet"
                = Raise PetStore.required_name)
    by (vm_compute; reflexivity).
  destruct (invalid_request_is_answered_by_its_handler
              PetStore.plugin PetStore.add_pet (PetStore.route_of "/api/pets")
              [] s "addPet" PetStore.required_name Hop Hun eq_refl)
    as (_ & _ & Hdefault & Hstatus & _).
  destruct (Hstatus eq_refl) as (Hcode & _ & _ & _ & Happ & _).
  split; [exact (Hdefault eq_refl)|].
  split; [exact Hcode|].
  split; [reflexivity|].
  split; [exact Happ|].
  split; [reflexivity|].
  vm_compute. reflexivity.
Defined.

(** C2 on the pet store: GET /api/pets/<id:int> with a handler that
    counts the visit and returns a pet without a name. The answer is the
    500 dict, the status code reads 500, and the visit stays counted;
    what was checked is the payload without a name, and the same check
    passes a pet with a name. *)
Lemma invalid_response_on_the_pet_store :
  let s := PetStore.incoming "GET" PNone "" in
  let route := PetStore.route_of "/api/pets/<id:int>" in
  let w3 := PetStore.db_write "UPDATE visits"
              (validated_world "getPet" (PDict [("path", PDict [])]) (world s)) in
  let run :=
    _swagger_validate PetStore.plugin PetStore.get_pet_without_name route [] s in
  run
  = (Return (PDict [("code", PInt 500);
                    ("message", PStr "'name' is a required property")]),
     {| world := assign_status 500 w3;
        trace := trace s
                 ++ [lookup_event route (world s); EvUnmarshalRequest; EvCallback]
                 ++ response_check_events "getPet" w3
                 ++ [EvInvalidResponseHandler PetStore.required_name] |})
  /\ resp_status_code (response (world (snd run))) = 500%Z
  /\ resp_status_code (response w3) = 200%Z
  /\ app (world (snd run)) = ["UPDATE visits"]
  /\ trace (snd run)
     = [EvGetOp "GET" "/api/pets/{id}"; EvUnmarshalRequest; EvCallback;
        EvGetResponseSpec 200; EvValidateResponse;
        EvInvalidResponseHandler PetStore.required_name]
  /\ out_json (make_BottleOutgoingResponse (response w3) (PDict [("id", PInt 7)]))
     = PDict [("id", PInt 7)]
  /\ response_check "getPet" (PDict [("name", PStr "rex")]) w3 = Return tt.
Proof.
  intros s route w3 run.
  assert (Hop : resolved_operation PetStore.plugin route (world s) = Some "getPet")
    by (vm_compute; reflexivity).
  assert (Hun : unmarshal_request
                  (make_BottleIncomingRequest (request (world s))) "getPet"
                = Return (PDict [("path", PDict [])]))
    by (vm_compute; reflexivity).
  assert (Hcheck : response_check "getPet" (PDict [("id", PInt 7)]) w3
                   = Raise PetStore.required_name)
    by (vm_compute; reflexivity).
  destruct (invalid_response_is_answered_by_its_handler
              PetStore.plugin PetStore.get_pet_without_name route [] s "getPet"
              (PDict [("path", PDict [])]) (PDict [("id", PInt 7)]) w3
              PetStore.required_name Hop Hun eq_refl Hcheck (or_introl eq_refl))
    as (_ & Hdefault & Hstatus & Hchecked).
  destruct (Hstatus eq_refl) as (Hcode & _ & _ & _ & _ & Happ).
  destruct Hchecked as (Hjson & _).
  split; [exact (Hdefault eq_refl)|].
  split; [exact Hcode|].
  split; [reflexivity|].
  split; [exact Happ|].
  split; [unfold run; rewrite (Hdefault eq_refl); vm_compute; reflexivity|].
  split; [exact Hjson|].
  vm_compute. reflexivity.
Defined.

(** C3, the claim as stated, on the pet store: GET /health is outside
    the API and resolves to no operation; its handler raises a
    [RuntimeError], which is an [Exception] and no [HTTPResponse]. The
    routine raises it to its caller, and the exception handler is not
    called. *)
Lemma exception_of_an_unmatched_route_escapes :
  let run :=
    _swagger_validate PetStore.plugin PetStore.health_down
      (PetStore.route_of "/health") [] (PetStore.incoming "GET" PNone "") in
  fst run = Raise (Exn RuntimeError "database is down")
  /\ trace (snd run) = [EvGetOp "GET" "/health"; EvCallback]
  /\ is_Exception (Exn RuntimeError "database is down") = true
  /\ isinstance (Exn RuntimeError "database is down") HTTPResponse = false.
Proof. repeat split; vm_compute; reflexivity. Qed.

(** C3 as amended, on the pet store: GET /api/pets/<id:int> with a
    handler that raises the same [RuntimeError]. The exception handler
    answers with the 500 dict. *)
Lemma exception_of_a_matched_route_is_handled :
  let s := PetStore.incoming "GET" PNone "" in
  let route := PetStore.route_of "/api/pets/<id:int>" in
  let e := Exn RuntimeError "database is down" in
  let w3 := PetStore.db_write "BEGIN"
              (validated_world "getPet" (PDict [("path", PDict [])]) (world s)) in
  let s3 := {| world := w3;
               trace := trace s ++ lookup_event route (world s)
                          :: EvUnmarshalRequest :: [EvCallback] |} in
  _swagger_validate PetStore.plugin PetStore.get_pet_crash route [] s
  = outer_except PetStore.plugin e s3
  /\ fst (outer_except PetStore.plugin e s3)
     = Return (PDict [("code", PInt 500); ("message", PStr "database is down")])
  /\ trace (snd (outer_except PetStore.plugin e s3))
     = [EvGetOp "GET" "/api/pets/{id}"; EvUnmarshalRequest; EvCallback;
        EvExceptionHandler e].
Proof.
  intros s route e w3 s3.
  assert (Hop : resolved_operation PetStore.plugin route (world s) = Some "getPet")
    by (vm_compute; reflexivity).
  assert (Hun : unmarshal_request
                  (make_BottleIncomingRequest (request (world s))) "getPet"
                = Return (PDict [("path", PDict [])]))
    by (vm_compute; reflexivity).
  destruct (exceptions_after_resolution_reach_the_outer_except
              PetStore.plugin PetStore.get_pet_crash route [] s "getPet" Hop)
    as (_ & _ & Hcallback & _).
  split; [exact (Hcallback (PDict [("path", PDict [])]) e w3 Hun eq_refl)|].
  split; vm_compute; reflexivity.
Defined.

(** C5, the claim as stated, on the pet store: /health does not begin
    with the base path /api, and the first call the routine makes for it
    is the schema lookup. *)
Lemma route_outside_base_path_is_looked_up :
  let run :=
    _swagger_validate PetStore.plugin PetStore.health
      (PetStore.route_of "/health") [] (PetStore.incoming "GET" PNone "") in
  startswith "/health" (swagger_base_path PetStore.plugin) = false
  /\ trace (snd run) = [EvGetOp "GET" "/health"; EvCallback]
  /\ fst run = Return (PDict [("status", PStr "up")]).
Proof. repeat split; vm_compute; reflexivity. Qed.

(** C5 as amended, on the pet store. *)
Lemma route_outside_base_path_on_the_pet_store :
  let s := PetStore.incoming "GET" PNone "" in
  let route := PetStore.route_of "/health" in
  _swagger_validate PetStore.plugin PetStore.health route [] s
  = (fst (PetStore.health [] (world s)),
     {| world := snd (PetStore.health [] (world s));
        trace := trace s ++ [lookup_event route (world s); EvCallback] |}).
Proof.
  intros s route.
  assert (Hout : startswith (rule route) (swagger_base_path PetStore.plugin) = false)
    by (vm_compute; reflexivity).
  assert (Hop : resolved_operation PetStore.plugin route (world s) = None)
    by (vm_compute; reflexivity).
  exact (route_outside_base_path_is_delegated
           PetStore.plugin PetStore.health route [] s Hout Hop).
Defined.

(** C6 on the pet store: with [ignore_undefined_api_routes=True], GET
    /api/legacy is under the base path and not in the schema; its handler
    runs and its list is returned as a list, although [auto_jsonify] is
    on. *)
Lemma ignored_undefined_route_on_the_pet_store :
  let s := PetStore.incoming "GET" PNone "" in
  let route := PetStore.route_of "/api/legacy" in
  let self := PetStore.plugin_with true true in
  _swagger_validate self PetStore.legacy_page route [] s
  = (fst (PetStore.legacy_page [] (world s)),
     {| world := snd (PetStore.legacy_page [] (world s));
        trace := trace s ++ [lookup_event route (world s); EvCallback] |})
  /\ fst (PetStore.legacy_page [] (world s)) = Return (PList [PInt 1; PInt 2])
  /\ startswith (rule route) (swagger_base_path self) = true.
Proof.
  intros s route self.
  assert (Hop : resolved_operation self route (world s) = None)
    by (vm_compute; reflexivity).
  split; [|split; vm_compute; reflexivity].
  exact (ignored_undefined_route_is_forwarded
           self PetStore.legacy_page route [] s eq_refl Hop).
Defined.

(** C8 on the pet store: GET /api/pets returns a list of ids, which is
    sent as the text [[1, 2]]; the content type, [text/html] before,
    reads [application/json] after, and the status code stays 200. With
    [auto_jsonify=False] the same list is returned as it is and the
    content type stays [text/html]. *)
Lemma checked_result_on_the_pet_store :
  let s := PetStore.incoming "GET" PNone "" in
  let route := PetStore.route_of "/api/pets" in
  let data := PDict [("path", PDict [])] in
  let payload := PList [PInt 1; PInt 2] in
  let w3 := validated_world "listPets" data (world s) in
  let log := (trace s
              ++ [lookup_event route (world s); EvUnmarshalRequest; EvCallback;
                  EvGetResponseSpec (resp_status_code (response w3));
                  EvValidateResponse])%list in
  let sent := _swagger_validate (PetStore.plugin_with false true)
                PetStore.list_pet_ids route [] s in
  let plain := _swagger_validate (PetStore.plugin_with false false)
                 PetStore.list_pet_ids route [] s in
  sent = (Return (PStr "[1, 2]"),
          {| world := assign_content_type "application/json" w3;
             trace := log ++ [EvJsonDumps] |})
  /\ resp_content_type (response (world s)) = "text/html; charset=UTF-8"
  /\ resp_content_type (response (world (snd sent))) = "application/json"
  /\ resp_status_code (response (world (snd sent))) = 200%Z
  /\ plain = (Return payload, {| world := w3; trace := log |})
  /\ resp_content_type (response (world (snd plain))) = "text/html; charset=UTF-8".
Proof.
  intros s route data payload w3 log sent plain.
  assert (Hun : unmarshal_request
                  (make_BottleIncomingRequest (request (world s))) "listPets"
                = Return data)
    by (vm_compute; reflexivity).
  assert (Hcheck : response_check "listPets" payload w3 = Return tt)
    by (vm_compute; reflexivity).
  assert (Hdumps : json_dumps (objects w3) payload = Return "[1, 2]")
    by (vm_compute; reflexivity).
  assert (Hop : resolved_operation (PetStore.plugin_with false true) route
                  (world s) = Some "listPets")
    by (vm_compute; reflexivity).
  assert (Hop' : resolved_operation (PetStore.plugin_with false false) route
                   (world s) = Some "listPets")
    by (vm_compute; reflexivity).
  destruct (checked_result_is_serialized_or_passed_through
              (PetStore.plugin_with false true) PetStore.list_pet_ids route []
              s "listPets" data payload w3 Hop Hun eq_refl Hcheck)
    as (Hjson & _).
  specialize (Hjson eq_refl eq_refl). rewrite Hdumps in Hjson.
  destruct Hjson as (Hsent & Htype & Hstatus & _).
  destruct (checked_result_is_serialized_or_passed_through
              (PetStore.plugin_with false false) PetStore.list_pet_ids route []
              s "listPets" data payload w3 Hop' Hun eq_refl Hcheck)
    as (_ & Hplain).
  specialize (Hplain (or_introl eq_refl)).
  split; [exact Hsent|].
  split; [reflexivity|].
  split; [exact Htype|].
  split; [exact Hstatus|].
  split; [exact Hplain|].
  unfold plain. rewrite Hplain. reflexivity.
Defined.

(** The package's schema endpoint on the pet store mounted under /v1: a GET
    of /api/swagger.json goes through the plugin to the endpoint and gets
    the plugin's document, in which [basePath] is now /v1/api. The
    document the plugin was constructed from, and the plugin's copy
    before the request, say /api. *)
Lemma schema_served_under_a_mount_is_adjusted :
  let s := PetStore.incoming "GET" PNone "/v1" in
  let run :=
    _swagger_validate PetStore.plugin (fun _ => swagger_schema PetStore.plugin)
      (PetStore.route_of "/api/swagger.json") [] s in
  fst run = Return (PDictRef 1)
  /\ item (objects (world s)) 0 "basePath" = Some (PStr "/api")
  /\ item (objects (world s)) 1 "basePath" = Some (PStr "/api")
  /\ item (objects (world (snd run))) 1 "basePath" = Some (PStr "/v1/api")
  /\ resp_status_code (response (world (snd run))) = 200%Z.
Proof. repeat split; vm_compute; reflexivity. Qed.



(** C10 on the pet store: construction with [swagger_base_path] given
    leaves the caller's document as it was. *)
Lemma caller_document_on_the_pet_store :
  let a := Args.set_swagger_base_path (Some "/v2") (Args.defaults 0) in
  snd (new_SwaggerPlugin a PetStore.caller_store) !! 0 = Some PetStore.schema
  /\ PetStore.schema !! "basePath" = Some (PStr "/api").
Proof.
  intros a. split; [|vm_compute; reflexivity].
  exact (proj1 (caller_document_is_left_unchanged a PetStore.caller_store)
           0 PetStore.schema pet_store_document).
Defined.

(** X1 on a rule with a literal, an untyped placeholder and a typed
    placeholder that comes last. *)
Lemma translatable_rule_example :
  swagger_path "/pets/<id>/toys/<name:re:[a-z]+>/all"
  = "/pets/{id}/toys/{name}/all".
Proof.
  exact (translatable_rule_is_translated
           [Literal "pets"; Placeholder "id"; Literal "toys";
            Typed "name" "re:[a-z]+"; Literal "all"]
           eq_refl).
Defined.

(** X4 on the pet store: GET /api/pets is validated, called and checked;
    the response lookup comes fourth, behind the callback. *)
Lemma response_check_follows_the_callback_on_the_pet_store :
  let s := PetStore.incoming "GET" PNone "" in
  let route := PetStore.route_of "/api/pets" in
  let before := [EvGetOp "GET" "/api/pets"; EvUnmarshalRequest; EvCallback] in
  let after := [EvValidateResponse; EvJsonDumps] in
  trace (snd (_swagger_validate PetStore.plugin PetStore.list_pets route [] s))
  = (trace s ++ before ++ EvGetResponseSpec 200 :: after)%list
  /\ EvCallback ∈ before.
Proof.
  intros s route before after.
  assert (Htrace :
    trace (snd (_swagger_validate PetStore.plugin PetStore.list_pets route [] s))
    = (trace s ++ before ++ EvGetResponseSpec 200 :: after)%list)
    by (vm_compute; reflexivity).
  split; [exact Htrace|].
  exact (response_is_checked_after_the_callback PetStore.plugin
           PetStore.list_pets route [] s before after (EvGetResponseSpec 200)
           Htrace eq_refl).
Defined.

(** X5 on the pet store: GET /api/unknown is under the base path and not
    in the schema; the default handler answers 404, the status code,
    200 before, reads 404 after, and the callback, which would have
    written to the database, is not called. *)
Lemma unknown_route_on_the_pet_store :
  let s := PetStore.incoming "GET" PNone "" in
  let route := PetStore.route_of "/api/unknown" in
  let run := _swagger_validate PetStore.plugin PetStore.legacy_page route [] s in
  run
  = (Return (PDict [("code", PInt 404);
                    ("message", PStr "<GET '/api/unknown'>")]),
     {| world := assign_status 404 (world s);
        trace := trace s ++ [lookup_event route (world s);
                             EvNotFoundHandler "/api/unknown"] |})
  /\ resp_status_code (response (world s)) = 200%Z
  /\ resp_status_code (response (world (snd run))) = 404%Z
  /\ app (world (snd run)) = [].
Proof.
  intros s route run.
  assert (Hop : resolved_operation PetStore.plugin route (world s) = None)
    by (vm_compute; reflexivity).
  assert (Hblocked : let_through PetStore.plugin route = false)
    by (vm_compute; reflexivity).
  destruct (unmatched_route_is_forwarded_or_not_found PetStore.plugin
              PetStore.legacy_page route [] s Hop)
    as (_ & Hdefault & Hstatus).
  destruct (Hstatus eq_refl Hblocked) as (Hcode & _ & _ & _ & _ & Happ).
  split; [exact (Hdefault eq_refl Hblocked)|].
  split; [reflexivity|].
  split; [exact Hcode|].
  exact Happ.
Defined.

(** X6 on the pet store: POST /api/pets with a named pet. A callback
    that returns the pet it finds in [request.swagger_data] runs as the
    one that returns the pet that was posted. *)
Lemma callback_reads_the_validated_request_on_the_pet_store :
  let pet := PDict [("name", PStr "rex")] in
  let s := PetStore.incoming "POST" pet "" in
  let route := PetStore.route_of "/api/pets" in
  let posted : list pyval -> Eff pyval := fun _ w => (Return pet, w) in
  let validated : list pyval -> Eff pyval :=
    fun _ w =>
      (Return match req_swagger_data (request w) with
              | Some (PDict [(_, found)]) => found
              | _ => PNone
              end, w) in
  _swagger_validate PetStore.plugin validated route [] s
  = _swagger_validate PetStore.plugin posted route [] s.
Proof.
  intros pet s route posted validated.
  assert (Hop : resolved_operation PetStore.plugin route (world s) = Some "addPet")
    by (vm_compute; reflexivity).
  assert (Hun : unmarshal_request
                  (make_BottleIncomingRequest (request (world s))) "addPet"
                = Return (PDict [("pet", pet)]))
    by (vm_compute; reflexivity).
  destruct (callback_sees_the_validated_request PetStore.plugin posted validated
              route [] s "addPet" (PDict [("pet", pet)]) Hop Hun)
    as (_ & _ & _ & _ & _ & _ & _ & _ & Hruns).
  exact (Hruns eq_refl).
Defined.

(** X7 on the pet store: the document is a dict, schema serving is on
    by default and the library accepts the copy, so the default
    arguments construct a plugin. *)
Lemma construction_succeeds_on_the_pet_store :
  PetStore.caller_store !! Args.swagger_def (Args.defaults 0)
  = Some PetStore.schema
  /\ exists self,
       fst (new_SwaggerPlugin (Args.defaults 0) PetStore.caller_store)
       = Return self.
Proof.
  split; [exact pet_store_document|].
  apply (proj2 (proj1 (construction_succeeds_exactly_when
                         (Args.defaults 0) PetStore.caller_store
                         PetStore.schema pet_store_document))).
  split; [reflexivity|].
  rewrite pet_store_fresh_address.
  exact (pet_store_document_is_accepted _).
Defined.

(** X8 on the pet store: no base path is given and the document's API
    URL has the path [/api]. *)
Lemma base_path_on_the_pet_store :
  swagger_base_path PetStore.plugin <> ""
  /\ swagger_base_path PetStore.plugin = "/api".
Proof.
  destruct (constructed_base_path (Args.defaults 0) PetStore.caller_store
              PetStore.live_store PetStore.plugin
              pet_store_plugin_is_constructed)
    as (Hne & _ & Hdocument & _).
  split; [exact Hne|].
  exact (Hdocument (or_introl eq_refl)).
Defined.

(** X9 on the pet store: the defaults validate requests, and no other
    key is in the configuration. *)
Lemma configuration_on_the_pet_store :
  bravado_config PetStore.plugin !! "validate_requests" = Some (PBool true)
  /\ bravado_config PetStore.plugin !! "also_return_response" = None.
Proof.
  destruct (configuration_overrides_the_extra_items (Args.defaults 0)
              PetStore.caller_store PetStore.live_store PetStore.plugin
              pet_store_plugin_is_constructed)
    as (_ & _ & Hrequests & _ & _ & _ & _ & _ & _ & Hother).
  split; [exact Hrequests|].
  apply Hother. unfold forced_keys. intros Hin.
  repeat (apply elem_of_cons in Hin as [Hin|Hin]; [discriminate Hin|]).
  apply elem_of_nil in Hin. exact Hin.
Defined.

(** X11 on the pet store: the single-file module constructs a plugin
    with [serve_swagger_schema=False], and its [setup] adds no route. *)
Lemma legacy_plugin_without_schema_serving :
  exists self,
    Legacy.new_SwaggerPlugin (Legacy.Args.defaults 0 false) PetStore.caller_store
    = (Return self, PetStore.live_store)
    /\ Legacy.serve_swagger_schema self = false
    /\ forall routes, Legacy.setup self routes = routes.
Proof.
  pose proof (legacy_construction_honours_the_schema_toggle
                (Legacy.Args.defaults 0 false) PetStore.caller_store
                PetStore.schema pet_store_document) as H.
  cbv zeta in H. rewrite pet_store_fresh_address in H.
  change (legacy_plugin_copy (Legacy.Args.defaults 0 false) PetStore.schema)
    with PetStore.schema in H.
  fold PetStore.live_store in H.
  change (@spec_build_error PetStore.externals)
    with PetStore.spec_build_error in H.
  rewrite pet_store_document_is_accepted in H.
  destruct H as (self & Hnew & Hserve & _ & _ & Hsetup & _).
  exists self. split; [exact Hnew|]. split; [exact Hserve|]. exact Hsetup.
Defined.

(** X12 on the pet store: GET /api/pets through the plugin of the
    single-file module and through the package's. *)
Lemma legacy_and_package_on_the_pet_store :
  let p := legacy_constructed (Legacy.Args.defaults 0 true) PetStore.live_store 1 in
  let s := PetStore.incoming "GET" PNone "" in
  let route := PetStore.route_of "/api/pets" in
  Legacy._swagger_validate p PetStore.list_pets route [] s
  = _swagger_validate (package_view p) PetStore.list_pets route [] s.
Proof.
  intros p s route.
  exact (legacy_interception_is_the_package_interception p (package_view p)
           PetStore.list_pets route [] s (package_view_is_the_same_plugin p)).
Defined.

(** X13 on a rule of literal segments. *)
Lemma literal_rule_example : swagger_path "/pets/toys" = "/pets/toys".
Proof.
  exact (rule_without_placeholder_is_kept "/pets/toys" (or_introl eq_refl)).
Defined.

(** X14 on a rule with a typed placeholder, a placeholder behind it and
    a literal segment at the end. *)
Lemma typed_placeholder_example :
  swagger_path "/shops/<shop:int>/pets/<pet>/photo" = "/shops/{shop}/photo".
Proof.
  exact (typed_placeholder_reaches_the_last_gt
           "/shops" "shop" "int>/pets/<pet" "/photo"
           eq_refl eq_refl eq_refl eq_refl).
Defined.

(** X15 on the pet store with the UI served: a request for an asset of
    the UI is handed to the asset endpoint. *)
Lemma ui_asset_route_on_the_pet_store :
  let self := constructed (Args.set_serve_swagger_ui true (Args.defaults 0))
                PetStore.live_store 1 in
  let r := {| route_method := "GET";
              route_rule := urljoin (swagger_ui_base_url self) "<path:path>";
              route_callback := swagger_ui_assets_endpoint |} in
  let s := PetStore.incoming "GET" PNone "" in
  let route := PetStore.route_of "/api/ui/<path:path>" in
  _swagger_validate self PetStore.health route [] s
  = (fst (PetStore.health [] (world s)),
     {| world := snd (PetStore.health [] (world s));
        trace := trace s ++ [lookup_event route (world s); EvCallback] |}).
Proof.
  intros self r s route.
  assert (Hin : r ∈ setup self []).
  { change (r ∈ [schema_route self;
                 {| route_method := "GET";
                    route_rule := swagger_ui_base_url self;
                    route_callback := swagger_ui_index_endpoint |};
                 r]).
    apply elem_of_cons. right. apply elem_of_cons. right.
    apply elem_of_cons. left. reflexivity. }
  assert (Hrule : rule route = route_rule r) by (vm_compute; reflexivity).
  assert (Hunder : startswith (route_rule r) (swagger_ui_base_url self) = true)
    by (vm_compute; reflexivity).
  assert (Hop : resolved_operation self route (world s) = None)
    by (vm_compute; reflexivity).
  exact (own_routes_are_let_through self r PetStore.health route [] s
           Hin Hrule (fun _ => Hunder) Hop).
Defined.

(** X16 on the pet store: POST /api/pets without a name is stopped by
    request validation, and the callback is not in the log. *)
Lemma nameless_pet_is_stopped_on_the_pet_store :
  let s := PetStore.incoming "POST" (PDict []) "" in
  let route := PetStore.route_of "/api/pets" in
  exists rest,
    trace (snd (_swagger_validate PetStore.plugin PetStore.add_pet route [] s))
    = (trace s ++ lookup_event route (world s) :: EvUnmarshalRequest :: rest)%list
    /\ EvCallback ∉ rest.
Proof.
  intros s route.
  assert (Hop : resolved_operation PetStore.plugin route (world s) = Some "addPet")
    by (vm_compute; reflexivity).
  destruct (resolved_request_is_validated_first PetStore.plugin PetStore.add_pet
              route [] s "addPet" Hop) as (rest & Htrace & Hstopped).
  exists rest. split; [exact Htrace|].
  apply (Hstopped PetStore.required_name). vm_compute. reflexivity.
Defined.

End OnThePetStore.
